(** * Vacation Balance Planner (app.js): calendar arithmetic, pay schedule,
    balance formula and forecast series.

    The development has three layers.

    - [JS]: the part of the ECMAScript platform that app.js relies on:
      exceptions, Numbers that hold integers, the Date abstract operations
      (Day, YearFromTime, MakeDay, TimeClip, Date.UTC, toISOString),
      [String.prototype.split] and the string-to-Number conversion.
    - [Planner]: the first revision in app.js (weekends only, state key v3).
    - [HolidayPlanner]: the second revision (observed U.S. federal holidays,
      single-day leave entries, state key v2).

    Integer-valued JavaScript Numbers (time values, day counts, period
    lengths) are modelled by [num]: NaN, the two infinities, or an exact
    integer.  All such values the program computes on supported dates are
    far below 2^53, where binary64 arithmetic on integers is exact.  Hour
    amounts (balances, accruals, credits) are binary64 floats, modelled by
    the primitive type [float]. *)

From Stdlib Require Import ZArith List Bool Lia Ascii String Sorted.
From Stdlib Require Import Floats.PrimFloat Floats.SpecFloat Floats.FloatOps.
From stdpp Require Import base gmap strings.

Local Open Scope Z_scope.

(* ================================================================== *)
(** * The ECMAScript platform                                          *)
(* ================================================================== *)

Module JS.

(** ** Exceptions *)

Inductive exn : Type :=
| TypeError
| RangeError.

Inductive result (A : Type) : Type :=
| Ok (a : A)
| Throw (e : exn).
Arguments Ok {A} a.
Arguments Throw {A} e.

Definition bind {A B : Type} (m : result A) (k : A -> result B) : result B :=
  match m with
  | Ok a => k a
  | Throw e => Throw e
  end.

Notation "'let*' x ':=' m 'in' k" := (bind m (fun x => k))
  (at level 10, x name, m at level 100, k at level 200).

(** ** Integer-valued Numbers *)

Inductive num : Type :=
| NaN
| Inf (neg : bool)
| Int (z : Z).

Definition num_opp (a : num) : num :=
  match a with
  | NaN => NaN
  | Inf s => Inf (negb s)
  | Int z => Int (- z)
  end.

Definition num_add (a b : num) : num :=
  match a, b with
  | NaN, _ | _, NaN => NaN
  | Inf s, Inf s' => if Bool.eqb s s' then Inf s else NaN
  | Inf s, Int _ | Int _, Inf s => Inf s
  | Int x, Int y => Int (x + y)
  end.

Definition num_sub (a b : num) : num := num_add a (num_opp b).

Definition num_mul (a b : num) : num :=
  match a, b with
  | NaN, _ | _, NaN => NaN
  | Inf s, Inf s' => Inf (xorb s s')
  | Inf s, Int z | Int z, Inf s =>
      if z =? 0 then NaN else Inf (xorb s (z <? 0))
  | Int x, Int y => Int (x * y)
  end.

(** [Math.floor(a / b)] on integer-valued operands; [Int 0] stands for +0. *)
Definition num_floor_div (a b : num) : num :=
  match a, b with
  | NaN, _ | _, NaN => NaN
  | Inf _, Inf _ => NaN
  | Inf s, Int z => Inf (xorb s (z <? 0))
  | Int _, Inf _ => Int 0
  | Int x, Int y =>
      if y =? 0 then
        (if x =? 0 then NaN else Inf (x <? 0))
      else Int (x / y)
  end.

(** [Math.ceil(a / b)] on integer-valued operands. *)
Definition num_ceil_div (a b : num) : num :=
  match a, b with
  | NaN, _ | _, NaN => NaN
  | Inf _, Inf _ => NaN
  | Inf s, Int z => Inf (xorb s (z <? 0))
  | Int _, Inf _ => Int 0
  | Int x, Int y =>
      if y =? 0 then
        (if x =? 0 then NaN else Inf (x <? 0))
      else Int (- ((- x) / y))
  end.

(** The relational operators on Numbers: every comparison with NaN is
    false. *)
Definition num_lt (a b : num) : bool :=
  match a, b with
  | NaN, _ | _, NaN => false
  | Inf s, Inf s' => s && negb s'
  | Inf s, Int _ => s
  | Int _, Inf s => negb s
  | Int x, Int y => x <? y
  end.

Definition num_le (a b : num) : bool :=
  match a, b with
  | NaN, _ | _, NaN => false
  | Inf s, Inf s' => s || negb s'
  | Inf s, Int _ => s
  | Int _, Inf s => negb s
  | Int x, Int y => x <=? y
  end.

(** Strict equality [===] of Numbers. *)
Definition num_eqb (a b : num) : bool :=
  match a, b with
  | Int x, Int y => x =? y
  | Inf s, Inf s' => Bool.eqb s s'
  | _, _ => false
  end.

(** The remainder operator [%]: the result has the sign of the dividend. *)
Definition num_rem (a b : num) : num :=
  match a, b with
  | Int x, Int y => if y =? 0 then NaN else Int (Z.rem x y)
  | Int x, Inf _ => Int x
  | _, _ => NaN
  end.

(** [Math.min(a, b)]. *)
Definition num_min (a b : num) : num :=
  match a, b with
  | NaN, _ | _, NaN => NaN
  | _, _ => if num_lt b a then b else a
  end.

(** [Math.max(a, b)]. *)
Definition num_max (a b : num) : num :=
  match a, b with
  | NaN, _ | _, NaN => NaN
  | _, _ => if num_lt a b then b else a
  end.

Definition num_gt (a b : num) : bool := num_lt b a.
Definition num_ge (a b : num) : bool := num_le b a.

(** [x || d] for a Number [x]: NaN and zero are falsy. *)
Definition num_or (x d : num) : num :=
  match x with
  | NaN => d
  | Int 0 => d
  | _ => x
  end.

(** ** Day number and time within day (ECMA-262 21.4.1) *)

Definition msPerDay : Z := 86400000.

Definition Day (t : Z) : Z := t / msPerDay.
Definition TimeWithinDay (t : Z) : Z := t mod msPerDay.

Definition DaysInYear (y : Z) : Z :=
  if negb (y mod 4 =? 0) then 365
  else if negb (y mod 100 =? 0) then 366
  else if negb (y mod 400 =? 0) then 365
  else 366.

Definition DayFromYear (y : Z) : Z :=
  365 * (y - 1970) + (y - 1969) / 4 - (y - 1901) / 100 + (y - 1601) / 400.

Definition TimeFromYear (y : Z) : Z := msPerDay * DayFromYear y.

(** The year containing day number [d]: the largest [y] with
    [DayFromYear y <= d], found from an estimate that is off by at most one. *)
Definition YearFromDay (d : Z) : Z :=
  let y := 1970 + (400 * d) / 146097 in
  if d <? DayFromYear y then y - 1
  else if DayFromYear (y + 1) <=? d then y + 1
  else y.

Definition YearFromTime (t : Z) : Z := YearFromDay (Day t).

Definition InLeapYear (t : Z) : Z :=
  if DaysInYear (YearFromTime t) =? 366 then 1 else 0.

Definition DayWithinYear (t : Z) : Z := Day t - DayFromYear (YearFromTime t).

Definition MonthFromTime (t : Z) : Z :=
  let d := DayWithinYear t in
  let l := InLeapYear t in
  if d <? 31 then 0
  else if d <? 59 + l then 1
  else if d <? 90 + l then 2
  else if d <? 120 + l then 3
  else if d <? 151 + l then 4
  else if d <? 181 + l then 5
  else if d <? 212 + l then 6
  else if d <? 243 + l then 7
  else if d <? 273 + l then 8
  else if d <? 304 + l then 9
  else if d <? 334 + l then 10
  else 11.

Definition DateFromTime (t : Z) : Z :=
  let d := DayWithinYear t in
  let l := InLeapYear t in
  match MonthFromTime t with
  | 0 => d + 1
  | 1 => d - 30
  | 2 => d - 58 - l
  | 3 => d - 89 - l
  | 4 => d - 119 - l
  | 5 => d - 150 - l
  | 6 => d - 180 - l
  | 7 => d - 211 - l
  | 8 => d - 242 - l
  | 9 => d - 272 - l
  | 10 => d - 303 - l
  | _ => d - 333 - l
  end.

Definition WeekDay (t : Z) : Z := (Day t + 4) mod 7.

Definition HourFromTime (t : Z) : Z := (t / 3600000) mod 24.
Definition MinFromTime (t : Z) : Z := (t / 60000) mod 60.
Definition SecFromTime (t : Z) : Z := (t / 1000) mod 60.
Definition msFromTime (t : Z) : Z := t mod 1000.

(** Number of days from the start of a year to the start of month [mn]
    (0-based), [l] being 1 in a leap year. *)
Definition MonthStart (mn l : Z) : Z :=
  match mn with
  | 0 => 0
  | 1 => 31
  | 2 => 59 + l
  | 3 => 90 + l
  | 4 => 120 + l
  | 5 => 151 + l
  | 6 => 181 + l
  | 7 => 212 + l
  | 8 => 243 + l
  | 9 => 273 + l
  | 10 => 304 + l
  | _ => 334 + l
  end.

(** [MakeDay(year, month, date)] on integral arguments: the day number of
    the first of the month, plus [date - 1]. *)
Definition MakeDay (year month dt : num) : num :=
  match year, month, dt with
  | Int y, Int m, Int d =>
      let ym := y + m / 12 in
      let mn := m mod 12 in
      let l := if DaysInYear ym =? 366 then 1 else 0 in
      Int (DayFromYear ym + MonthStart mn l + d - 1)
  | _, _, _ => NaN
  end.

Definition MakeDate (day : num) (time : Z) : num :=
  match day with
  | Int d => Int (d * msPerDay + time)
  | _ => NaN
  end.

Definition TimeClip (time : num) : num :=
  match time with
  | Int t => if Z.abs t <=? 8640000000000000 then Int t else NaN
  | _ => NaN
  end.

(** [Date.UTC(year, month, date)] on integral arguments; a year from 0 to 99
    stands for 1900 + year. *)
Definition Date_UTC (year month dt : num) : num :=
  let yr :=
    match year with
    | Int y => if (0 <=? y) && (y <=? 99) then Int (1900 + y) else Int y
    | _ => year
    end in
  TimeClip (MakeDate (MakeDay yr month dt) 0).

(** ** Strings *)

(** [s.split(sep)] for a one-character separator. *)
Fixpoint split (sep : ascii) (s : string) : list string :=
  match s with
  | EmptyString => [EmptyString]
  | String c s' =>
      if Ascii.eqb c sep then EmptyString :: split sep s'
      else
        match split sep s' with
        | h :: t => String c h :: t
        | [] => [String c EmptyString]
        end
  end.

(** The result of applying [Number] to a string: NaN, an infinity, or the
    exact decimal value [m * 10^e] of the literal.  Rounding of the literal
    to binary64 is not modelled; the program only passes these values to
    [Date.UTC], which truncates them to integers. *)
Inductive decnum : Type :=
| DNaN
| DInf (neg : bool)
| Dec (m e : Z).

(** White space and line terminators (the ASCII ones; strings are taken to
    be ASCII text). *)
Definition is_white (c : ascii) : bool :=
  let n := Z.of_N (N_of_ascii c) in
  ((9 <=? n) && (n <=? 13)) || (n =? 32).

Fixpoint trim_start (s : string) : string :=
  match s with
  | String c s' => if is_white c then trim_start s' else s
  | EmptyString => EmptyString
  end.

Fixpoint trim_end (s : string) : string :=
  match s with
  | EmptyString => EmptyString
  | String c s' =>
      match trim_end s' with
      | EmptyString => if is_white c then EmptyString else String c EmptyString
      | r => String c r
      end
  end.

Definition digit_val (base : Z) (c : ascii) : option Z :=
  let n := Z.of_N (N_of_ascii c) in
  let v :=
    if (48 <=? n) && (n <=? 57) then n - 48
    else if (97 <=? n) && (n <=? 122) then n - 87
    else if (65 <=? n) && (n <=? 90) then n - 55
    else base in
  if v <? base then Some v else None.

(** Reads the longest prefix of digits in [base]: the value accumulated on
    [acc], the number of digits read added to [cnt], and the rest. *)
Fixpoint read_digits (base : Z) (s : string) (acc cnt : Z) : Z * Z * string :=
  match s with
  | String c s' =>
      match digit_val base c with
      | Some v => read_digits base s' (acc * base + v) (cnt + 1)
      | None => (acc, cnt, s)
      end
  | EmptyString => (acc, cnt, s)
  end.

Definition strip_sign (s : string) : bool * string :=
  match s with
  | String "+" r => (false, r)
  | String "-" r => (true, r)
  | _ => (false, s)
  end.

Definition is_exp_mark (c : ascii) : bool :=
  Ascii.eqb c "e" || Ascii.eqb c "E".

(** StrDecimalLiteral: an optional sign, then [Infinity] or decimal digits
    with an optional fraction and an optional exponent. *)
Definition StrDecimalLiteral (s : string) : decnum :=
  let '(neg, s1) := strip_sign s in
  if String.eqb s1 "Infinity" then DInf neg
  else
    let '(ip, ni, s2) := read_digits 10 s1 0 0 in
    let '(mant, nf, s3) :=
      match s2 with
      | String "." r => read_digits 10 r ip 0
      | _ => (ip, 0, s2)
      end in
    if ni + nf =? 0 then DNaN
    else
      let '(ex, ok, s4) :=
        match s3 with
        | String c r =>
            if is_exp_mark c then
              let '(eneg, r1) := strip_sign r in
              let '(ev, ne, r2) := read_digits 10 r1 0 0 in
              (if eneg then - ev else ev, 0 <? ne, r2)
            else (0, true, s3)
        | EmptyString => (0, true, s3)
        end in
      if ok && String.eqb s4 EmptyString
      then Dec (if neg then - mant else mant) (ex - nf)
      else DNaN.

Definition NonDecimalIntegerLiteral (base : Z) (s : string) : decnum :=
  match read_digits base s 0 0 with
  | (v, cnt, EmptyString) => if 0 <? cnt then Dec v 0 else DNaN
  | _ => DNaN
  end.

(** [Number(s)] for a string [s] (StringToNumber). *)
Definition StringToNumber (s : string) : decnum :=
  match trim_end (trim_start s) with
  | EmptyString => Dec 0 0
  | String "0" (String "x" r) | String "0" (String "X" r) =>
      NonDecimalIntegerLiteral 16 r
  | String "0" (String "o" r) | String "0" (String "O" r) =>
      NonDecimalIntegerLiteral 8 r
  | String "0" (String "b" r) | String "0" (String "B" r) =>
      NonDecimalIntegerLiteral 2 r
  | t => StrDecimalLiteral t
  end.

(** [x - 1] on a parsed Number. *)
Definition dec_pred (x : decnum) : decnum :=
  match x with
  | Dec m e => if 0 <=? e then Dec (m * 10 ^ e - 1) 0 else Dec (m - 10 ^ (- e)) e
  | _ => x
  end.

(** Truncation of a finite Number to its integer part; NaN and the
    infinities are kept, as [MakeDay] tests finiteness first. *)
Definition integral (x : decnum) : num :=
  match x with
  | DNaN => NaN
  | DInf s => Inf s
  | Dec m e => if 0 <=? e then Int (m * 10 ^ e) else Int (Z.quot m (10 ^ (- e)))
  end.

Definition digit_char (d : Z) : ascii := ascii_of_N (Z.to_N (48 + d)).

Fixpoint decimal_digits (fuel : nat) (n : Z) (acc : string) : string :=
  match fuel with
  | O => acc
  | S f =>
      let acc' := String (digit_char (n mod 10)) acc in
      if n / 10 =? 0 then acc' else decimal_digits f (n / 10) acc'
  end.

Fixpoint zeros (k : nat) (s : string) : string :=
  match k with
  | O => s
  | S k' => String "0" (zeros k' s)
  end.

(** The decimal representation of [n >= 0], padded with zeros on the left
    to at least [minLength] characters. *)
Definition ToZeroPaddedDecimalString (n : Z) (minLength : nat) : string :=
  let s := decimal_digits (S (Z.to_nat (Z.log2 n))) n EmptyString in
  zeros (minLength - String.length s) s.

(** ** Date objects *)

(** A value that holds a date in the program: [null], or a Date object with
    its time value (NaN for an Invalid Date, else integral milliseconds). *)
Inductive date : Type :=
| Null
| Date (tv : num).

(** What the program passes where a date is expected. *)
Inductive value : Type :=
| VUndefined
| VStr (s : string)
| VDate (d : date).

(** [new Date(v)] for a Number [v]. *)
Definition new_Date (v : num) : date := Date (TimeClip v).

Definition getTime (d : date) : result num :=
  match d with
  | Null => Throw TypeError
  | Date tv => Ok tv
  end.

Definition date_getter (f : Z -> Z) (d : date) : result num :=
  match d with
  | Null => Throw TypeError
  | Date (Int t) => Ok (Int (f t))
  | Date _ => Ok NaN
  end.

Definition getUTCFullYear : date -> result num := date_getter YearFromTime.
Definition getUTCMonth : date -> result num := date_getter MonthFromTime.
Definition getUTCDate : date -> result num := date_getter DateFromTime.
Definition getUTCDay : date -> result num := date_getter WeekDay.

Definition colon : string := ":".
Definition dash : string := "-".

Definition toISOString (d : date) : result string :=
  match d with
  | Null => Throw TypeError
  | Date (Int t) =>
      let y := YearFromTime t in
      let year :=
        if (0 <=? y) && (y <=? 9999) then ToZeroPaddedDecimalString y 4
        else String (if y <? 0 then "-"%char else "+"%char)
                    (ToZeroPaddedDecimalString (Z.abs y) 6) in
      Ok (year +:+ dash
          +:+ ToZeroPaddedDecimalString (MonthFromTime t + 1) 2 +:+ dash
          +:+ ToZeroPaddedDecimalString (DateFromTime t) 2 +:+ "T"
          +:+ ToZeroPaddedDecimalString (HourFromTime t) 2 +:+ colon
          +:+ ToZeroPaddedDecimalString (MinFromTime t) 2 +:+ colon
          +:+ ToZeroPaddedDecimalString (SecFromTime t) 2 +:+ "."
          +:+ ToZeroPaddedDecimalString (msFromTime t) 3 +:+ "Z")
  | Date _ => Throw RangeError
  end.

(** The Number a date value converts to in [<], [<=] and [-]: the time value
    of a Date object, +0 for [null]. *)
Definition ToNumber (d : date) : num :=
  match d with
  | Null => Int 0
  | Date tv => tv
  end.

Definition date_lt (a b : date) : bool := num_lt (ToNumber a) (ToNumber b).
Definition date_le (a b : date) : bool := num_le (ToNumber a) (ToNumber b).
Definition date_gt (a b : date) : bool := num_gt (ToNumber a) (ToNumber b).
Definition date_ge (a b : date) : bool := num_ge (ToNumber a) (ToNumber b).
Definition date_sub (a b : date) : num := num_sub (ToNumber a) (ToNumber b).

(** ** Floats *)

(** The Number with the value of the integer [z] (rounded to nearest). *)
Definition float_of_Z (z : Z) : float :=
  SF2Prim (binary_normalize prec emax z 0 false).

Definition float_of_num (n : num) : float :=
  match n with
  | NaN => nan
  | Inf s => if s then neg_infinity else infinity
  | Int z => float_of_Z z
  end.

(** A numeric field of a stored object: absent ([undefined]), [null], or a
    Number. *)
Inductive field (A : Type) : Type :=
| Missing
| FNull
| Val (a : A).
Arguments Missing {A}.
Arguments FNull {A}.
Arguments Val {A} a.

(** [Number(v)] for such a field. *)
Definition Number_float (v : field float) : float :=
  match v with
  | Missing => nan
  | FNull => 0
  | Val x => x
  end.

Definition Number_num (v : field num) : num :=
  match v with
  | Missing => NaN
  | FNull => Int 0
  | Val x => x
  end.

(** [x || d] for a Number [x]. *)
Definition float_or (x d : float) : float :=
  if is_nan x || PrimFloat.eqb x 0 then d else x.

Definition is_neg_zero (x : float) : bool :=
  PrimFloat.eqb x 0 && PrimFloat.ltb (1 / x) 0.

(** [Math.max(a, b)]. *)
Definition Math_max (a b : float) : float :=
  if is_nan a || is_nan b then nan
  else if PrimFloat.ltb a b then b
  else if PrimFloat.ltb b a then a
  else if is_neg_zero a then b
  else a.

(** ** Arrays *)

(** [s.trim()]. *)
Definition trim (s : string) : string := trim_end (trim_start s).

(** [xs.map(f)] for a callback that may throw. *)
Fixpoint map_result {A B : Type} (f : A -> result B) (l : list A)
  : result (list B) :=
  match l with
  | [] => Ok []
  | x :: l' =>
      let* y := f x in
      let* ys := map_result f l' in
      Ok (y :: ys)
  end.

(** [xs.sort(compare)].  The sort is stable, and a comparator result that
    is NaN counts as 0; for a consistent comparator the result is the
    stable sorted order, which insertion computes.  (With an inconsistent
    comparator the order is left to the engine.) *)
Fixpoint sort_insert {A : Type} (compare : A -> A -> result num) (x : A)
    (l : list A) : result (list A) :=
  match l with
  | [] => Ok [x]
  | y :: l' =>
      let* c := compare y x in
      if num_lt c (Int 0) then
        let* r := sort_insert compare x l' in
        Ok (y :: r)
      else Ok (x :: l)
  end.

Fixpoint Array_sort {A : Type} (compare : A -> A -> result num) (l : list A)
  : result (list A) :=
  match l with
  | [] => Ok []
  | x :: l' =>
      let* sorted := Array_sort compare l' in
      sort_insert compare x sorted
  end.

(** [xs.splice(i, 1)] for an index [i >= 0]: the array without its element
    at [i], unchanged when [i] is past the end. *)
Definition splice1 {A : Type} (i : nat) (l : list A) : list A :=
  firstn i l ++ skipn (S i) l.

End JS.

(* ================================================================== *)
(** * First revision: weekends only                                    *)
(* ================================================================== *)

Module Planner.
Import JS.

(** ** Helpers and date utilities *)

Definition MS_PER_DAY : Z := 86400000.

Definition ymd (d : date) : result string :=
  let* s := toISOString d in
  Ok (substring 0 10 s).

Definition toDateOnlyUTC (v : value) : result date :=
  match v with
  | VUndefined | VDate Null | VStr EmptyString => Ok Null
  | VStr s =>
      let parts := map StringToNumber (split "-" s) in
      let y := nth 0 parts DNaN in
      let m := nth 1 parts DNaN in
      let dd := nth 2 parts DNaN in
      Ok (new_Date (Date_UTC (integral y) (integral (dec_pred m)) (integral dd)))
  | VDate d =>
      let* y := getUTCFullYear d in
      let* m := getUTCMonth d in
      let* dd := getUTCDate d in
      Ok (new_Date (Date_UTC y m dd))
  end.

Definition clampDate (d : value) : result date :=
  let* a := toDateOnlyUTC d in
  let* s := ymd a in
  toDateOnlyUTC (VStr s).

Definition addDays (d : date) (n : num) : result date :=
  let* t := getTime d in
  Ok (new_Date (num_add t (num_mul n (Int MS_PER_DAY)))).

Definition daysBetween (a b : value) : result num :=
  let* cb := clampDate b in
  let* ca := clampDate a in
  let ms := date_sub cb ca in
  Ok (num_floor_div ms (Int MS_PER_DAY)).

Definition isWeekday (d : value) : result bool :=
  let* c := clampDate d in
  let* wd := getUTCDay c in
  Ok (negb (num_eqb wd (Int 0)) && negb (num_eqb wd (Int 6))).

(** The [for] loop of [weekdaysBetweenInclusive]; [fuel] bounds the number
    of tests of [d <= to].  The loop always ends: [d] advances by one day
    until it passes [to] or leaves the range of time values. *)
Fixpoint weekdays_loop (fuel : nat) (d to : date) (days : Z) : result Z :=
  match fuel with
  | O => Ok days
  | S fuel' =>
      if date_le d to then
        let* wd := isWeekday (VDate d) in
        let days' := if wd then days + 1 else days in
        let* d' := addDays d (Int 1) in
        weekdays_loop fuel' d' to days'
      else Ok days
  end.

(** A bound on the number of tests a day-by-day loop from [from] to [to]
    makes: one per day of the interval, and the last one, which fails
    ([weekdays_loop_enough_fuel] shows that more fuel changes nothing). *)
Definition loop_bound (from to : date) : nat :=
  match date_sub to from with
  | Int ms => Z.to_nat (ms / MS_PER_DAY + 2)
  | _ => 1%nat
  end.

Definition weekdaysBetweenInclusive (fromDate toDate : value) : result Z :=
  let* from := clampDate fromDate in
  let* to := clampDate toDate in
  if date_lt to from then Ok 0
  else weekdays_loop (loop_bound from to) from to 0.

(** ** Pay schedules *)

Definition countPaydays (firstPayday targetDate : value) (freqDays : num)
  : result num :=
  let* start := clampDate firstPayday in
  let* endDate := clampDate targetDate in
  if date_lt endDate start then Ok (Int 0)
  else
    let* diffDays := daysBetween (VDate start) (VDate endDate) in
    Ok (num_add (num_floor_div diffDays freqDays) (Int 1)).

Definition nextPaydayOnOrAfter (d0 firstPayday : value) (freqDays : num)
  : result date :=
  let* d := clampDate d0 in
  let* first := clampDate firstPayday in
  if date_le d first then Ok first
  else
    let* diff := daysBetween (VDate first) (VDate d) in
    let steps := num_ceil_div diff freqDays in
    addDays first (num_mul steps freqDays).

(** The [while] loop of [getPaydaysBetween].  It need not terminate (a zero
    period never advances), so the model is fuelled: [None] means that the
    loop is still running after [fuel] tests. *)
Fixpoint paydays_loop (fuel : nat) (pay endDate : date) (freqDays : num)
    (out : list date) : option (result (list date)) :=
  match fuel with
  | O => None
  | S fuel' =>
      if date_le pay endDate then
        match addDays pay freqDays with
        | Ok pay' => paydays_loop fuel' pay' endDate freqDays (out ++ [pay])
        | Throw e => Some (Throw e)
        end
      else Some (Ok out)
  end.

Definition getPaydaysBetween (fuel : nat) (startDate endDate firstPayday : value)
    (freqDays : num) : option (result (list date)) :=
  match clampDate startDate with
  | Throw e => Some (Throw e)
  | Ok start =>
      match clampDate endDate with
      | Throw e => Some (Throw e)
      | Ok endD =>
          match nextPaydayOnOrAfter (VDate start) firstPayday freqDays with
          | Throw e => Some (Throw e)
          | Ok pay => paydays_loop fuel pay endD freqDays []
          end
      end
  end.

(** ** State *)

Record PtoRange : Type := mkPtoRange {
  pto_from : value;
  pto_to : value;
  pto_hours : field float;
  pto_note : string
}.

Record Credit : Type := mkCredit {
  credit_date : value;
  credit_hours : field float;
  credit_note : string
}.

(** The [state] object.  Dates are held as the text of the date inputs;
    the numeric settings are what the settings form stores, a Number, or
    are absent or [null] in a stored document.  [payFrequencyDays] holds a
    whole number of days. *)
Record State : Type := mkState {
  startDate : value;
  startBalance : field float;
  accrualPerPeriod : field float;
  firstPayday : value;
  payFrequencyDays : field num;
  ptoRanges : list PtoRange;
  credits : list Credit
}.

Definition DEFAULTS : State := {|
  startDate := VStr "2026-01-01";
  startBalance := Val (-15.78)%float;
  accrualPerPeriod := Val 4.61%float;
  firstPayday := VStr "2026-01-08";
  payFrequencyDays := Val (Int 14);
  ptoRanges := [];
  credits := []
|}.

(** ** Core calculations *)

Fixpoint pto_loop (target : date) (rs : list PtoRange) (hours : Z) : result Z :=
  match rs with
  | [] => Ok hours
  | r :: rs' =>
      let* from := toDateOnlyUTC (pto_from r) in
      let* to := toDateOnlyUTC (pto_to r) in
      if date_gt from target then pto_loop target rs' hours
      else
        let cappedTo := if date_le to target then to else target in
        let* n := weekdaysBetweenInclusive (VDate from) (VDate cappedTo) in
        pto_loop target rs' (hours + n * 8)
  end.

Definition ptoHoursUpTo (st : State) (targetDateStr : value) : result Z :=
  let* target := toDateOnlyUTC targetDateStr in
  pto_loop target (ptoRanges st) 0.

Definition credit_amount (c : Credit) : float :=
  Math_max 0 (float_or (Number_float (credit_hours c)) 0).

Fixpoint credit_loop (target : date) (cs : list Credit) (hours : float)
  : result float :=
  match cs with
  | [] => Ok hours
  | c :: cs' =>
      let* d := toDateOnlyUTC (credit_date c) in
      if date_le d target then credit_loop target cs' (hours + credit_amount c)%float
      else credit_loop target cs' hours
  end.

Definition creditHoursUpTo (st : State) (targetDateStr : value) : result float :=
  let* target := toDateOnlyUTC targetDateStr in
  credit_loop target (credits st) 0%float.

Definition getBalanceOn (st : State) (targetDateStr : value) : result float :=
  let* target := toDateOnlyUTC targetDateStr in
  let* first := toDateOnlyUTC (firstPayday st) in
  let accrual := float_or (Number_float (accrualPerPeriod st)) 0 in
  let freq := num_or (Number_num (payFrequencyDays st)) (Int 14) in
  let bal := float_or (Number_float (startBalance st)) 0 in
  let* bal1 :=
    if date_ge target first then
      let* periods := countPaydays (VDate first) (VDate target) freq in
      Ok (bal + float_of_num periods * accrual)%float
    else Ok bal in
  let* pto := ptoHoursUpTo st targetDateStr in
  let bal2 := (bal1 - float_of_Z pto)%float in
  let* cr := creditHoursUpTo st targetDateStr in
  Ok (bal2 + cr)%float.

(** ** Forecast *)

Record Point : Type := mkPoint {
  point_date : date;
  point_y : float
}.

(** The body of the [for] loop of [forecastSeries], run for [n] successive
    values of [i]. *)
Fixpoint series_loop (n : nat) (st : State) (start : date) (i : Z)
    (series : list Point) : result (list Point) :=
  match n with
  | O => Ok series
  | S n' =>
      let* d := addDays start (Int i) in
      let* s := ymd d in
      let* b := getBalanceOn st (VStr s) in
      series_loop n' st start (i + 1) (series ++ [mkPoint d b])
  end.

(** [i] runs from 0 while [i <= days]: [days + 1] iterations, none when
    [days] is negative. *)
Definition forecastSeries (st : State) (start : date) (days : Z)
  : result (list Point) :=
  series_loop (Z.to_nat (days + 1)) st start 0 [].

(** ** Ledger queries *)

Definition latestPTODate (st : State) : result date :=
  match ptoRanges st with
  | [] => Ok Null
  | rs =>
      let* ds := map_result (fun r => toDateOnlyUTC (pto_to r)) rs in
      let* sorted := Array_sort (fun a b => Ok (date_sub b a)) ds in
      Ok (hd Null sorted)
  end.

Fixpoint future_loop (from : date) (rs : list PtoRange) (hours : Z) : result Z :=
  match rs with
  | [] => Ok hours
  | r :: rs' =>
      let* rf := toDateOnlyUTC (pto_from r) in
      let* rt := toDateOnlyUTC (pto_to r) in
      if date_lt rt from then future_loop from rs' hours
      else
        let start := if date_lt rf from then from else rf in
        let* n := weekdaysBetweenInclusive (VDate start) (VDate rt) in
        future_loop from rs' (hours + n * 8)
  end.

Definition totalFuturePTO (st : State) (fromDateStr : value) : result Z :=
  let* from := toDateOnlyUTC fromDateStr in
  future_loop from (ptoRanges st) 0.

(** ** Ledger table and form handlers

    The handlers are modelled by what they do to [state]: the writes to
    the page, [saveState] and the re-rendering are left out. *)

(** The rows of the leave table, in display order, each with the index its
    Delete button carries. *)
Definition compare_from (a b : PtoRange) : result num :=
  let* x := toDateOnlyUTC (pto_from a) in
  let* y := toDateOnlyUTC (pto_from b) in
  Ok (date_sub x y).

Fixpoint with_index {A : Type} (i : nat) (l : list A) : list (nat * A) :=
  match l with
  | [] => []
  | x :: l' => (i, x) :: with_index (S i) l'
  end.

Definition ptoTableRows (st : State) : result (list (nat * PtoRange)) :=
  let* sorted := Array_sort compare_from (ptoRanges st) in
  Ok (with_index 0 sorted).

(** The click handler of a Delete button that carries index [i]. *)
Definition deletePTO (st : State) (i : nat) : State :=
  mkState (startDate st) (startBalance st) (accrualPerPeriod st)
    (firstPayday st) (payFrequencyDays st)
    (splice1 i (ptoRanges st)) (credits st).

(** The two messages of the leave form: a date is missing; the To date is
    before the From date. *)
Inductive alert : Type :=
| EnterFromAndTo
| ToBeforeFrom.

Inductive outcome : Type :=
| Alerted (a : alert)
| Saved (st : State).

(** The click handler of the Add button of the leave form, for the texts
    of its three inputs. *)
Definition addPTO (st : State) (from to note0 : string) : result outcome :=
  let note := trim note0 in
  if String.eqb from EmptyString || String.eqb to EmptyString
  then Ok (Alerted EnterFromAndTo)
  else
    let* f := toDateOnlyUTC (VStr from) in
    let* t := toDateOnlyUTC (VStr to) in
    if date_lt t f then Ok (Alerted ToBeforeFrom)
    else
      let* n := weekdaysBetweenInclusive (VDate f) (VDate t) in
      let hours := n * 8 in
      Ok (Saved (mkState (startDate st) (startBalance st) (accrualPerPeriod st)
                   (firstPayday st) (payFrequencyDays st)
                   (ptoRanges st
                    ++ [mkPtoRange (VStr from) (VStr to) (Val (float_of_Z hours)) note])
                   (credits st))).

(** ** Payday labels and the split chart *)

(** The loop of [labelPaydays]: [marks] collects, for each payday that is
    labelled, the index and the entry of the series it is drawn at. *)
Fixpoint label_loop (seriesStart : date) (series : list Point)
    (paydays : list date) (marks : list (Z * Point))
  : result (list (Z * Point)) :=
  match paydays with
  | [] => Ok marks
  | pay :: rest =>
      let* idx := daysBetween (VDate seriesStart) (VDate pay) in
      if num_lt idx (Int 0) || num_ge idx (Int (Z.of_nat (List.length series)))
      then label_loop seriesStart series rest marks
      else
        match idx with
        | Int i =>
            match nth_error series (Z.to_nat i) with
            | Some pt => label_loop seriesStart series rest (marks ++ [(i, pt)])
            | None => Throw TypeError
            end
        | _ => Throw TypeError
        end
  end.

(** [labelPaydays] on a canvas that holds chart data ([hasData]); the
    fuel is that of [getPaydaysBetween]. *)
Definition labelPaydays (fuel : nat) (st : State) (hasData : bool)
    (seriesStart : date) (series : list Point)
  : option (result (list (Z * Point))) :=
  if negb hasData then Some (Ok [])
  else
    match addDays seriesStart (Int (Z.of_nat (List.length series) - 1)) with
    | Throw e => Some (Throw e)
    | Ok horizonEnd =>
        match toDateOnlyUTC (firstPayday st) with
        | Throw e => Some (Throw e)
        | Ok first =>
            match getPaydaysBetween fuel (VDate seriesStart) (VDate horizonEnd)
                    (VDate first)
                    (num_or (Number_num (payFrequencyDays st)) (Int 14)) with
            | None => None
            | Some (Throw e) => Some (Throw e)
            | Some (Ok paydays) => Some (label_loop seriesStart series paydays [])
            end
        end
    end.

(** The two series [drawForecastSplit] draws, from [today]. *)
Definition drawForecastSplit (st : State) (today : date)
  : result (list Point * list Point) :=
  let* mid := addDays today (Int 182) in
  let* s1 := forecastSeries st today 182 in
  let* s2 := forecastSeries st mid (365 - 182) in
  Ok (s1, s2).

(** The series [drawForecastYear] draws. *)
Definition drawForecastYear (st : State) (today : date) : result (list Point) :=
  forecastSeries st today 365.

(** ** Dashboard *)

(** What [renderDashboard] writes to the page, as Numbers and texts before
    [fmt]; [today] is [clampDate(new Date())]. *)
Record Dashboard : Type := mkDashboard {
  todayLabel : string;
  balanceToday : float;
  balanceAfterLatest : float;
  futurePTO : Z;
  nextPayday : string
}.

Definition renderDashboard (st : State) (today : date) : result Dashboard :=
  let* label := ymd today in
  let* s1 := ymd today in
  let* b1 := getBalanceOn st (VStr s1) in
  let* latest := latestPTODate st in
  let* s2 := ymd (match latest with Null => today | Date _ => latest end) in
  let* b2 := getBalanceOn st (VStr s2) in
  let* s3 := ymd today in
  let* fut := totalFuturePTO st (VStr s3) in
  let* first := toDateOnlyUTC (firstPayday st) in
  let* next :=
    nextPaydayOnOrAfter (VDate today) (VDate first)
      (num_or (Number_num (payFrequencyDays st)) (Int 14)) in
  let* s4 := ymd next in
  Ok (mkDashboard label b1 b2 fut s4).

End Planner.

(* ================================================================== *)
(** * Second revision: observed U.S. federal holidays                  *)
(* ================================================================== *)

Module HolidayPlanner.
Import JS.

(** ** Utilities and paydays

    [MS_PER_DAY], [ymd], [toDateOnlyUTC], [addDays], [daysBetween],
    [countPaydays], [nextPaydayOnOrAfter] and [getPaydaysBetween] are,
    statement for statement, those of the first revision, and
    [clampToDateOnly] is its [clampDate]. *)

Abbreviation MS_PER_DAY := Planner.MS_PER_DAY (only parsing).
Abbreviation ymd := Planner.ymd (only parsing).
Abbreviation toDateOnlyUTC := Planner.toDateOnlyUTC (only parsing).
Abbreviation clampToDateOnly := Planner.clampDate (only parsing).
Abbreviation addDays := Planner.addDays (only parsing).
Abbreviation daysBetween := Planner.daysBetween (only parsing).
Abbreviation countPaydays := Planner.countPaydays (only parsing).
Abbreviation nextPaydayOnOrAfter := Planner.nextPaydayOnOrAfter (only parsing).
Abbreviation getPaydaysBetween := Planner.getPaydaysBetween (only parsing).
Abbreviation loop_bound := Planner.loop_bound (only parsing).

(** ** U.S. federal holidays (observed) *)

Definition nthWeekdayOfMonth (year monthIndex weekday n : Z) : result date :=
  let first := new_Date (Date_UTC (Int year) (Int monthIndex) (Int 1)) in
  let* firstWeekday := getUTCDay first in
  let offset := num_rem (num_sub (Int (7 + weekday)) firstWeekday) (Int 7) in
  Ok (new_Date (Date_UTC (Int year) (Int monthIndex)
                  (num_add (num_add (Int 1) offset) (Int (7 * (n - 1)))))).

Definition lastWeekdayOfMonth (year monthIndex weekday : Z) : result date :=
  let firstNext := new_Date (Date_UTC (Int year) (Int (monthIndex + 1)) (Int 1)) in
  let* last := addDays firstNext (Int (-1)) in
  let* lastWeekday := getUTCDay last in
  let offset := num_rem (num_sub (num_add (Int 7) lastWeekday) (Int weekday)) (Int 7) in
  addDays last (num_opp offset).

Definition observedFixed (year monthIndex day : Z) : result date :=
  let d := new_Date (Date_UTC (Int year) (Int monthIndex) (Int day)) in
  let* wd := getUTCDay d in
  if num_eqb wd (Int 0)
  then Ok (new_Date (Date_UTC (Int year) (Int monthIndex) (Int (day + 1))))
  else if num_eqb wd (Int 6)
  then Ok (new_Date (Date_UTC (Int year) (Int monthIndex) (Int (day - 1))))
  else Ok d.

(** [push(date)]: the holiday is computed, formatted and added to the set. *)
Definition push (set : gset string) (holiday : result date)
  : result (gset string) :=
  let* d := holiday in
  let* k := ymd d in
  Ok ({[ k ]} ∪ set).

Definition federalHolidaySetForYear (year : Z) : result (gset string) :=
  let* s := push ∅ (observedFixed year 0 1) in
  let* s := push s (nthWeekdayOfMonth year 0 1 3) in
  let* s := push s (nthWeekdayOfMonth year 1 1 3) in
  let* s := push s (lastWeekdayOfMonth year 4 1) in
  let* s := push s (observedFixed year 5 19) in
  let* s := push s (observedFixed year 6 4) in
  let* s := push s (nthWeekdayOfMonth year 8 1 1) in
  let* s := push s (nthWeekdayOfMonth year 9 1 2) in
  let* s := push s (observedFixed year 10 11) in
  let* s := push s (nthWeekdayOfMonth year 10 4 4) in
  push s (observedFixed year 11 25).

Fixpoint holiday_loop (n : nat) (y : Z) (set : gset string)
  : result (gset string) :=
  match n with
  | O => Ok set
  | S n' =>
      let* ys := federalHolidaySetForYear y in
      holiday_loop n' (y + 1) (ys ∪ set)
  end.

(** [y] runs over the years from [yearStart] to [yearEnd].  With an
    infinite bound that passes the first test, the loop reaches a year
    whose dates are out of range, where [ymd] throws. *)
Definition holidaySetForRange (yearStart yearEnd : num) : result (gset string) :=
  match yearStart, yearEnd with
  | Int a, Int b => holiday_loop (Z.to_nat (b - a + 1)) a ∅
  | _, _ => if num_le yearStart yearEnd then Throw RangeError else Ok ∅
  end.

Definition isBusinessDay (d0 : value) (holidaysSet : gset string) : result bool :=
  let* d := clampToDateOnly d0 in
  let* wd := getUTCDay d in
  if num_eqb wd (Int 0) || num_eqb wd (Int 6) then Ok false
  else
    let* k := ymd d in
    Ok (negb (bool_decide (k ∈ holidaysSet))).

Fixpoint business_loop (fuel : nat) (d to : date) (holidaysSet : gset string)
    (days : Z) : result Z :=
  match fuel with
  | O => Ok days
  | S fuel' =>
      if date_le d to then
        let* b := isBusinessDay (VDate d) holidaysSet in
        let days' := if b then days + 1 else days in
        let* d' := addDays d (Int 1) in
        business_loop fuel' d' to holidaysSet days'
      else Ok days
  end.

Definition businessDaysBetweenInclusive (fromDate toDate : value)
    (holidaysSet : gset string) : result Z :=
  let* from := clampToDateOnly fromDate in
  let* to := clampToDateOnly toDate in
  if date_lt to from then Ok 0
  else business_loop (loop_bound from to) from to holidaysSet 0.

(** ** State *)

Record PtoEntry : Type := mkPtoEntry {
  entry_date : value;
  entry_hours : field float
}.

Record PtoRange : Type := mkPtoRange {
  pto_from : value;
  pto_to : value;
  pto_hours : field float;
  pto_note : string
}.

Record Credit : Type := mkCredit {
  credit_date : value;
  credit_hours : field float;
  credit_note : string
}.

Record State : Type := mkState {
  startDate : value;
  startBalance : field float;
  accrualPerPeriod : field float;
  firstPayday : value;
  payFrequencyDays : field num;
  pto : list PtoEntry;
  ptoRanges : list PtoRange;
  credits : list Credit
}.

Definition DEFAULTS : State := {|
  startDate := VStr "2026-01-01";
  startBalance := Val (-15.78)%float;
  accrualPerPeriod := Val 4.61%float;
  firstPayday := VStr "2026-01-08";
  payFrequencyDays := Val (Int 14);
  pto := [];
  ptoRanges := [];
  credits := []
|}.

(** ** Calculations *)

Definition entry_amount (e : PtoEntry) : float :=
  Math_max 0 (float_or (Number_float (entry_hours e)) 0).

Fixpoint entry_loop (target : date) (holidays : gset string)
    (es : list PtoEntry) (hours : float) : result float :=
  match es with
  | [] => Ok hours
  | e :: es' =>
      let* d := toDateOnlyUTC (entry_date e) in
      if date_le d target then
        let* b := isBusinessDay (VDate d) holidays in
        if b then entry_loop target holidays es' (hours + entry_amount e)%float
        else entry_loop target holidays es' hours
      else entry_loop target holidays es' hours
  end.

Fixpoint range_loop (target : date) (holidays : gset string)
    (rs : list PtoRange) (hours : float) : result float :=
  match rs with
  | [] => Ok hours
  | r :: rs' =>
      let* from := toDateOnlyUTC (pto_from r) in
      let* to := toDateOnlyUTC (pto_to r) in
      if date_gt from target then range_loop target holidays rs' hours
      else
        let cappedTo := if date_le to target then to else target in
        let* days := businessDaysBetweenInclusive (VDate from) (VDate cappedTo) holidays in
        range_loop target holidays rs' (hours + float_of_Z (days * 8))%float
  end.

Definition totalPtoHoursUpTo (st : State) (targetDateStr : value) : result float :=
  let* target := toDateOnlyUTC targetDateStr in
  let* start := toDateOnlyUTC (startDate st) in
  let* y0 := getUTCFullYear start in
  let* y1 := getUTCFullYear target in
  let minY := num_sub (num_min y0 y1) (Int 1) in
  let maxY := num_add (num_max y0 y1) (Int 1) in
  let* holidays := holidaySetForRange minY maxY in
  let* hours := entry_loop target holidays (pto st) 0%float in
  range_loop target holidays (ptoRanges st) hours.

Definition credit_amount (c : Credit) : float :=
  Math_max 0 (float_or (Number_float (credit_hours c)) 0).

Fixpoint credit_loop (target : date) (cs : list Credit) (hours : float)
  : result float :=
  match cs with
  | [] => Ok hours
  | c :: cs' =>
      let* d := toDateOnlyUTC (credit_date c) in
      if date_le d target then credit_loop target cs' (hours + credit_amount c)%float
      else credit_loop target cs' hours
  end.

Definition totalCreditsUpTo (st : State) (targetDateStr : value) : result float :=
  let* target := toDateOnlyUTC targetDateStr in
  credit_loop target (credits st) 0%float.

Definition getBalanceOn (st : State) (targetDateStr : value) : result float :=
  let* targetDate := toDateOnlyUTC targetDateStr in
  let* first := toDateOnlyUTC (firstPayday st) in
  let accrual := float_or (Number_float (accrualPerPeriod st)) 0 in
  let freq := num_or (Number_num (payFrequencyDays st)) (Int 14) in
  let bal := float_or (Number_float (startBalance st)) 0 in
  let* bal1 :=
    if date_ge targetDate first then
      let* periods := countPaydays (VDate first) (VDate targetDate) freq in
      Ok (bal + float_of_num periods * accrual)%float
    else Ok bal in
  let* p := totalPtoHoursUpTo st targetDateStr in
  let bal2 := (bal1 - p)%float in
  let* cr := totalCreditsUpTo st targetDateStr in
  Ok (bal2 + cr)%float.

(** ** Forecast *)

Record Point : Type := mkPoint {
  point_date : date;
  point_y : float
}.

Fixpoint series_loop (n : nat) (st : State) (start : date) (i : Z)
    (series : list Point) : result (list Point) :=
  match n with
  | O => Ok series
  | S n' =>
      let* d := addDays start (Int i) in
      let* s := ymd d in
      let* b := getBalanceOn st (VStr s) in
      series_loop n' st start (i + 1) (series ++ [mkPoint d b])
  end.

Definition generateForecastSeries (st : State) (start : date) (days : Z)
  : result (list Point) :=
  series_loop (Z.to_nat (days + 1)) st start 0 [].

End HolidayPlanner.

(* ================================================================== *)
(** * Specification-side definitions                                  *)
(* ================================================================== *)

Module Spec.
Import JS.

(** [P] holds of 0, ..., n - 1. *)
Fixpoint forall_below (n : nat) (P : Z -> bool) : bool :=
  match n with
  | O => true
  | S n' => P (Z.of_nat n') && forall_below n' P
  end.

(** Day numbers whose year has four digits and is not remapped by
    [Date.UTC]: 0100-01-01 up to 9999-12-31. *)
Definition first_day : Z := DayFromYear 100.
Definition last_day : Z := DayFromYear 10000 - 1.

Definition supported_day (n : Z) : Prop := first_day <= n <= last_day.

(** The dates the program builds: the time value of a Date object has gone
    through [TimeClip], so it is never infinite. *)
Definition clipped (d : date) : Prop :=
  match d with
  | Date (Inf _) => False
  | _ => True
  end.

(** The Date object at 00:00 UTC of day number [n]. *)
Definition day_date (n : Z) : date := Date (Int (n * msPerDay)).

Fixpoint no_char (c : ascii) (s : string) : bool :=
  match s with
  | EmptyString => true
  | String a s' => negb (Ascii.eqb a c) && no_char c s'
  end.

Definition decnum_eqb (a b : decnum) : bool :=
  match a, b with
  | DNaN, DNaN => true
  | DInf s, DInf s' => Bool.eqb s s'
  | Dec m e, Dec m' e' => (m =? m') && (e =? e')
  | _, _ => false
  end.

(** What is needed of the [k]-character rendering of [n]: it has [k]
    characters, none of them a dash, and [Number] reads [n] back. *)
Definition padded_ok (k : nat) (n : Z) : bool :=
  let s := ToZeroPaddedDecimalString n k in
  Nat.eqb (String.length s) k
  && no_char "-" s
  && decnum_eqb (StringToNumber s) (Dec n 0).

(** The text [YYYY-MM-DD] of the day of time value [t], for a year from 0
    to 9999. *)
Definition iso_date (t : Z) : string :=
  ToZeroPaddedDecimalString (YearFromTime t) 4
  +:+ String "-" (ToZeroPaddedDecimalString (MonthFromTime t + 1) 2
  +:+ String "-" (ToZeroPaddedDecimalString (DateFromTime t) 2)).

(** [v] is a date value (a Date object or a string) that [toDateOnlyUTC]
    normalises to the supported day [n]. *)
Definition denotes (v : value) (n : Z) : Prop :=
  Planner.toDateOnlyUTC v = Ok (day_date n) /\ supported_day n.

(** Day of the week of day number [n] (0 is Sunday); day 0 was a Thursday. *)
Definition weekday_of (n : Z) : Z := (n + 4) mod 7.

Definition is_weekend (n : Z) : bool :=
  (weekday_of n =? 0) || (weekday_of n =? 6).

(** The number of days of the interval [[a, b]] that satisfy [P]; 0 when
    [b < a]. *)
Definition count_days (P : Z -> bool) (a b : Z) : Z :=
  Z.of_nat (List.length (List.filter P (seqZ a (b - a + 1)))).

(** Business days under the weekends-only policy. *)
Definition weekdays_in (a b : Z) : Z :=
  count_days (fun n => negb (is_weekend n)) a b.

(** [n] terms of the arithmetic progression [q, q + p, ...]. *)
Fixpoint payday_run (n : nat) (q p : Z) : list Z :=
  match n with
  | O => []
  | S n' => q :: payday_run n' (q + p) p
  end.

(** Day number of the first payday on or after day [nd], for a schedule
    that starts on day [nf] with period [p]. *)
Definition next_payday (nd nf p : Z) : Z :=
  if nd <=? nf then nf else nf + (- ((- (nd - nf)) / p)) * p.

Definition Zsum (l : list Z) : Z := fold_right Z.add 0 l.

(** Leave hours up to day [nt] for ranges given by their first and last
    day numbers: each range that has started contributes 8 hours per
    business day from its first day to its last day or to [nt], whichever
    comes first. *)
Definition leave_hours (business : Z -> bool) (spans : list (Z * Z)) (nt : Z) : Z :=
  Zsum (map (fun s => count_days business (fst s) (Z.min (snd s) nt) * 8)
            (List.filter (fun s => fst s <=? nt) spans)).

(** The business days of the first revision: Monday to Friday. *)
Definition weekday (n : Z) : bool := negb (is_weekend n).

(** The day numbers of the ends of each leave range of the ledger. *)
Definition ranges_denote (rs : list Planner.PtoRange) (spans : list (Z * Z)) : Prop :=
  Forall2 (fun r s => denotes (Planner.pto_from r) (fst s)
                      /\ denotes (Planner.pto_to r) (snd s)) rs spans.

(** The configuration as [getBalanceOn] reads it. *)
Definition base (st : Planner.State) : float :=
  float_or (Number_float (Planner.startBalance st)) 0.
Definition accrual (st : Planner.State) : float :=
  float_or (Number_float (Planner.accrualPerPeriod st)) 0.
Definition period (st : Planner.State) : num :=
  num_or (Number_num (Planner.payFrequencyDays st)) (Int 14).

Definition set_ptoRanges (st : Planner.State) (rs : list Planner.PtoRange)
  : Planner.State :=
  Planner.mkState (Planner.startDate st) (Planner.startBalance st)
    (Planner.accrualPerPeriod st) (Planner.firstPayday st)
    (Planner.payFrequencyDays st) rs (Planner.credits st).

Definition set_credits (st : Planner.State) (cs : list Planner.Credit)
  : Planner.State :=
  Planner.mkState (Planner.startDate st) (Planner.startBalance st)
    (Planner.accrualPerPeriod st) (Planner.firstPayday st)
    (Planner.payFrequencyDays st) (Planner.ptoRanges st) cs.

Definition set_payFrequencyDays (st : Planner.State) (f : field num)
  : Planner.State :=
  Planner.mkState (Planner.startDate st) (Planner.startBalance st)
    (Planner.accrualPerPeriod st) (Planner.firstPayday st)
    f (Planner.ptoRanges st) (Planner.credits st).

(** The ledger of Scenario D: leave from Monday 2026-01-05 to Friday
    2026-01-09. *)
Definition scenario_D : Planner.State :=
  set_ptoRanges Planner.DEFAULTS
    [Planner.mkPtoRange (VStr "2026-01-05") (VStr "2026-01-09") (Val 40%float)
       EmptyString].

(** A ledger with one inverted range, from 2026-01-09 back to 2026-01-05. *)
Definition inverted_range : Planner.PtoRange :=
  Planner.mkPtoRange (VStr "2026-01-09") (VStr "2026-01-05") Missing EmptyString.

(** The ledger of Scenario E: one credit of 10 hours dated 2026-01-10. *)
Definition scenario_E : Planner.State :=
  set_credits Planner.DEFAULTS
    [Planner.mkCredit (VStr "2026-01-10") (Val 10%float) EmptyString].

(** A string is unparseable as a date when one of its first three
    dash-separated parts is absent or does not read as a Number. *)
Definition unparseable (s : string) : bool :=
  let parts := map StringToNumber (split "-" s) in
  decnum_eqb (nth 0 parts DNaN) DNaN
  || decnum_eqb (nth 1 parts DNaN) DNaN
  || decnum_eqb (nth 2 parts DNaN) DNaN.

(** The period lengths that [||] replaces by 14. *)
Definition falsy_period (f : field num) : bool :=
  match f with
  | Missing | FNull | Val NaN | Val (Int 0) => true
  | _ => false
  end.

Definition balance_below (r : result float) (x : float) : bool :=
  match r with
  | Ok b => PrimFloat.ltb b x
  | Throw _ => false
  end.

(** What an entry of the forecast series for start time [t] holds at
    offset [j]: the date [j] days after the start, and the balance on the
    day of that date. *)
Definition point_ok (st : Planner.State) (t j : Z) (pt : Planner.Point) : Prop :=
  Planner.point_date pt = Date (Int (t + j * msPerDay))
  /\ Planner.addDays (Date (Int t)) (Int j) = Ok (Planner.point_date pt)
  /\ Planner.ymd (Planner.point_date pt) = Ok (iso_date (t + j * msPerDay))
  /\ Planner.getBalanceOn st (VStr (iso_date (t + j * msPerDay)))
     = Ok (Planner.point_y pt)
  /\ Planner.getBalanceOn st (VDate (Planner.point_date pt))
     = Ok (Planner.point_y pt).

(** A credit counts at [target] when its normalised date is not after it. *)
Definition credit_due (target : date) (c : Planner.Credit) : bool :=
  match Planner.toDateOnlyUTC (Planner.credit_date c) with
  | Ok d => date_le d target
  | Throw _ => false
  end.

(** Leave hours of the whole ledger: 8 per business day of each range. *)
Definition ledger_hours (business : Z -> bool) (spans : list (Z * Z)) : Z :=
  Zsum (map (fun s => count_days business (fst s) (snd s) * 8) spans).

(** Leave hours from day [nfrom] on: each range that has not ended before
    [nfrom] contributes 8 hours per business day from its first day or
    from [nfrom], whichever comes last, to its last day. *)
Definition future_hours (business : Z -> bool) (spans : list (Z * Z))
    (nfrom : Z) : Z :=
  Zsum (map (fun s => count_days business (Z.max (fst s) nfrom) (snd s) * 8)
            (List.filter (fun s => nfrom <=? snd s) spans)).

(** A ledger whose ranges all have valid dates. *)
Definition valid_range (r : Planner.PtoRange) : Prop :=
  exists a b, denotes (Planner.pto_from r) a /\ denotes (Planner.pto_to r) b.

(** The day number of the first day of a leave range (0 when its From
    date is not a date). *)
Definition from_day (r : Planner.PtoRange) : Z :=
  match Planner.toDateOnlyUTC (Planner.pto_from r) with
  | Ok (Date (Int t)) => Day t
  | _ => 0
  end.

(** A ledger is in date order when the first days of its ranges never
    decrease. *)
Definition in_date_order (rs : list Planner.PtoRange) : Prop :=
  StronglySorted (fun r r' => from_day r <= from_day r') rs.

(** Two leave ranges, each from a Monday to the Friday of the same week. *)
Definition march_leave : Planner.PtoRange :=
  Planner.mkPtoRange (VStr "2026-03-02") (VStr "2026-03-06") (Val 40%float)
    EmptyString.

Definition january_leave : Planner.PtoRange :=
  Planner.mkPtoRange (VStr "2026-01-05") (VStr "2026-01-09") (Val 40%float)
    EmptyString.

(** A ledger entered out of date order: the leave of March first. *)
Definition out_of_order : Planner.State :=
  set_ptoRanges Planner.DEFAULTS [march_leave; january_leave].

(** Day [n] lies in the range [s]. *)
Definition covers (n : Z) (s : Z * Z) : bool := (fst s <=? n) && (n <=? snd s).

(** A ledger with two leave ranges that overlap from Wednesday 2026-01-07
    to Friday 2026-01-09. *)
Definition overlapping : Planner.State :=
  set_ptoRanges Planner.DEFAULTS
    [january_leave;
     Planner.mkPtoRange (VStr "2026-01-07") (VStr "2026-01-13") (Val 40%float)
       EmptyString].

End Spec.

(** ** Specification-side definitions for the second revision *)

Module HolidaySpec.
Import JS Spec.

(** The business days of the second revision under the holiday set [H]:
    Monday to Friday, except the days whose text is in [H]. *)
Definition business (H : gset string) (n : Z) : bool :=
  negb (is_weekend n) && negb (bool_decide (iso_date (n * msPerDay) ∈ H)).

Definition ranges_denote (rs : list HolidayPlanner.PtoRange)
    (spans : list (Z * Z)) : Prop :=
  Forall2 (fun r s => denotes (HolidayPlanner.pto_from r) (fst s)
                      /\ denotes (HolidayPlanner.pto_to r) (snd s)) rs spans.

(** The day number of each single-day leave entry. *)
Definition entries_denote (es : list HolidayPlanner.PtoEntry) (ds : list Z) : Prop :=
  Forall2 (fun e d => denotes (HolidayPlanner.entry_date e) d) es ds.

(** Hours of the single-day entries that fall on a business day on or
    before day [nt], summed in ledger order onto [h]. *)
Fixpoint entries_total (H : gset string) (nt : Z)
    (es : list HolidayPlanner.PtoEntry) (ds : list Z) (h : float) : float :=
  match es, ds with
  | e :: es', d :: ds' =>
      if (d <=? nt) && business H d
      then entries_total H nt es' ds' (h + HolidayPlanner.entry_amount e)%float
      else entries_total H nt es' ds' h
  | _, _ => h
  end.

(** Hours of the leave ranges up to day [nt], summed in ledger order onto
    [h]: 8 per business day from the first day of a started range to its
    last day or to [nt], whichever comes first. *)
Definition range_hours (H : gset string) (nt : Z) (spans : list (Z * Z))
    (h : float) : float :=
  fold_left
    (fun acc s =>
       (acc + float_of_Z (count_days (business H) (fst s) (Z.min (snd s) nt) * 8))%float)
    (List.filter (fun s => fst s <=? nt) spans) h.

(** What the state must provide for a balance query to go through: valid
    start date and first payday, and valid dates in the leave ledger. *)
Record well_formed (st : HolidayPlanner.State) : Prop := {
  wf_start : exists n0, denotes (HolidayPlanner.startDate st) n0;
  wf_first : exists nf, denotes (HolidayPlanner.firstPayday st) nf;
  wf_entries : exists ds, entries_denote (HolidayPlanner.pto st) ds;
  wf_ranges : exists spans, ranges_denote (HolidayPlanner.ptoRanges st) spans
}.

Definition point_ok (st : HolidayPlanner.State) (t j : Z)
    (pt : HolidayPlanner.Point) : Prop :=
  HolidayPlanner.point_date pt = Date (Int (t + j * msPerDay))
  /\ Planner.addDays (Date (Int t)) (Int j) = Ok (HolidayPlanner.point_date pt)
  /\ Planner.ymd (HolidayPlanner.point_date pt) = Ok (iso_date (t + j * msPerDay))
  /\ HolidayPlanner.getBalanceOn st (VStr (iso_date (t + j * msPerDay)))
     = Ok (HolidayPlanner.point_y pt)
  /\ HolidayPlanner.getBalanceOn st (VDate (HolidayPlanner.point_date pt))
     = Ok (HolidayPlanner.point_y pt).

(** The day number of the civil date [d] of month [m] (0-based) of year
    [y]; a month past December runs into the next year. *)
Definition civil_day (y m d : Z) : Z :=
  DayFromYear (y + m / 12)
  + MonthStart (m mod 12) (if DaysInYear (y + m / 12) =? 366 then 1 else 0)
  + d - 1.

(** What holds of each text of the holiday set of year [y]: it is the
    date of a weekday of that year, or of 31 December of the year before. *)
Definition holiday_text (y : Z) (k : string) : Prop :=
  exists n, k = iso_date (n * msPerDay)
            /\ is_weekend n = false
            /\ DayFromYear y - 1 <= n < DayFromYear (y + 1).

(** The weekdays that the holiday set [H] takes off. *)
Definition holiday_weekday (H : gset string) (n : Z) : bool :=
  negb (is_weekend n) && bool_decide (iso_date (n * msPerDay) ∈ H).

(** The day on which a holiday of day number [c] is observed. *)
Definition observed (c : Z) : Z :=
  if weekday_of c =? 0 then c + 1
  else if weekday_of c =? 6 then c - 1
  else c.

(** The [k]-th day of the week [wd] on or after day [f]. *)
Definition nth_weekday (f wd k : Z) : Z :=
  f + (7 + wd - weekday_of f) mod 7 + 7 * (k - 1).

(** The last day of the week [wd] on or before day [l]. *)
Definition last_weekday (l wd : Z) : Z :=
  l - (7 + weekday_of l - wd) mod 7.

End HolidaySpec.

(* ================================================================== *)
(** * Facts about the platform                                         *)
(* ================================================================== *)

Module JSFacts.
Import JS Spec.

Lemma forall_below_spec (n : nat) (P : Z -> bool) :
  forall_below n P = true ->
  forall z, 0 <= z < Z.of_nat n -> P z = true.
Proof.
  induction n as [|n IH]; simpl; intros H z Hz; [lia|].
  apply andb_true_iff in H as [H1 H2].
  destruct (Z.eq_dec z (Z.of_nat n)) as [->|Hne]; [exact H1|].
  apply IH; [exact H2|lia].
Qed.

(** ** The calendar *)

Lemma DayFromYear_succ (y : Z) :
  DayFromYear (y + 1) = DayFromYear y + DaysInYear y.
Proof.
  unfold DayFromYear, DaysInYear.
  repeat match goal with
         | |- context [ (?a mod ?b =? 0) ] => destruct (Z.eqb_spec (a mod b) 0)
         end; simpl negb; cbv iota;
    Z.div_mod_to_equations; lia.
Qed.

Lemma DaysInYear_cases (y : Z) : DaysInYear y = 365 \/ DaysInYear y = 366.
Proof.
  unfold DaysInYear.
  repeat match goal with
         | |- context [ (?a mod ?b =? 0) ] => destruct (Z.eqb_spec (a mod b) 0)
         end; simpl; auto.
Qed.

Lemma YearFromDay_spec (d : Z) :
  DayFromYear (YearFromDay d) <= d < DayFromYear (YearFromDay d + 1).
Proof.
  unfold YearFromDay.
  set (y := 1970 + 400 * d / 146097).
  assert (Hy : y = 1970 + 400 * d / 146097) by reflexivity.
  clearbody y.
  destruct (Z.ltb_spec d (DayFromYear y)) as [H1|H1].
  - replace (y - 1 + 1) with y by lia. split; [|exact H1].
    unfold DayFromYear in *. Z.div_mod_to_equations. lia.
  - destruct (Z.leb_spec (DayFromYear (y + 1)) d) as [H2|H2].
    + split; [exact H2|].
      unfold DayFromYear in *. Z.div_mod_to_equations. lia.
    + split; assumption.
Qed.

Lemma DayFromYear_mono (a b : Z) : a <= b -> DayFromYear a <= DayFromYear b.
Proof.
  intros H. unfold DayFromYear. Z.div_mod_to_equations. lia.
Qed.

Lemma DayFromYear_lt (a b : Z) : DayFromYear a < DayFromYear (b + 1) -> a <= b.
Proof.
  intros H.
  destruct (Z_le_gt_dec a b) as [Hle|Hgt]; [exact Hle|].
  assert (DayFromYear (b + 1) <= DayFromYear a) by (apply DayFromYear_mono; lia).
  lia.
Qed.

Lemma YearFromDay_unique (d y : Z) :
  DayFromYear y <= d < DayFromYear (y + 1) -> YearFromDay d = y.
Proof.
  intros [H1 H2].
  pose proof (YearFromDay_spec d) as [H3 H4].
  assert (YearFromDay d <= y) by (apply DayFromYear_lt; lia).
  assert (y <= YearFromDay d) by (apply DayFromYear_lt; lia).
  lia.
Qed.

Lemma DayWithinYear_range (t : Z) :
  0 <= DayWithinYear t < DaysInYear (YearFromTime t).
Proof.
  unfold DayWithinYear, YearFromTime.
  pose proof (YearFromDay_spec (Day t)) as [H1 H2].
  rewrite DayFromYear_succ in H2. lia.
Qed.

Lemma InLeapYear_days (t : Z) :
  (InLeapYear t = 0 /\ DaysInYear (YearFromTime t) = 365) \/
  (InLeapYear t = 1 /\ DaysInYear (YearFromTime t) = 366).
Proof.
  unfold InLeapYear.
  destruct (DaysInYear_cases (YearFromTime t)) as [H|H]; rewrite H; simpl; auto.
Qed.

Ltac split_ltb :=
  repeat match goal with
         | |- context [ ?a <? ?b ] => destruct (Z.ltb_spec a b)
         end.

Lemma MonthFromTime_range (t : Z) : 0 <= MonthFromTime t <= 11.
Proof.
  unfold MonthFromTime. split_ltb; lia.
Qed.

Lemma DateFromTime_range (t : Z) : 1 <= DateFromTime t <= 31.
Proof.
  pose proof (DayWithinYear_range t) as Hd.
  destruct (InLeapYear_days t) as [[Hl Hy]|[Hl Hy]];
    unfold DateFromTime, MonthFromTime; rewrite Hl; rewrite Hy in Hd;
    split_ltb; simpl; lia.
Qed.

Lemma MonthStart_civil (t : Z) :
  MonthStart (MonthFromTime t) (InLeapYear t) + DateFromTime t - 1
  = DayWithinYear t.
Proof.
  pose proof (DayWithinYear_range t) as Hd.
  destruct (InLeapYear_days t) as [[Hl Hy]|[Hl Hy]];
    unfold DateFromTime, MonthFromTime; rewrite Hl;
    split_ltb; simpl; lia.
Qed.

Lemma MakeDay_month (y m d : Z) :
  0 <= m <= 11 ->
  MakeDay (Int y) (Int m) (Int d)
  = Int (DayFromYear y
         + MonthStart m (if DaysInYear y =? 366 then 1 else 0) + d - 1).
Proof.
  intros Hm. unfold MakeDay.
  rewrite (Z.div_small m 12), (Z.mod_small m 12), Z.add_0_r by lia.
  reflexivity.
Qed.

(** Year, month and date of a time value give back its day number. *)
Lemma MakeDay_civil (t : Z) :
  MakeDay (Int (YearFromTime t)) (Int (MonthFromTime t)) (Int (DateFromTime t))
  = Int (Day t).
Proof.
  rewrite MakeDay_month by apply MonthFromTime_range.
  f_equal.
  pose proof (MonthStart_civil t) as H.
  unfold InLeapYear in H. unfold DayWithinYear in H. lia.
Qed.

Lemma supported_year (d : Z) :
  supported_day d -> 100 <= YearFromDay d <= 9999.
Proof.
  unfold supported_day, first_day, last_day. intros [H1 H2].
  pose proof (YearFromDay_spec d) as [H3 H4].
  split.
  - apply DayFromYear_lt. lia.
  - enough (YearFromDay d <= 9999) by lia.
    apply DayFromYear_lt. replace (9999 + 1) with 10000 by lia. lia.
Qed.

Lemma Day_mul (n : Z) : Day (n * msPerDay) = n.
Proof. unfold Day, msPerDay. apply Z.div_mul. lia. Qed.

Lemma supported_TimeClip (n : Z) :
  supported_day n -> TimeClip (Int (n * msPerDay)) = Int (n * msPerDay).
Proof.
  unfold supported_day, first_day, last_day, TimeClip, msPerDay.
  intros [H1 H2].
  assert (Ha : DayFromYear 100 = -683003) by reflexivity.
  assert (Hb : DayFromYear 10000 = 2932897) by reflexivity.
  rewrite Ha in H1; rewrite Hb in H2.
  destruct (Z.leb_spec (Z.abs (n * 86400000)) 8640000000000000); [reflexivity|lia].
Qed.

(** [Date.UTC] applied to the year, month and date of a time value on a
    supported day is midnight of that day. *)
Lemma Date_UTC_civil (t : Z) :
  supported_day (Day t) ->
  Date_UTC (Int (YearFromTime t)) (Int (MonthFromTime t)) (Int (DateFromTime t))
  = Int (Day t * msPerDay).
Proof.
  intros Hs. unfold Date_UTC.
  pose proof (supported_year _ Hs) as Hy. fold (YearFromTime t) in Hy.
  destruct (Z.leb_spec (YearFromTime t) 99); [lia|].
  rewrite andb_false_r, MakeDay_civil. simpl MakeDate.
  rewrite Z.add_0_r. apply supported_TimeClip, Hs.
Qed.

(** ** Strings *)

Lemma decnum_eqb_eq (a b : decnum) : decnum_eqb a b = true -> a = b.
Proof.
  destruct a, b; simpl; try discriminate; intros H.
  - reflexivity.
  - apply Bool.eqb_prop in H. congruence.
  - apply andb_true_iff in H as [H1 H2].
    apply Z.eqb_eq in H1, H2. congruence.
Qed.

Lemma padded_ok_spec (k : nat) (n : Z) :
  padded_ok k n = true ->
  String.length (ToZeroPaddedDecimalString n k) = k
  /\ no_char "-" (ToZeroPaddedDecimalString n k) = true
  /\ StringToNumber (ToZeroPaddedDecimalString n k) = Dec n 0.
Proof.
  unfold padded_ok. intros H.
  apply andb_true_iff in H as [H H3]. apply andb_true_iff in H as [H1 H2].
  repeat split.
  - apply Nat.eqb_eq, H1.
  - exact H2.
  - apply decnum_eqb_eq, H3.
Qed.

Lemma padded4_all : forall_below (Z.to_nat 10000) (padded_ok 4) = true.
Proof. vm_compute. reflexivity. Qed.

Lemma padded2_all : forall_below (Z.to_nat 100) (padded_ok 2) = true.
Proof. vm_compute. reflexivity. Qed.

Lemma padded4 (y : Z) :
  0 <= y <= 9999 ->
  String.length (ToZeroPaddedDecimalString y 4) = 4%nat
  /\ no_char "-" (ToZeroPaddedDecimalString y 4) = true
  /\ StringToNumber (ToZeroPaddedDecimalString y 4) = Dec y 0.
Proof.
  intros Hy. apply padded_ok_spec.
  apply (forall_below_spec _ _ padded4_all). rewrite Z2Nat.id; lia.
Qed.

Lemma padded2 (n : Z) :
  0 <= n <= 99 ->
  String.length (ToZeroPaddedDecimalString n 2) = 2%nat
  /\ no_char "-" (ToZeroPaddedDecimalString n 2) = true
  /\ StringToNumber (ToZeroPaddedDecimalString n 2) = Dec n 0.
Proof.
  intros Hn. apply padded_ok_spec.
  apply (forall_below_spec _ _ padded2_all). rewrite Z2Nat.id; lia.
Qed.

Lemma split_cons (sep : ascii) (s : string) :
  exists h t, split sep s = h :: t.
Proof.
  destruct s as [|c s]; simpl; [eauto|].
  destruct (Ascii.eqb c sep); [eauto|].
  destruct (split sep s); eauto.
Qed.

Lemma split_none (sep : ascii) (a : string) :
  no_char sep a = true -> split sep a = [a].
Proof.
  induction a as [|c a IH]; simpl; intros H; [reflexivity|].
  apply andb_true_iff in H as [H1 H2].
  apply negb_true_iff in H1. rewrite H1, (IH H2). reflexivity.
Qed.

Lemma split_append (sep : ascii) (a b : string) :
  no_char sep a = true ->
  split sep (a +:+ String sep b) = a :: split sep b.
Proof.
  induction a as [|c a IH]; simpl; intros H.
  - rewrite Ascii.eqb_refl. reflexivity.
  - apply andb_true_iff in H as [H1 H2].
    apply negb_true_iff in H1. rewrite H1, (IH H2). reflexivity.
Qed.

Lemma split_ymd (a b c : string) :
  no_char "-" a = true -> no_char "-" b = true -> no_char "-" c = true ->
  split "-" (a +:+ String "-" (b +:+ String "-" c)) = [a; b; c].
Proof.
  intros Ha Hb Hc.
  rewrite (split_append _ _ _ Ha), (split_append _ _ _ Hb), (split_none _ _ Hc).
  reflexivity.
Qed.

Lemma substring_ymd (a b c rest : string) :
  String.length a = 4%nat -> String.length b = 2%nat -> String.length c = 2%nat ->
  substring 0 10 (a +:+ String "-" (b +:+ String "-" (c +:+ rest)))
  = a +:+ String "-" (b +:+ String "-" c).
Proof.
  intros Ha Hb Hc.
  destruct a as [|a1 [|a2 [|a3 [|a4 [|? ?]]]]]; try discriminate.
  destruct b as [|b1 [|b2 [|? ?]]]; try discriminate.
  destruct c as [|c1 [|c2 [|? ?]]]; try discriminate.
  destruct rest; reflexivity.
Qed.

Lemma integral_Dec0 (m : Z) : integral (Dec m 0) = Int m.
Proof. simpl. f_equal. lia. Qed.

Lemma dec_pred_Dec0 (m : Z) : dec_pred (Dec m 0) = Dec (m - 1) 0.
Proof. simpl. f_equal. lia. Qed.

End JSFacts.

(* ================================================================== *)
(** * Facts about the first revision                                   *)
(* ================================================================== *)

Module PlannerFacts.
Import JS Spec JSFacts Planner.

(** ** Normalisation *)

Lemma toDateOnlyUTC_str (s : string) :
  s <> EmptyString ->
  toDateOnlyUTC (VStr s)
  = let parts := map StringToNumber (split "-" s) in
    Ok (new_Date (Date_UTC (integral (nth 0 parts DNaN))
                           (integral (dec_pred (nth 1 parts DNaN)))
                           (integral (nth 2 parts DNaN)))).
Proof. destruct s; [congruence|reflexivity]. Qed.

Lemma civil_ranges (t : Z) :
  supported_day (Day t) ->
  0 <= YearFromTime t <= 9999
  /\ 0 <= MonthFromTime t + 1 <= 99
  /\ 0 <= DateFromTime t <= 99.
Proof.
  intros Hs. pose proof (supported_year _ Hs) as Hy.
  fold (YearFromTime t) in Hy.
  pose proof (MonthFromTime_range t). pose proof (DateFromTime_range t). lia.
Qed.

Lemma ymd_supported (t : Z) :
  supported_day (Day t) -> ymd (Date (Int t)) = Ok (iso_date t).
Proof.
  intros Hs. destruct (civil_ranges t Hs) as (Hy & Hm & Hd).
  destruct (padded4 _ Hy) as (Ly & _ & _).
  destruct (padded2 _ Hm) as (Lm & _ & _).
  destruct (padded2 _ Hd) as (Ld & _ & _).
  unfold ymd, toISOString.
  destruct (Z.leb_spec 0 (YearFromTime t)); [|lia].
  destruct (Z.leb_spec (YearFromTime t) 9999); [|lia].
  cbn [andb bind]. f_equal.
  unfold iso_date, dash.
  repeat match goal with
         | |- context [ String "-" EmptyString +:+ ?x ] =>
             change (String "-" EmptyString +:+ x) with (String "-" x)
         end.
  apply substring_ymd; assumption.
Qed.

Lemma iso_date_nonempty (t : Z) :
  supported_day (Day t) -> iso_date t <> EmptyString.
Proof.
  intros Hs. destruct (civil_ranges t Hs) as (Hy & _ & _).
  destruct (padded4 _ Hy) as (Ly & _ & _).
  unfold iso_date.
  destruct (ToZeroPaddedDecimalString (YearFromTime t) 4); discriminate.
Qed.

Lemma toDateOnlyUTC_iso (t : Z) :
  supported_day (Day t) ->
  toDateOnlyUTC (VStr (iso_date t)) = Ok (day_date (Day t)).
Proof.
  intros Hs. destruct (civil_ranges t Hs) as (Hy & Hm & Hd).
  destruct (padded4 _ Hy) as (_ & Ny & Py).
  destruct (padded2 _ Hm) as (_ & Nm & Pm).
  destruct (padded2 _ Hd) as (_ & Nd & Pd).
  rewrite toDateOnlyUTC_str by (apply iso_date_nonempty, Hs).
  unfold iso_date. rewrite split_ymd by assumption.
  cbn [map nth]. rewrite Py, Pm, Pd.
  rewrite dec_pred_Dec0, !integral_Dec0.
  replace (MonthFromTime t + 1 - 1) with (MonthFromTime t) by lia.
  rewrite Date_UTC_civil by exact Hs.
  unfold new_Date, day_date. rewrite supported_TimeClip by exact Hs.
  reflexivity.
Qed.

Lemma toDateOnlyUTC_Date (t : Z) :
  supported_day (Day t) ->
  toDateOnlyUTC (VDate (Date (Int t))) = Ok (day_date (Day t)).
Proof.
  intros Hs. cbn.
  rewrite Date_UTC_civil by exact Hs.
  unfold new_Date, day_date. rewrite supported_TimeClip by exact Hs.
  reflexivity.
Qed.

Lemma ymd_day_date (n : Z) :
  supported_day n -> ymd (day_date n) = Ok (iso_date (n * msPerDay)).
Proof.
  intros Hs. apply ymd_supported. rewrite Day_mul. exact Hs.
Qed.

Lemma toDateOnlyUTC_ymd (n : Z) :
  supported_day n ->
  toDateOnlyUTC (VStr (iso_date (n * msPerDay))) = Ok (day_date n).
Proof.
  intros Hs. rewrite toDateOnlyUTC_iso; rewrite Day_mul; auto.
Qed.

(** A date value that normalises to a supported day is a fixed point of the
    round trip through its text. *)
Lemma clampDate_denotes (v : value) (n : Z) :
  denotes v n -> clampDate v = Ok (day_date n).
Proof.
  intros [Hv Hs]. unfold clampDate. rewrite Hv. cbn [bind].
  rewrite (ymd_day_date _ Hs). cbn [bind].
  apply toDateOnlyUTC_ymd, Hs.
Qed.

Lemma denotes_day_date (n : Z) : supported_day n -> denotes (VDate (day_date n)) n.
Proof.
  intros Hs. split; [|exact Hs].
  unfold day_date. rewrite toDateOnlyUTC_Date; rewrite Day_mul; auto.
Qed.

Lemma clampDate_day_date (n : Z) :
  supported_day n -> clampDate (VDate (day_date n)) = Ok (day_date n).
Proof. intros Hs. apply clampDate_denotes, denotes_day_date, Hs. Qed.

(** Outside the supported days the round trip is not the identity: a
    two-digit year is read as 19xx, and a year of more than four digits
    gives an Invalid Date. *)
Example toDateOnlyUTC_two_digit_year :
  toDateOnlyUTC (VStr "0050-03-04") = toDateOnlyUTC (VStr "1950-03-04").
Proof. vm_compute. reflexivity. Qed.

Example clampDate_five_digit_year :
  toDateOnlyUTC (VStr "10000-01-01") = Ok (Date (Int 253402300800000))
  /\ clampDate (VStr "10000-01-01") = Ok (Date NaN).
Proof. split; vm_compute; reflexivity. Qed.

(** ** Arithmetic on midnight dates *)

Lemma date_lt_day (a b : Z) : date_lt (day_date a) (day_date b) = (a <? b).
Proof.
  unfold date_lt, day_date, msPerDay. cbn.
  destruct (Z.ltb_spec (a * 86400000) (b * 86400000)), (Z.ltb_spec a b);
    try reflexivity; lia.
Qed.

Lemma date_le_day (a b : Z) : date_le (day_date a) (day_date b) = (a <=? b).
Proof.
  unfold date_le, day_date, msPerDay. cbn.
  destruct (Z.leb_spec (a * 86400000) (b * 86400000)), (Z.leb_spec a b);
    try reflexivity; lia.
Qed.

Lemma date_gt_day (a b : Z) : date_gt (day_date a) (day_date b) = (b <? a).
Proof. apply date_lt_day. Qed.

Lemma date_ge_day (a b : Z) : date_ge (day_date a) (day_date b) = (b <=? a).
Proof. apply date_le_day. Qed.

Lemma date_sub_day (a b : Z) :
  num_floor_div (date_sub (day_date a) (day_date b)) (Int MS_PER_DAY)
  = Int (a - b).
Proof.
  unfold date_sub, day_date, msPerDay, MS_PER_DAY. cbn.
  f_equal. replace (a * 86400000 + - (b * 86400000)) with ((a - b) * 86400000) by lia.
  apply Z.div_mul. lia.
Qed.

Lemma loop_bound_day (a b : Z) :
  loop_bound (day_date a) (day_date b) = Z.to_nat (b - a + 2).
Proof.
  unfold loop_bound, date_sub, day_date, msPerDay, MS_PER_DAY. cbn.
  replace (b * 86400000 + - (a * 86400000)) with ((b - a) * 86400000) by lia.
  rewrite Z.div_mul by lia. reflexivity.
Qed.

Lemma addDays_day (n k : Z) :
  -100000000 <= n + k <= 100000000 ->
  addDays (day_date n) (Int k) = Ok (day_date (n + k)).
Proof.
  intros H. unfold addDays, day_date, new_Date, msPerDay, MS_PER_DAY. cbn.
  replace (n * 86400000 + k * 86400000) with ((n + k) * 86400000) by lia.
  destruct (Z.leb_spec (Z.abs ((n + k) * 86400000)) 8640000000000000);
    [reflexivity|lia].
Qed.

Lemma supported_bounds (n : Z) :
  supported_day n -> -683003 <= n <= 2932896.
Proof.
  unfold supported_day, first_day, last_day.
  change (DayFromYear 100) with (-683003).
  change (DayFromYear 10000) with 2932897. lia.
Qed.

Lemma supported_iff (n : Z) :
  supported_day n <-> -683003 <= n <= 2932896.
Proof.
  unfold supported_day, first_day, last_day.
  change (DayFromYear 100) with (-683003).
  change (DayFromYear 10000) with 2932897. lia.
Qed.

Ltac denotes_by_eval :=
  split; [vm_compute; reflexivity | apply supported_iff; cbn [fst snd]; lia].

Lemma daysBetween_denotes (a b : value) (na nb : Z) :
  denotes a na -> denotes b nb ->
  daysBetween a b = Ok (Int (nb - na)).
Proof.
  intros Ha Hb. unfold daysBetween.
  rewrite (clampDate_denotes _ _ Hb), (clampDate_denotes _ _ Ha). cbn [bind].
  rewrite date_sub_day. reflexivity.
Qed.

(** ** Weekdays *)

Lemma isWeekday_day (n : Z) :
  supported_day n ->
  isWeekday (VDate (day_date n)) = Ok (negb (is_weekend n)).
Proof.
  intros Hs. unfold isWeekday.
  rewrite (clampDate_day_date _ Hs). cbn [bind].
  unfold day_date at 1. cbn [getUTCDay date_getter bind].
  unfold WeekDay. rewrite Day_mul.
  unfold is_weekend, weekday_of. cbn [num_eqb].
  rewrite negb_orb. reflexivity.
Qed.

Lemma count_days_empty (P : Z -> bool) (a b : Z) :
  b < a -> count_days P a b = 0.
Proof.
  intros H. unfold count_days.
  replace (seqZ a (b - a + 1)) with (@nil Z); [reflexivity|].
  symmetry. apply seqZ_nil. lia.
Qed.

Lemma count_days_step (P : Z -> bool) (a b : Z) :
  a <= b ->
  count_days P a b = (if P a then 1 else 0) + count_days P (a + 1) b.
Proof.
  intros H. unfold count_days.
  rewrite (seqZ_cons a (b - a + 1)) by lia.
  replace (Z.succ a) with (a + 1) by lia.
  replace (Z.pred (b - a + 1)) with (b - (a + 1) + 1) by lia.
  cbn [List.filter]. destruct (P a); cbn [List.length]; lia.
Qed.

Lemma count_days_nonneg (P : Z -> bool) (a b : Z) : 0 <= count_days P a b.
Proof. unfold count_days. lia. Qed.

Lemma count_days_le (P : Z -> bool) (a b : Z) :
  a <= b + 1 -> count_days P a b <= b - a + 1.
Proof.
  intros H. unfold count_days.
  pose proof (List.filter_length_le P (seqZ a (b - a + 1))) as Hl.
  rewrite length_seqZ in Hl. lia.
Qed.

(** The loop counts the weekdays from [d] to [b], whenever the fuel covers
    the days left and the final test. *)
Lemma weekdays_loop_count (k : nat) :
  forall (fuel : nat) (d b acc : Z),
    supported_day b -> first_day <= d ->
    Z.of_nat k = b - d + 1 -> (k < fuel)%nat ->
    weekdays_loop fuel (day_date d) (day_date b) acc
    = Ok (acc + weekdays_in d b).
Proof.
  induction k as [|k IH]; intros fuel d b acc Hb Hd Hk Hf;
    (destruct fuel as [|fuel]; [lia|]); cbn [weekdays_loop];
    rewrite date_le_day.
  - destruct (Z.leb_spec d b); [lia|].
    unfold weekdays_in. rewrite count_days_empty by lia. f_equal. lia.
  - destruct (Z.leb_spec d b); [|lia].
    assert (Hsd : supported_day d).
    { unfold supported_day in *. lia. }
    rewrite (isWeekday_day _ Hsd). cbn [bind].
    pose proof (supported_bounds _ Hb). pose proof (supported_bounds _ Hsd).
    rewrite addDays_day by lia. cbn [bind].
    rewrite IH; try assumption; try lia.
    unfold weekdays_in. rewrite (count_days_step _ d b) by lia.
    destruct (negb (is_weekend d)); f_equal; lia.
Qed.

Lemma weekdaysBetweenInclusive_denotes (a b : value) (na nb : Z) :
  denotes a na -> denotes b nb ->
  weekdaysBetweenInclusive a b = Ok (weekdays_in na nb).
Proof.
  intros Ha Hb. unfold weekdaysBetweenInclusive.
  rewrite (clampDate_denotes _ _ Ha), (clampDate_denotes _ _ Hb). cbn [bind].
  rewrite date_lt_day.
  destruct (Z.ltb_spec nb na).
  - unfold weekdays_in. rewrite count_days_empty by lia. reflexivity.
  - rewrite loop_bound_day.
    rewrite (weekdays_loop_count (Z.to_nat (nb - na + 1))).
    + reflexivity.
    + apply Hb.
    + destruct Ha as [_ Ha]. unfold supported_day in Ha. lia.
    + lia.
    + lia.
Qed.

(** ** The fuel of the day-by-day loops is enough *)

Lemma new_Date_clipped (v : num) : clipped (new_Date v).
Proof.
  unfold new_Date, TimeClip. destruct v as [| |t]; cbn; auto.
  destruct (Z.abs t <=? 8640000000000000); cbn; auto.
Qed.

Lemma toDateOnlyUTC_clipped (v : value) (d : date) :
  toDateOnlyUTC v = Ok d -> clipped d.
Proof.
  destruct v as [|s|[|tv]]; cbn.
  - intros [= <-]. exact I.
  - destruct s; intros [= <-]; [exact I|apply new_Date_clipped].
  - intros [= <-]. exact I.
  - destruct tv; cbn; intros [= <-]; apply new_Date_clipped.
Qed.

Lemma clampDate_clipped (v : value) (d : date) :
  clampDate v = Ok d -> clipped d.
Proof.
  unfold clampDate. destruct (toDateOnlyUTC v) as [a|]; cbn [bind]; [|discriminate].
  destruct (ymd a) as [s|]; cbn [bind]; [|discriminate].
  apply toDateOnlyUTC_clipped.
Qed.

Lemma clipped_ToNumber (d : date) :
  clipped d -> ToNumber d = NaN \/ exists u, ToNumber d = Int u.
Proof.
  destruct d as [|[| |u]]; cbn; intros H; eauto. contradiction.
Qed.

Lemma loop_bound_step (d d' to : date) :
  clipped to ->
  date_le d to = true ->
  addDays d (Int 1) = Ok d' ->
  date_le d' to = true ->
  (S (loop_bound d' to) <= loop_bound d to)%nat.
Proof.
  intros Hto Hle Hadd Hle'.
  destruct d as [|tv]; [discriminate|].
  unfold addDays in Hadd. cbn [getTime bind num_mul] in Hadd.
  injection Hadd as <-.
  unfold loop_bound, date_le, date_sub in *.
  destruct (clipped_ToNumber _ Hto) as [E|(u & E)]; rewrite E in *.
  - cbn in Hle. destruct tv; discriminate Hle.
  - cbn [ToNumber] in *. destruct tv as [| |t]; [discriminate Hle| |].
    + cbn in Hle'. discriminate Hle'.
    + unfold new_Date, TimeClip in *. cbn [num_add ToNumber] in *.
      change (1 * MS_PER_DAY) with 86400000 in *. unfold MS_PER_DAY.
      destruct (Z.abs (t + 86400000) <=? 8640000000000000);
        cbn in Hle', Hle |- *; [|discriminate].
      apply Z.leb_le in Hle, Hle'.
      replace (u + - t) with ((u + - (t + 86400000)) + 1 * 86400000) by lia.
      rewrite Z.div_add by lia.
      pose proof (Z.div_pos (u + - (t + 86400000)) 86400000 ltac:(lia) ltac:(lia)).
      lia.
Qed.

Lemma loop_bound_pos (d to : date) :
  date_le d to = true -> (1 <= loop_bound d to)%nat.
Proof.
  unfold loop_bound, date_le, date_sub.
  destruct (ToNumber to) as [|[|]|u], (ToNumber d) as [|[|]|t]; cbn;
    intros H; try discriminate H; try lia.
  apply Z.leb_le in H. unfold MS_PER_DAY.
  pose proof (Z.div_pos (u + - t) 86400000 ltac:(lia) ltac:(lia)). lia.
Qed.

Lemma weekdays_loop_enough_fuel (k : nat) :
  forall (fuel : nat) (d to : date) (acc : Z),
    clipped to ->
    (date_le d to = true -> (loop_bound d to <= k)%nat) ->
    (k <= fuel)%nat ->
    weekdays_loop fuel d to acc = weekdays_loop k d to acc.
Proof.
  induction k as [|k IH]; intros fuel d to acc Hto Hb Hf.
  - destruct fuel as [|fuel]; [reflexivity|]. cbn [weekdays_loop].
    destruct (date_le d to) eqn:E; [|reflexivity].
    pose proof (loop_bound_pos _ _ E). specialize (Hb eq_refl). lia.
  - destruct fuel as [|fuel]; [lia|]. cbn [weekdays_loop].
    destruct (date_le d to) eqn:E; [|reflexivity].
    destruct (isWeekday (VDate d)) as [wd|]; cbn [bind]; [|reflexivity].
    destruct (addDays d (Int 1)) as [d'|] eqn:Ea; cbn [bind]; [|reflexivity].
    apply IH; [exact Hto| |lia].
    intros E'. pose proof (loop_bound_step _ _ _ Hto E Ea E').
    specialize (Hb eq_refl). lia.
Qed.

(** More fuel than [loop_bound] gives does not change the result of
    [weekdaysBetweenInclusive]: the loop always leaves through its test. *)
Lemma weekdaysBetweenInclusive_fuel (fromDate toDate : value) (from to : date)
    (extra : nat) :
  clampDate fromDate = Ok from -> clampDate toDate = Ok to ->
  weekdays_loop (loop_bound from to + extra) from to 0
  = weekdays_loop (loop_bound from to) from to 0.
Proof.
  intros _ Hto. apply weekdays_loop_enough_fuel.
  - apply (clampDate_clipped _ _ Hto).
  - intros _. lia.
  - lia.
Qed.

(** ** Pay schedule *)

Lemma countPaydays_denotes (first target : value) (nf nt : Z) (freq : num) :
  denotes first nf -> denotes target nt ->
  countPaydays first target freq
  = Ok (if nt <? nf then Int 0
        else num_add (num_floor_div (Int (nt - nf)) freq) (Int 1)).
Proof.
  intros Hf Ht. unfold countPaydays.
  rewrite (clampDate_denotes _ _ Hf), (clampDate_denotes _ _ Ht). cbn [bind].
  rewrite date_lt_day. destruct (nt <? nf); [reflexivity|].
  rewrite (daysBetween_denotes _ _ nf nt);
    [reflexivity| apply denotes_day_date, Hf | apply denotes_day_date, Ht].
Qed.

(** C3: [countPaydays] is 0 for a target before the first payday, and
    otherwise the floor of [daysBetween(firstPayday, targetDate) / freqDays]
    plus 1, for every positive period; on the first payday itself it is 1. *)
Theorem countPaydays_spec (first target : value) (nf nt p : Z) :
  denotes first nf -> denotes target nt -> 0 < p ->
  (nt < nf -> countPaydays first target (Int p) = Ok (Int 0))
  /\ (nf <= nt ->
      exists k, daysBetween first target = Ok (Int k)
                /\ 0 <= k
                /\ countPaydays first target (Int p) = Ok (Int (k / p + 1)))
  /\ countPaydays first first (Int p) = Ok (Int 1).
Proof.
  intros Hf Ht Hp. repeat split.
  - intros Hlt. rewrite (countPaydays_denotes _ _ _ _ _ Hf Ht).
    destruct (Z.ltb_spec nt nf); [reflexivity|lia].
  - intros Hle. exists (nt - nf). repeat split.
    + apply daysBetween_denotes; assumption.
    + lia.
    + rewrite (countPaydays_denotes _ _ _ _ _ Hf Ht).
      destruct (Z.ltb_spec nt nf); [lia|].
      cbn. destruct (Z.eqb_spec p 0); [lia|reflexivity].
  - rewrite (countPaydays_denotes _ _ _ _ _ Hf Hf).
    rewrite Z.ltb_irrefl, Z.sub_diag. cbn.
    destruct (Z.eqb_spec p 0); [lia|].
    rewrite Z.div_0_l by lia. reflexivity.
Qed.

(** Scenario B: two paydays from 2026-01-08 up to 2026-01-22. *)
Lemma countPaydays_spec_witness :
  denotes (VStr "2026-01-08") 20461
  /\ denotes (VStr "2026-01-22") 20475
  /\ 0 < 14
  /\ countPaydays (VStr "2026-01-08") (VStr "2026-01-22") (Int 14) = Ok (Int 2)
  /\ countPaydays (VStr "2026-01-08") (VStr "2026-01-08") (Int 14) = Ok (Int 1).
Proof.
  assert (H1 : denotes (VStr "2026-01-08") 20461) by denotes_by_eval.
  assert (H2 : denotes (VStr "2026-01-22") 20475) by denotes_by_eval.
  assert (H3 : 0 < 14) by lia.
  destruct (countPaydays_spec (VStr "2026-01-08") (VStr "2026-01-22")
              20461 20475 14 H1 H2 H3) as (_ & Hge & Hfirst).
  destruct (Hge ltac:(lia)) as (k & Hk & _ & Hc).
  split; [exact H1|]. split; [exact H2|]. split; [exact H3|].
  split; [|exact Hfirst].
  rewrite Hc. vm_compute in Hk. injection Hk as <-. reflexivity.
Defined.

Lemma addDays_clip (n k : Z) :
  addDays (day_date n) (Int k) = Ok (new_Date (Int ((n + k) * msPerDay))).
Proof.
  unfold addDays, day_date, msPerDay, MS_PER_DAY. cbn.
  do 3 f_equal. lia.
Qed.

Lemma clip_supported (n : Z) :
  supported_day n -> new_Date (Int (n * msPerDay)) = day_date n.
Proof.
  intros Hs. unfold new_Date, day_date. rewrite supported_TimeClip; auto.
Qed.

Lemma date_le_clip (q ne : Z) :
  supported_day ne -> first_day <= q ->
  date_le (new_Date (Int (q * msPerDay))) (day_date ne) = (q <=? ne).
Proof.
  intros Hne Hq.
  destruct (Z.leb_spec q ne) as [Hle|Hgt].
  - rewrite clip_supported by (unfold supported_day in *; lia).
    rewrite date_le_day. apply Z.leb_le, Hle.
  - apply supported_bounds in Hne.
    unfold new_Date, TimeClip, day_date, date_le, msPerDay. cbn.
    destruct (Z.leb_spec (Z.abs (q * 86400000)) 8640000000000000);
      cbn; [|reflexivity].
    apply Z.leb_gt. lia.
Qed.

Lemma nextPaydayOnOrAfter_denotes (d first : value) (nd nf p : Z) :
  denotes d nd -> denotes first nf -> 0 < p ->
  nextPaydayOnOrAfter d first (Int p)
  = Ok (new_Date (Int (next_payday nd nf p * msPerDay))).
Proof.
  intros Hd Hf Hp. unfold nextPaydayOnOrAfter, next_payday.
  rewrite (clampDate_denotes _ _ Hd), (clampDate_denotes _ _ Hf). cbn [bind].
  rewrite date_le_day. destruct (nd <=? nf).
  - rewrite clip_supported by apply Hf. reflexivity.
  - rewrite (daysBetween_denotes _ _ nf nd);
      [| apply denotes_day_date, Hf | apply denotes_day_date, Hd].
    cbn [bind num_ceil_div]. destruct (Z.eqb_spec p 0); [lia|].
    cbn [num_mul]. apply addDays_clip.
Qed.

(** The first payday on or after [nd] is a payday, is not before [nd], and
    no payday lies between [nd] and it. *)
Lemma next_payday_spec (nd nf p : Z) :
  0 < p ->
  exists s, 0 <= s
            /\ next_payday nd nf p = nf + s * p
            /\ nd <= next_payday nd nf p
            /\ (forall k, 0 <= k -> nd <= nf + k * p -> s <= k).
Proof.
  intros Hp. unfold next_payday.
  destruct (Z.leb_spec nd nf) as [Hle|Hgt].
  - exists 0. repeat split; try lia.
  - exists (- (- (nd - nf) / p)).
    pose proof (Z.div_mod (- (nd - nf)) p ltac:(lia)) as Hdm.
    pose proof (Z.mod_pos_bound (- (nd - nf)) p Hp) as Hmod.
    set (q := - (nd - nf) / p) in *.
    set (r := (- (nd - nf)) mod p) in *.
    repeat split; nia.
Qed.

Lemma payday_run_In (n : nat) :
  forall (q p x : Z),
    In x (payday_run n q p)
    <-> exists j, 0 <= j < Z.of_nat n /\ x = q + j * p.
Proof.
  induction n as [|n IH]; intros q p x; cbn [payday_run In].
  - split; [tauto|]. intros (j & Hj & _). lia.
  - rewrite IH. split.
    + intros [<-|(j & Hj & ->)].
      * exists 0. lia.
      * exists (j + 1). lia.
    + intros (j & Hj & ->).
      destruct (Z.eq_dec j 0) as [->|Hne]; [left; lia|].
      right. exists (j - 1). lia.
Qed.

Lemma payday_run_sorted (n : nat) :
  forall (q p : Z), 0 < p -> StronglySorted Z.lt (payday_run n q p).
Proof.
  induction n as [|n IH]; intros q p Hp; cbn [payday_run]; constructor.
  - apply IH, Hp.
  - apply List.Forall_forall. intros x Hx.
    apply payday_run_In in Hx as (j & Hj & ->). nia.
Qed.

(** The loop appends the paydays from [q] up to [ne]; [n] is their
    number. *)
Lemma paydays_loop_run (n : nat) :
  forall (fuel : nat) (q ne p : Z) (out : list date),
    supported_day ne -> first_day <= q -> 0 < p ->
    (q <= ne -> Z.of_nat n = (ne - q) / p + 1) ->
    (ne < q -> n = O) ->
    (n < fuel)%nat ->
    paydays_loop fuel (new_Date (Int (q * msPerDay))) (day_date ne) (Int p) out
    = Some (Ok (out ++ map day_date (payday_run n q p))).
Proof.
  induction n as [|n IH]; intros fuel q ne p out Hne Hq Hp Hn1 Hn0 Hf;
    (destruct fuel as [|fuel]; [lia|]); cbn [paydays_loop];
    rewrite (date_le_clip _ _ Hne Hq).
  - destruct (Z.leb_spec q ne) as [Hle|Hgt].
    + specialize (Hn1 Hle).
      pose proof (Z.div_pos (ne - q) p ltac:(lia) Hp). lia.
    + cbn. rewrite app_nil_r. reflexivity.
  - destruct (Z.leb_spec q ne) as [Hle|Hgt]; [|specialize (Hn0 Hgt); lia].
    specialize (Hn1 Hle).
    assert (Hsq : supported_day q) by (unfold supported_day in *; lia).
    rewrite (clip_supported _ Hsq), addDays_clip.
    assert (Hdiv : (ne - q) / p = Z.of_nat n) by lia.
    rewrite (IH fuel (q + p) ne p (out ++ [day_date q])); try assumption; try lia.
    + cbn [payday_run map]. rewrite <- app_assoc. reflexivity.
    + intros Hle'.
      replace (ne - (q + p)) with ((ne - q) + (-1) * p) by lia.
      rewrite Z.div_add by lia. lia.
    + intros Hgt'.
      assert ((ne - q) / p = 0) by (apply Z.div_small; lia). lia.
Qed.

(** C4: for [start <= end] and a positive period, [getPaydaysBetween]
    returns (with enough fuel, and then with any more) exactly the days
    [firstPayday + k * freqDays], [k >= 0], that lie in [[start, end]], in
    strictly increasing order, the first being
    [nextPaydayOnOrAfter(start, firstPayday, freqDays)]; the list is empty
    when there is no such day.  For January 2026 with first payday
    2026-01-08 and period 14 it returns 2026-01-08 and 2026-01-22. *)
Theorem getPaydaysBetween_spec :
  (forall (start endDate first : value) (ns ne nf p : Z),
      denotes start ns -> denotes endDate ne -> denotes first nf ->
      ns <= ne -> 0 < p ->
      exists (fuel : nat) (ds : list Z),
        (forall extra,
            getPaydaysBetween (fuel + extra) start endDate first (Int p)
            = Some (Ok (map day_date ds)))
        /\ (forall x, In x ds
                      <-> exists k, 0 <= k /\ x = nf + k * p /\ ns <= x <= ne)
        /\ StronglySorted Z.lt ds
        /\ (forall d ds', ds = d :: ds' ->
                          nextPaydayOnOrAfter start first (Int p) = Ok (day_date d))
        /\ ((forall k, 0 <= k -> ~ ns <= nf + k * p <= ne) -> ds = []))
  /\ (exists l,
         getPaydaysBetween 3 (VStr "2026-01-01") (VStr "2026-01-31")
           (VStr "2026-01-08") (Int 14) = Some (Ok l)
         /\ map ymd l = [Ok "2026-01-08"; Ok "2026-01-22"]).
Proof.
  split; [|eexists; split; [vm_compute; reflexivity|vm_compute; reflexivity]].
  intros start endDate first ns ne nf p Hs He Hf Hle Hp.
  destruct (next_payday_spec ns nf p Hp) as (s & Hs0 & Hq & Hns & Hmin).
  set (q0 := next_payday ns nf p) in *.
  set (n := if q0 <=? ne then Z.to_nat ((ne - q0) / p + 1) else O).
  assert (Hn1 : q0 <= ne -> Z.of_nat n = (ne - q0) / p + 1).
  { intros H. unfold n. destruct (Z.leb_spec q0 ne); [|lia].
    pose proof (Z.div_pos (ne - q0) p ltac:(lia) Hp). lia. }
  assert (Hn0 : ne < q0 -> n = O).
  { intros H. unfold n. destruct (Z.leb_spec q0 ne); [lia|reflexivity]. }
  assert (Hq0 : first_day <= q0).
  { destruct Hs as [_ Hs]. unfold supported_day in Hs. lia. }
  assert (Hin : forall x, In x (payday_run n q0 p)
                <-> exists k, 0 <= k /\ x = nf + k * p /\ ns <= x <= ne).
  { intros x. rewrite payday_run_In. split.
    - intros (j & Hj & ->).
      destruct (Z.le_gt_cases q0 ne) as [Hqe|Hqe]; [|rewrite (Hn0 Hqe) in Hj; lia].
      specialize (Hn1 Hqe).
      assert (j <= (ne - q0) / p) by lia.
      pose proof (Z.mul_div_le (ne - q0) p Hp).
      exists (s + j). repeat split; nia.
    - intros (k & Hk & -> & Hx1 & Hx2).
      specialize (Hmin k Hk Hx1).
      assert (Hqe : q0 <= ne) by nia.
      specialize (Hn1 Hqe).
      exists (k - s). split; [|nia].
      assert (k - s <= (ne - q0) / p).
      { apply Z.div_le_lower_bound; [exact Hp|nia]. }
      lia. }
  exists (S n), (payday_run n q0 p). repeat split.
  - intros extra. unfold getPaydaysBetween.
    rewrite (clampDate_denotes _ _ Hs), (clampDate_denotes _ _ He).
    rewrite (nextPaydayOnOrAfter_denotes _ _ ns nf p
               (denotes_day_date _ (proj2 Hs)) Hf Hp).
    fold q0. rewrite (paydays_loop_run n); try assumption; try lia.
    + reflexivity.
    + apply He.
  - apply Hin.
  - apply Hin.
  - apply payday_run_sorted, Hp.
  - intros d ds' Hd.
    destruct n as [|n']; [discriminate|]. cbn [payday_run] in Hd.
    injection Hd as <- _.
    rewrite (nextPaydayOnOrAfter_denotes _ _ ns nf p Hs Hf Hp). fold q0.
    destruct (Z.le_gt_cases q0 ne) as [Hqe|Hqe]; [|specialize (Hn0 Hqe); lia].
    rewrite clip_supported; [reflexivity|].
    destruct He as [_ He]. unfold supported_day in *. lia.
  - intros Hnone.
    destruct (payday_run n q0 p) as [|x l] eqn:E; [reflexivity|].
    exfalso. destruct (proj1 (Hin x) (or_introl eq_refl)) as (k & Hk & -> & Hr).
    exact (Hnone k Hk Hr).
Qed.

Lemma getPaydaysBetween_spec_witness :
  denotes (VStr "2026-01-01") 20454
  /\ denotes (VStr "2026-01-31") 20484
  /\ denotes (VStr "2026-01-08") 20461
  /\ 20454 <= 20484 /\ 0 < 14
  /\ exists (fuel : nat) (ds : list Z),
       getPaydaysBetween fuel (VStr "2026-01-01") (VStr "2026-01-31")
         (VStr "2026-01-08") (Int 14) = Some (Ok (map day_date ds))
       /\ (In 20461 ds /\ In 20475 ds /\ ~ In 20489 ds).
Proof.
  assert (H1 : denotes (VStr "2026-01-01") 20454) by denotes_by_eval.
  assert (H2 : denotes (VStr "2026-01-31") 20484) by denotes_by_eval.
  assert (H3 : denotes (VStr "2026-01-08") 20461) by denotes_by_eval.
  assert (H4 : 20454 <= 20484) by lia.
  assert (H5 : 0 < 14) by lia.
  destruct (proj1 getPaydaysBetween_spec (VStr "2026-01-01") (VStr "2026-01-31")
              (VStr "2026-01-08") 20454 20484 20461 14 H1 H2 H3 H4 H5)
    as (fuel & ds & Hrun & Hin & _).
  split; [exact H1|]. split; [exact H2|]. split; [exact H3|].
  split; [exact H4|]. split; [exact H5|].
  exists fuel, ds. split.
  - rewrite <- (Hrun O). f_equal. lia.
  - split; [|split].
    + apply Hin. exists 0. lia.
    + apply Hin. exists 1. lia.
    + intros Hn. apply Hin in Hn as (k & _ & _ & Hr). lia.
Defined.

(** ** Leave hours *)

Lemma weekdays_in_weekday (a b : Z) : weekdays_in a b = count_days weekday a b.
Proof. reflexivity. Qed.

Lemma supported_min (a b : Z) :
  supported_day a -> supported_day b -> supported_day (Z.min a b).
Proof. unfold supported_day. lia. Qed.

Lemma leave_hours_cons (P : Z -> bool) (s : Z * Z) (spans : list (Z * Z)) (nt : Z) :
  leave_hours P (s :: spans) nt
  = (if fst s <=? nt then count_days P (fst s) (Z.min (snd s) nt) * 8 else 0)
    + leave_hours P spans nt.
Proof.
  unfold leave_hours, Zsum. cbn [List.filter].
  destruct (fst s <=? nt); cbn [map fold_right]; lia.
Qed.

Lemma leave_hours_app (P : Z -> bool) (l1 l2 : list (Z * Z)) (nt : Z) :
  leave_hours P (l1 ++ l2) nt = leave_hours P l1 nt + leave_hours P l2 nt.
Proof.
  induction l1 as [|s l1 IH]; [reflexivity|].
  cbn [app]. rewrite !leave_hours_cons, IH. lia.
Qed.

Lemma leave_hours_mult8 (P : Z -> bool) (spans : list (Z * Z)) (nt : Z) :
  exists k, 0 <= k /\ leave_hours P spans nt = 8 * k.
Proof.
  induction spans as [|s spans (k & Hk & IH)].
  - exists 0. split; [lia|reflexivity].
  - rewrite leave_hours_cons, IH.
    pose proof (count_days_nonneg P (fst s) (Z.min (snd s) nt)).
    destruct (fst s <=? nt).
    + exists (count_days P (fst s) (Z.min (snd s) nt) + k). lia.
    + exists k. lia.
Qed.

Lemma leave_hours_inverted (P : Z -> bool) (a b nt : Z) :
  b < a -> leave_hours P [(a, b)] nt = 0.
Proof.
  intros H. rewrite leave_hours_cons. cbn [fst snd].
  destruct (a <=? nt); [|reflexivity].
  rewrite count_days_empty by lia. reflexivity.
Qed.

Lemma pto_loop_denotes (rs : list PtoRange) (spans : list (Z * Z)) (nt : Z) :
  ranges_denote rs spans -> supported_day nt ->
  forall hours,
    pto_loop (day_date nt) rs hours = Ok (hours + leave_hours weekday spans nt).
Proof.
  intros Hrs Hnt. induction Hrs as [|r s rs spans [Hfrom Hto] _ IH]; intros hours.
  - cbn. f_equal; unfold leave_hours; cbn; lia.
  - cbn [pto_loop]. rewrite (proj1 Hfrom), (proj1 Hto). cbn [bind].
    rewrite date_gt_day, date_le_day, leave_hours_cons.
    destruct (Z.ltb_spec nt (fst s)) as [Hlt|Hge].
    + destruct (Z.leb_spec (fst s) nt); [lia|]. rewrite IH. f_equal; lia.
    + destruct (Z.leb_spec (fst s) nt); [|lia].
      assert (Hcap : (if snd s <=? nt then day_date (snd s) else day_date nt)
                     = day_date (Z.min (snd s) nt)).
      { destruct (Z.leb_spec (snd s) nt); f_equal; lia. }
      rewrite Hcap.
      rewrite (weekdaysBetweenInclusive_denotes _ _ (fst s) (Z.min (snd s) nt)).
      * cbn [bind]. rewrite IH, weekdays_in_weekday. f_equal; lia.
      * apply denotes_day_date, Hfrom.
      * apply denotes_day_date, supported_min; [apply Hto|exact Hnt].
Qed.

Lemma ptoHoursUpTo_denotes (st : State) (target : value) (nt : Z)
    (spans : list (Z * Z)) :
  denotes target nt -> ranges_denote (ptoRanges st) spans ->
  ptoHoursUpTo st target = Ok (leave_hours weekday spans nt).
Proof.
  intros [Ht Hnt] Hrs. unfold ptoHoursUpTo. rewrite Ht. cbn [bind].
  rewrite (pto_loop_denotes _ _ _ Hrs Hnt). reflexivity.
Qed.

(** C10: the leave hours deducted up to a valid target date are a
    non-negative whole multiple of 8, whether the ranges of the ledger are
    well-formed or inverted. *)
Theorem ptoHoursUpTo_multiple_of_8 (st : State) (target : value) (nt : Z)
    (spans : list (Z * Z)) :
  denotes target nt -> ranges_denote (ptoRanges st) spans ->
  exists k, 0 <= k /\ ptoHoursUpTo st target = Ok (8 * k).
Proof.
  intros Ht Hrs. rewrite (ptoHoursUpTo_denotes _ _ _ _ Ht Hrs).
  destruct (leave_hours_mult8 weekday spans nt) as (k & Hk & ->).
  exists k. split; [exact Hk|reflexivity].
Qed.

Lemma ptoHoursUpTo_multiple_of_8_witness :
  denotes (VStr "2026-01-22") 20475
  /\ ranges_denote (ptoRanges scenario_D) [(20458, 20462)]
  /\ ptoHoursUpTo scenario_D (VStr "2026-01-22") = Ok (8 * 5).
Proof.
  assert (H1 : denotes (VStr "2026-01-22") 20475) by denotes_by_eval.
  assert (H2 : ranges_denote (ptoRanges scenario_D) [(20458, 20462)])
    by (constructor; [split; denotes_by_eval | constructor]).
  destruct (ptoHoursUpTo_multiple_of_8 scenario_D (VStr "2026-01-22") 20475
              [(20458, 20462)] H1 H2) as (k & _ & Hk).
  split; [exact H1|]. split; [exact H2|].
  vm_compute. reflexivity.
Defined.

(** ** Credits *)

Lemma toDateOnlyUTC_total (v : value) : exists d, toDateOnlyUTC v = Ok d.
Proof.
  destruct v as [|s|[|tv]]; cbn; eauto.
  - destruct s; eauto.
  - destruct tv; cbn; eauto.
Qed.

Lemma credit_loop_fold (target : date) (cs : list Credit) :
  forall hours,
    credit_loop target cs hours
    = Ok (fold_left (fun h c => (h + credit_amount c)%float)
            (List.filter (credit_due target) cs) hours).
Proof.
  induction cs as [|c cs IH]; intros hours; [reflexivity|].
  cbn [credit_loop List.filter]. unfold credit_due at 1.
  destruct (toDateOnlyUTC_total (credit_date c)) as (d & ->). cbn [bind].
  destruct (date_le d target); cbn [fold_left]; apply IH.
Qed.

Lemma credit_amount_cases (c : Credit) :
  credit_amount c
  = match credit_hours c with
    | Val x =>
        if is_nan x || PrimFloat.eqb x 0 then 0%float
        else if PrimFloat.ltb 0 x then x else 0%float
    | _ => 0%float
    end.
Proof.
  unfold credit_amount, float_or.
  destruct (credit_hours c) as [| |x]; cbn [Number_float];
    [reflexivity|reflexivity|].
  destruct (is_nan x) eqn:Hn; [reflexivity|].
  destruct (PrimFloat.eqb x 0) eqn:Hz; [reflexivity|].
  cbn [orb]. unfold Math_max. rewrite Hn.
  change (is_nan 0) with false. cbn [orb].
  destruct (PrimFloat.ltb 0 x); [reflexivity|].
  destruct (PrimFloat.ltb x 0); reflexivity.
Qed.

Lemma credit_due_denotes (c : Credit) (nc nt : Z) :
  denotes (credit_date c) nc ->
  credit_due (day_date nt) c = (nc <=? nt).
Proof.
  intros [Hc _]. unfold credit_due. rewrite Hc. apply date_le_day.
Qed.

(** C6: the credit component is the sum, in ledger order, of the amounts of
    exactly the credits dated on or before the target date, and it never
    throws; the amount of a credit is its hours when they are a Number
    greater than zero, and 0 when they are absent, null, NaN, zero or
    negative.  A 10-hour credit dated 2026-01-10 gives 0 on 2026-01-09 and
    10 from 2026-01-10 on. *)
Theorem creditHoursUpTo_spec :
  (forall (st : State) (target : value),
      exists t, toDateOnlyUTC target = Ok t
                /\ creditHoursUpTo st target
                   = Ok (fold_left (fun h c => (h + credit_amount c)%float)
                           (List.filter (credit_due t) (credits st)) 0%float))
  /\ (forall (c : Credit) (target : value) (nc nt : Z),
         denotes (credit_date c) nc -> denotes target nt ->
         toDateOnlyUTC target = Ok (day_date nt)
         /\ credit_due (day_date nt) c = (nc <=? nt))
  /\ (forall c : Credit,
         credit_amount c
         = match credit_hours c with
           | Val x =>
               if is_nan x || PrimFloat.eqb x 0 then 0%float
               else if PrimFloat.ltb 0 x then x else 0%float
           | _ => 0%float
           end)
  /\ creditHoursUpTo scenario_E (VStr "2026-01-09") = Ok 0%float
  /\ (forall (target : value) (nt : Z),
         denotes target nt -> 20463 <= nt ->
         creditHoursUpTo scenario_E target = Ok 10%float).
Proof.
  repeat split.
  - intros st target.
    destruct (toDateOnlyUTC_total target) as (t & Ht).
    exists t. split; [exact Ht|].
    unfold creditHoursUpTo. rewrite Ht. cbn [bind]. apply credit_loop_fold.
  - apply H0.
  - apply credit_due_denotes. assumption.
  - apply credit_amount_cases.
  - intros target nt [Ht Hs] Hle.
    unfold creditHoursUpTo. rewrite Ht. cbn [bind].
    rewrite credit_loop_fold. cbn [scenario_E set_credits credits List.filter].
    rewrite (credit_due_denotes _ 20463 nt).
    + destruct (Z.leb_spec 20463 nt); [reflexivity|lia].
    + split; [reflexivity|apply supported_iff; lia].
Qed.

Lemma creditHoursUpTo_spec_witness :
  denotes (VStr "2026-01-10") 20463
  /\ denotes (VStr "2026-03-01") 20513
  /\ 20463 <= 20513
  /\ creditHoursUpTo scenario_E (VStr "2026-03-01") = Ok 10%float
  /\ creditHoursUpTo scenario_E (VStr "2026-01-10") = Ok 10%float.
Proof.
  assert (H1 : denotes (VStr "2026-01-10") 20463) by denotes_by_eval.
  assert (H2 : denotes (VStr "2026-03-01") 20513) by denotes_by_eval.
  assert (H3 : 20463 <= 20513) by lia.
  destruct creditHoursUpTo_spec as (_ & _ & _ & _ & Hlater).
  split; [exact H1|]. split; [exact H2|]. split; [exact H3|]. split.
  - exact (Hlater (VStr "2026-03-01") 20513 H2 H3).
  - exact (Hlater (VStr "2026-01-10") 20463 H1 ltac:(lia)).
Defined.

(** ** Balance *)

Lemma creditHoursUpTo_total (st : State) (target : value) :
  exists c, creditHoursUpTo st target = Ok c.
Proof.
  unfold creditHoursUpTo.
  destruct (toDateOnlyUTC_total target) as (t & ->). cbn [bind].
  rewrite credit_loop_fold. eauto.
Qed.

Lemma getBalanceOn_denotes (st : State) (target : value) (nt nf : Z)
    (spans : list (Z * Z)) :
  denotes target nt -> denotes (firstPayday st) nf ->
  ranges_denote (ptoRanges st) spans ->
  exists periods leave credit,
    countPaydays (firstPayday st) target (period st) = Ok periods
    /\ ptoHoursUpTo st target = Ok leave
    /\ creditHoursUpTo st target = Ok credit
    /\ getBalanceOn st target
       = Ok ((if (nf <=? nt)%Z
              then base st + float_of_num periods * accrual st
              else base st)
             - float_of_Z leave + credit)%float.
Proof.
  intros Ht Hf Hrs.
  destruct (creditHoursUpTo_total st target) as (credit & Hc).
  eexists _, _, credit. repeat split.
  - apply (countPaydays_denotes _ _ nf nt _ Hf Ht).
  - apply (ptoHoursUpTo_denotes _ _ nt spans Ht Hrs).
  - exact Hc.
  - unfold getBalanceOn. rewrite (proj1 Ht), (proj1 Hf). cbn [bind].
    rewrite date_ge_day.
    rewrite (countPaydays_denotes _ _ nf nt _
               (denotes_day_date _ (proj2 Hf)) (denotes_day_date _ (proj2 Ht))).
    rewrite (ptoHoursUpTo_denotes _ _ nt spans Ht Hrs), Hc.
    fold (base st) (accrual st) (period st).
    destruct (nf <=? nt); reflexivity.
Qed.

(** C1: for a target date and a ledger with valid dates, [getBalanceOn] is
    the starting balance, plus [countPaydays(firstPayday, target, freq)]
    times the accrual when the target is on or after the first payday (and
    nothing otherwise), minus the leave hours, plus the credit hours.  The
    starting balance and the accrual are the stored Numbers (0 stands for
    an absent, null, NaN or zero setting).  With the default configuration
    the balance on 2026-01-05 is -15.78. *)
Theorem getBalanceOn_formula :
  (forall (st : State) (target : value) (nt nf : Z) (spans : list (Z * Z)),
      denotes target nt -> denotes (firstPayday st) nf ->
      ranges_denote (ptoRanges st) spans ->
      exists periods leave credit,
        countPaydays (firstPayday st) target (period st) = Ok periods
        /\ ptoHoursUpTo st target = Ok leave
        /\ creditHoursUpTo st target = Ok credit
        /\ getBalanceOn st target
           = Ok ((if (nf <=? nt)%Z
                  then base st + float_of_num periods * accrual st
                  else base st)
                 - float_of_Z leave + credit)%float)
  /\ (forall (st : State) (x : float),
         startBalance st = Val x ->
         is_nan x || PrimFloat.eqb x 0 = false ->
         base st = x)
  /\ (forall (st : State) (x : float),
         accrualPerPeriod st = Val x ->
         is_nan x || PrimFloat.eqb x 0 = false ->
         accrual st = x)
  /\ getBalanceOn DEFAULTS (VStr "2026-01-05") = Ok (-15.78)%float.
Proof.
  split; [apply getBalanceOn_denotes|].
  split; [|split; [|vm_compute; reflexivity]].
  - intros st x Hx Hn. unfold base, float_or. rewrite Hx. cbn [Number_float].
    rewrite Hn. reflexivity.
  - intros st x Hx Hn. unfold accrual, float_or. rewrite Hx. cbn [Number_float].
    rewrite Hn. reflexivity.
Qed.

Lemma getBalanceOn_formula_witness :
  denotes (VStr "2026-01-22") 20475
  /\ denotes (firstPayday DEFAULTS) 20461
  /\ ranges_denote (ptoRanges DEFAULTS) []
  /\ countPaydays (firstPayday DEFAULTS) (VStr "2026-01-22") (period DEFAULTS)
     = Ok (Int 2)
  /\ getBalanceOn DEFAULTS (VStr "2026-01-22")
     = Ok (-15.78 + 2 * 4.61 - 0 + 0)%float.
Proof.
  assert (H1 : denotes (VStr "2026-01-22") 20475) by denotes_by_eval.
  assert (H2 : denotes (firstPayday DEFAULTS) 20461) by denotes_by_eval.
  assert (H3 : ranges_denote (ptoRanges DEFAULTS) []) by constructor.
  destruct (proj1 getBalanceOn_formula DEFAULTS (VStr "2026-01-22")
              20475 20461 [] H1 H2 H3)
    as (periods & leave & credit & Hp & Hl & Hc & Hb).
  split; [exact H1|]. split; [exact H2|]. split; [exact H3|]. split.
  - vm_compute. reflexivity.
  - rewrite Hb. vm_compute in Hp, Hl, Hc.
    injection Hp as <-. injection Hl as <-. injection Hc as <-.
    vm_compute. reflexivity.
Defined.

Lemma getBalanceOn_ext (st : State) (v v' : value) :
  toDateOnlyUTC v = toDateOnlyUTC v' ->
  getBalanceOn st v = getBalanceOn st v'.
Proof.
  intros H. unfold getBalanceOn, ptoHoursUpTo, creditHoursUpTo.
  rewrite H. reflexivity.
Qed.

Lemma getBalanceOn_total (st : State) (target : value) (nt nf : Z)
    (spans : list (Z * Z)) :
  denotes target nt -> denotes (firstPayday st) nf ->
  ranges_denote (ptoRanges st) spans ->
  exists b, getBalanceOn st target = Ok b.
Proof.
  intros Ht Hf Hrs.
  destruct (getBalanceOn_denotes st target nt nf spans Ht Hf Hrs)
    as (? & ? & ? & _ & _ & _ & ->).
  eauto.
Qed.

(** ** Fallback period *)

(** C8, as the code has it: a [payFrequencyDays] that is absent, null, NaN
    or zero is replaced by 14, so the balance is that of a 14-day period,
    and it is computed (no exception) for valid dates; any other value,
    negative ones included, is used as it is. *)
Theorem payFrequencyDays_fallback (st : State) :
  (falsy_period (payFrequencyDays st) = true ->
   forall target,
     getBalanceOn st target
     = getBalanceOn (set_payFrequencyDays st (Val (Int 14))) target)
  /\ (forall target nt nf spans,
        denotes target nt -> denotes (firstPayday st) nf ->
        ranges_denote (ptoRanges st) spans ->
        exists b, getBalanceOn st target = Ok b)
  /\ (forall p, p <> 0 -> payFrequencyDays st = Val (Int p) -> period st = Int p).
Proof.
  repeat split.
  - intros Hf target. unfold getBalanceOn, ptoHoursUpTo, creditHoursUpTo.
    destruct st as [sd sb ac fp pf rs cs]. cbn in *.
    destruct pf as [| |[| |[| |]]]; try discriminate; reflexivity.
  - apply getBalanceOn_total.
  - intros p Hp Hpf. unfold period. rewrite Hpf. cbn.
    destruct p; [congruence|reflexivity|reflexivity].
Qed.

Lemma payFrequencyDays_fallback_witness :
  falsy_period (payFrequencyDays (set_payFrequencyDays DEFAULTS Missing)) = true
  /\ getBalanceOn (set_payFrequencyDays DEFAULTS Missing) (VStr "2026-01-22")
     = getBalanceOn
         (set_payFrequencyDays (set_payFrequencyDays DEFAULTS Missing) (Val (Int 14)))
         (VStr "2026-01-22")
  /\ -14 <> 0
  /\ period (set_payFrequencyDays DEFAULTS (Val (Int (-14)))) = Int (-14).
Proof.
  assert (H1 : falsy_period
                 (payFrequencyDays (set_payFrequencyDays DEFAULTS Missing)) = true)
    by reflexivity.
  assert (H2 : -14 <> 0) by lia.
  split; [exact H1|]. split.
  - exact (proj1 (payFrequencyDays_fallback (set_payFrequencyDays DEFAULTS Missing))
             H1 (VStr "2026-01-22")).
  - split; [exact H2|].
    exact (proj2 (proj2 (payFrequencyDays_fallback
                           (set_payFrequencyDays DEFAULTS (Val (Int (-14))))))
             (-14) H2 eq_refl).
Defined.

(** With a period of -14 days the balance on 2026-01-22 is not the one a
    14-day period gives. *)
Lemma payFrequencyDays_negative_counterexample :
  getBalanceOn (set_payFrequencyDays DEFAULTS (Val (Int (-14)))) (VStr "2026-01-22")
  <> getBalanceOn (set_payFrequencyDays DEFAULTS (Val (Int 14))) (VStr "2026-01-22").
Proof.
  intros H.
  assert (E : balance_below
                (getBalanceOn (set_payFrequencyDays DEFAULTS (Val (Int (-14))))
                   (VStr "2026-01-22")) (-10)
              = balance_below
                  (getBalanceOn (set_payFrequencyDays DEFAULTS (Val (Int 14)))
                     (VStr "2026-01-22")) (-10))
    by (rewrite H; reflexivity).
  vm_compute in E. discriminate E.
Qed.

(** ** Malformed dates *)

Lemma Date_UTC_NaN (y m d : num) :
  y = NaN \/ m = NaN \/ d = NaN -> Date_UTC y m d = NaN.
Proof.
  intros [ -> | [ -> | -> ] ]; unfold Date_UTC.
  - reflexivity.
  - destruct y as [| |y]; try reflexivity.
    destruct ((0 <=? y) && (y <=? 99)); reflexivity.
  - destruct y as [| |y]; try reflexivity.
    destruct ((0 <=? y) && (y <=? 99)); destruct m; reflexivity.
Qed.

Lemma integral_NaN (x : decnum) : decnum_eqb x DNaN = true -> integral x = NaN.
Proof. destruct x; simpl; try discriminate; reflexivity. Qed.

Lemma integral_pred_NaN (x : decnum) :
  decnum_eqb x DNaN = true -> integral (dec_pred x) = NaN.
Proof. destruct x; simpl; try discriminate; reflexivity. Qed.

(** C9, as the code has it: [toDateOnlyUTC] returns [null] for [undefined],
    [null] and the empty string; for any other string it returns a Date
    object, never [null], and that object is an Invalid Date (time value
    NaN) when the string is unparseable. *)
Theorem toDateOnlyUTC_malformed :
  toDateOnlyUTC VUndefined = Ok Null
  /\ toDateOnlyUTC (VDate Null) = Ok Null
  /\ toDateOnlyUTC (VStr EmptyString) = Ok Null
  /\ (forall s, s <> EmptyString ->
        exists tv, toDateOnlyUTC (VStr s) = Ok (Date tv)
                   /\ (unparseable s = true -> tv = NaN)).
Proof.
  repeat split. intros s Hs.
  rewrite (toDateOnlyUTC_str s Hs). cbv zeta. unfold new_Date.
  eexists. split; [reflexivity|].
  unfold unparseable. intros Hu.
  rewrite Date_UTC_NaN; [reflexivity|].
  apply orb_true_iff in Hu as [Hu|Hu]; [apply orb_true_iff in Hu as [Hu|Hu]|].
  - left. apply integral_NaN, Hu.
  - right; left. apply integral_pred_NaN, Hu.
  - right; right. apply integral_NaN, Hu.
Qed.

Lemma toDateOnlyUTC_malformed_witness :
  ("not a date" : string) <> EmptyString
  /\ unparseable "not a date" = true
  /\ toDateOnlyUTC (VStr "not a date") = Ok (Date NaN).
Proof.
  assert (H1 : ("not a date" : string) <> EmptyString) by discriminate.
  assert (H2 : unparseable "not a date" = true) by (vm_compute; reflexivity).
  destruct (proj2 (proj2 (proj2 toDateOnlyUTC_malformed)) "not a date" H1)
    as (tv & Htv & Hnan).
  split; [exact H1|]. split; [exact H2|].
  rewrite Htv, (Hnan H2). reflexivity.
Defined.

(** An unparseable string is not normalised to [null]: it gives an Invalid
    Date, with which the balance of the default state is computed without
    any error. *)
Lemma toDateOnlyUTC_unparseable_counterexample :
  toDateOnlyUTC (VStr "not a date") <> Ok Null
  /\ toDateOnlyUTC (VStr "not a date") = Ok (Date NaN)
  /\ getBalanceOn DEFAULTS (VStr "not a date") = Ok (-15.78)%float.
Proof.
  split; [vm_compute; discriminate|].
  split; vm_compute; reflexivity.
Qed.

(** ** Forecast series *)

Lemma supported_time (t : Z) :
  supported_day (Day t) -> Z.abs t <= 8640000000000000.
Proof.
  intros H. apply supported_bounds in H. unfold Day, msPerDay in H.
  Z.div_mod_to_equations. lia.
Qed.

Lemma Day_add (t i : Z) : Day (t + i * msPerDay) = Day t + i.
Proof. unfold Day, msPerDay. apply Z.div_add. lia. Qed.

Lemma addDays_time (t i : Z) :
  supported_day (Day t + i) ->
  addDays (Date (Int t)) (Int i) = Ok (Date (Int (t + i * msPerDay))).
Proof.
  intros H. rewrite <- Day_add in H. apply supported_time in H.
  unfold addDays, new_Date, TimeClip. cbn [getTime bind num_mul num_add].
  change MS_PER_DAY with msPerDay.
  destruct (Z.leb_spec (Z.abs (t + i * msPerDay)) 8640000000000000);
    [reflexivity|lia].
Qed.

Lemma denotes_iso (t : Z) :
  supported_day (Day t) -> denotes (VStr (iso_date t)) (Day t).
Proof. intros H. split; [apply toDateOnlyUTC_iso, H|exact H]. Qed.

Lemma denotes_Date (t : Z) :
  supported_day (Day t) -> denotes (VDate (Date (Int t))) (Day t).
Proof. intros H. split; [apply toDateOnlyUTC_Date, H|exact H]. Qed.

Lemma series_loop_spec (st : State) (t nf : Z) (spans : list (Z * Z)) :
  denotes (firstPayday st) nf -> ranges_denote (ptoRanges st) spans ->
  forall (n : nat) (i : Z) (series : list Point),
    (forall j, i <= j < i + Z.of_nat n -> supported_day (Day t + j)) ->
    exists l,
      series_loop n st (Date (Int t)) i series = Ok (series ++ l)
      /\ List.length l = n
      /\ forall k, (k < n)%nat ->
           exists pt, nth_error l k = Some pt
                      /\ point_ok st t (i + Z.of_nat k) pt.
Proof.
  intros Hf Hrs. induction n as [|n IH]; intros i series Hsup.
  - exists []. cbn. rewrite app_nil_r. repeat split. intros k Hk. lia.
  - cbn [series_loop].
    assert (Hi : supported_day (Day t + i)) by (apply Hsup; lia).
    assert (Hi' : supported_day (Day (t + i * msPerDay)))
      by (rewrite Day_add; exact Hi).
    rewrite (addDays_time _ _ Hi). cbn [bind].
    rewrite (ymd_supported _ Hi'). cbn [bind].
    destruct (getBalanceOn_total st _ _ nf spans (denotes_iso _ Hi') Hf Hrs)
      as (b & Hb).
    rewrite Hb. cbn [bind].
    destruct (IH (i + 1) (series ++ [mkPoint (Date (Int (t + i * msPerDay))) b]))
      as (l & Hl & Hlen & Hnth).
    { intros j Hj. apply Hsup. lia. }
    exists (mkPoint (Date (Int (t + i * msPerDay))) b :: l). repeat split.
    + rewrite Hl, <- app_assoc. reflexivity.
    + cbn. rewrite Hlen. reflexivity.
    + intros [|k] Hk.
      * eexists. split; [reflexivity|].
        rewrite Z.add_0_r. unfold point_ok. cbn [point_date point_y].
        repeat split.
        -- apply addDays_time, Hi.
        -- apply ymd_supported, Hi'.
        -- exact Hb.
        -- rewrite <- Hb. apply getBalanceOn_ext.
           rewrite toDateOnlyUTC_Date, toDateOnlyUTC_iso by exact Hi'.
           reflexivity.
      * destruct (Hnth k ltac:(lia)) as (pt & Hpt & Hok).
        exists pt. split; [exact Hpt|].
        replace (i + Z.of_nat (S k)) with (i + 1 + Z.of_nat k) by lia.
        exact Hok.
Qed.

Lemma forecastSeries_denotes (st : State) (t days nf : Z) (spans : list (Z * Z)) :
  0 <= days ->
  supported_day (Day t) -> supported_day (Day t + days) ->
  denotes (firstPayday st) nf -> ranges_denote (ptoRanges st) spans ->
  exists series,
    forecastSeries st (Date (Int t)) days = Ok series
    /\ Z.of_nat (List.length series) = days + 1
    /\ forall i, 0 <= i <= days ->
         exists pt, nth_error series (Z.to_nat i) = Some pt
                    /\ point_ok st t i pt.
Proof.
  intros Hd Ht Hte Hf Hrs. unfold forecastSeries.
  destruct (series_loop_spec st t nf spans Hf Hrs (Z.to_nat (days + 1)) 0 [])
    as (l & Hl & Hlen & Hnth).
  { intros j Hj. unfold supported_day in *. lia. }
  exists l. repeat split.
  - exact Hl.
  - lia.
  - intros i Hi. destruct (Hnth (Z.to_nat i) ltac:(lia)) as (pt & Hpt & Hok).
    exists pt. split; [exact Hpt|].
    rewrite Z2Nat.id in Hok by lia. exact Hok.
Qed.

End PlannerFacts.

(* ================================================================== *)
(** * Facts about the second revision                                  *)
(* ================================================================== *)

Module HolidayPlannerFacts.
Import JS Spec HolidaySpec JSFacts PlannerFacts HolidayPlanner.

(** ** The holiday set is always computed *)

Lemma MonthStart_bounds (mn l : Z) :
  0 <= l <= 1 -> 0 <= MonthStart mn l <= 335.
Proof.
  intros Hl. unfold MonthStart.
  destruct mn as [|p|p]; try lia.
  do 4 (destruct p as [p|p|]; try lia).
Qed.

Lemma DayFromYear_bounds (y : Z) :
  -200002 <= y <= 200002 -> -79400000 <= DayFromYear y <= 72400000.
Proof.
  intros H. unfold DayFromYear. Z.div_mod_to_equations. lia.
Qed.

Lemma MakeDay_bounds (y m d : Z) :
  -200001 <= y <= 200001 -> 0 <= m <= 12 -> -40 <= d <= 40 ->
  exists n, MakeDay (Int y) (Int m) (Int d) = Int n
            /\ -80000000 <= n <= 80000000.
Proof.
  intros Hy Hm Hd. unfold MakeDay. eexists. split; [reflexivity|].
  assert (Hq : 0 <= m / 12 <= 1) by (Z.div_mod_to_equations; lia).
  pose proof (DayFromYear_bounds (y + m / 12) ltac:(lia)).
  assert (Hl : 0 <= (if DaysInYear (y + m / 12) =? 366 then 1 else 0) <= 1)
    by (destruct (DaysInYear (y + m / 12) =? 366); lia).
  pose proof (MonthStart_bounds (m mod 12) _ Hl). lia.
Qed.

Lemma new_Date_day (n : Z) :
  -100000000 <= n <= 100000000 -> new_Date (Int (n * msPerDay)) = day_date n.
Proof.
  intros H. unfold new_Date, TimeClip, day_date, msPerDay.
  destruct (Z.leb_spec (Z.abs (n * 86400000)) 8640000000000000);
    [reflexivity|lia].
Qed.

(** [new Date(Date.UTC(y, m, d))] is a valid date at midnight for every
    year the program can ask holidays for. *)
Lemma Date_UTC_valid (y m d : Z) :
  -200000 <= y <= 200000 -> 0 <= m <= 12 -> -40 <= d <= 40 ->
  exists n, new_Date (Date_UTC (Int y) (Int m) (Int d)) = day_date n
            /\ -80000000 <= n <= 80000000.
Proof.
  intros Hy Hm Hd. unfold Date_UTC.
  destruct ((0 <=? y) && (y <=? 99)) eqn:E.
  - apply andb_true_iff in E as [E1 E2]. apply Z.leb_le in E1, E2.
    destruct (MakeDay_bounds (1900 + y) m d ltac:(lia) Hm Hd) as (n & -> & Hn).
    exists n. split; [|exact Hn].
    cbn [MakeDate]. rewrite Z.add_0_r.
    unfold new_Date. rewrite <- (new_Date_day n) by lia.
    unfold new_Date. f_equal.
    unfold TimeClip at 2, msPerDay.
    destruct (Z.leb_spec (Z.abs (n * 86400000)) 8640000000000000);
      [reflexivity|lia].
  - destruct (MakeDay_bounds y m d ltac:(lia) Hm Hd) as (n & -> & Hn).
    exists n. split; [|exact Hn].
    cbn [MakeDate]. rewrite Z.add_0_r.
    unfold new_Date. rewrite <- (new_Date_day n) by lia.
    unfold new_Date. f_equal.
    unfold TimeClip at 2, msPerDay.
    destruct (Z.leb_spec (Z.abs (n * 86400000)) 8640000000000000);
      [reflexivity|lia].
Qed.

Lemma getUTCDay_day (n : Z) : getUTCDay (day_date n) = Ok (Int (weekday_of n)).
Proof.
  unfold day_date. cbn. unfold WeekDay. rewrite Day_mul. reflexivity.
Qed.

Lemma weekday_of_range (n : Z) : 0 <= weekday_of n <= 6.
Proof. unfold weekday_of. pose proof (Z.mod_pos_bound (n + 4) 7). lia. Qed.

Lemma observedFixed_total (y m d : Z) :
  -200000 <= y <= 200000 -> 0 <= m <= 11 -> 1 <= d <= 31 ->
  exists n, observedFixed y m d = Ok (day_date n).
Proof.
  intros Hy Hm Hd. unfold observedFixed.
  destruct (Date_UTC_valid y m d Hy ltac:(lia) ltac:(lia)) as (n & -> & _).
  rewrite getUTCDay_day. cbn [bind].
  destruct (num_eqb _ _).
  - destruct (Date_UTC_valid y m (d + 1) Hy ltac:(lia) ltac:(lia)) as (n1 & -> & _).
    eauto.
  - destruct (num_eqb _ _); [|eauto].
    destruct (Date_UTC_valid y m (d - 1) Hy ltac:(lia) ltac:(lia)) as (n1 & -> & _).
    eauto.
Qed.

Lemma nthWeekdayOfMonth_total (y m wd k : Z) :
  -200000 <= y <= 200000 -> 0 <= m <= 11 -> 0 <= wd <= 6 -> 1 <= k <= 5 ->
  exists n, nthWeekdayOfMonth y m wd k = Ok (day_date n).
Proof.
  intros Hy Hm Hwd Hk. unfold nthWeekdayOfMonth.
  destruct (Date_UTC_valid y m 1 Hy ltac:(lia) ltac:(lia)) as (n & -> & _).
  rewrite getUTCDay_day. cbn [bind num_sub num_opp num_add num_rem].
  change (7 =? 0) with false. cbv iota.
  pose proof (weekday_of_range n) as Hw.
  pose proof (Z.rem_bound_pos (7 + wd + - weekday_of n) 7 ltac:(lia) ltac:(lia)).
  unfold num_add.
  destruct (Date_UTC_valid y m
              (1 + Z.rem (7 + wd + - weekday_of n) 7 + 7 * (k - 1))
              Hy ltac:(lia) ltac:(lia)) as (n1 & -> & _).
  eauto.
Qed.

Lemma lastWeekdayOfMonth_total (y m wd : Z) :
  -200000 <= y <= 200000 -> 0 <= m <= 11 -> 0 <= wd <= 6 ->
  exists n, lastWeekdayOfMonth y m wd = Ok (day_date n).
Proof.
  intros Hy Hm Hwd. unfold lastWeekdayOfMonth.
  destruct (Date_UTC_valid y (m + 1) 1 Hy ltac:(lia) ltac:(lia)) as (n & -> & Hn).
  rewrite addDays_day by lia. cbn [bind].
  rewrite getUTCDay_day. cbn [bind num_sub num_opp num_add num_rem].
  change (7 =? 0) with false. cbv iota.
  pose proof (weekday_of_range (n + -1)) as Hw.
  pose proof (Z.rem_bound_pos (7 + weekday_of (n + -1) + - wd) 7
                ltac:(lia) ltac:(lia)).
  unfold num_opp. rewrite addDays_day by lia. eauto.
Qed.

Lemma ymd_total (t : Z) : exists k, ymd (Date (Int t)) = Ok k.
Proof. unfold Planner.ymd. cbn. eauto. Qed.

Lemma push_total (set : gset string) (holiday : result date) :
  (exists n, holiday = Ok (day_date n)) -> exists set', push set holiday = Ok set'.
Proof.
  intros (n & ->). unfold push. cbn [bind].
  destruct (ymd_total (n * msPerDay)) as (k & Hk).
  unfold day_date. rewrite Hk. cbn [bind]. eauto.
Qed.

Lemma federalHolidaySetForYear_total (y : Z) :
  -200000 <= y <= 200000 -> exists set, federalHolidaySetForYear y = Ok set.
Proof.
  intros Hy. unfold federalHolidaySetForYear.
  repeat match goal with
         | |- context [ push ?s (observedFixed y ?m ?d) ] =>
             destruct (push_total s _
                         (observedFixed_total y m d Hy ltac:(lia) ltac:(lia)))
               as (? & ->); cbn [bind]
         | |- context [ push ?s (nthWeekdayOfMonth y ?m ?w ?k) ] =>
             destruct (push_total s _
                         (nthWeekdayOfMonth_total y m w k Hy
                            ltac:(lia) ltac:(lia) ltac:(lia)))
               as (? & ->); cbn [bind]
         | |- context [ push ?s (lastWeekdayOfMonth y ?m ?w) ] =>
             destruct (push_total s _
                         (lastWeekdayOfMonth_total y m w Hy ltac:(lia) ltac:(lia)))
               as (? & ->); cbn [bind]
         end.
  eauto.
Qed.

Lemma holiday_loop_total (n : nat) :
  forall (y : Z) (set : gset string),
    -200000 <= y -> y + Z.of_nat n <= 200000 ->
    exists set', holiday_loop n y set = Ok set'.
Proof.
  induction n as [|n IH]; intros y set H1 H2; cbn [holiday_loop]; [eauto|].
  destruct (federalHolidaySetForYear_total y ltac:(lia)) as (ys & ->).
  cbn [bind]. apply IH; lia.
Qed.

Lemma holidaySetForRange_total (a b : Z) :
  -200000 <= a -> b < 200000 ->
  exists set, holidaySetForRange (Int a) (Int b) = Ok set.
Proof.
  intros Ha Hb. unfold holidaySetForRange.
  destruct (Z.le_gt_cases a b).
  - apply holiday_loop_total; lia.
  - replace (Z.to_nat (b - a + 1)) with O by lia. cbn. eauto.
Qed.

(** ** Business days *)

Lemma isBusinessDay_day (n : Z) (H : gset string) :
  supported_day n ->
  isBusinessDay (VDate (day_date n)) H = Ok (business H n).
Proof.
  intros Hs. unfold isBusinessDay.
  rewrite (clampDate_day_date _ Hs). cbn [bind].
  rewrite getUTCDay_day. cbn [bind num_eqb].
  unfold business, is_weekend.
  destruct ((weekday_of n =? 0) || (weekday_of n =? 6)); [reflexivity|].
  rewrite (ymd_day_date _ Hs). reflexivity.
Qed.

Lemma business_loop_count (H : gset string) (k : nat) :
  forall (fuel : nat) (d b acc : Z),
    supported_day b -> first_day <= d ->
    Z.of_nat k = b - d + 1 -> (k < fuel)%nat ->
    business_loop fuel (day_date d) (day_date b) H acc
    = Ok (acc + count_days (business H) d b).
Proof.
  induction k as [|k IH]; intros fuel d b acc Hb Hd Hk Hf;
    (destruct fuel as [|fuel]; [lia|]); cbn [business_loop];
    rewrite date_le_day.
  - destruct (Z.leb_spec d b); [lia|].
    rewrite count_days_empty by lia. f_equal; lia.
  - destruct (Z.leb_spec d b); [|lia].
    assert (Hsd : supported_day d) by (unfold supported_day in *; lia).
    rewrite (isBusinessDay_day _ _ Hsd). cbn [bind].
    pose proof (supported_bounds _ Hb). pose proof (supported_bounds _ Hsd).
    rewrite addDays_day by lia. cbn [bind].
    rewrite IH; try assumption; try lia.
    rewrite (count_days_step _ d b) by lia.
    destruct (business H d); f_equal; lia.
Qed.

Lemma businessDaysBetweenInclusive_denotes (a b : value) (na nb : Z)
    (H : gset string) :
  denotes a na -> denotes b nb ->
  businessDaysBetweenInclusive a b H = Ok (count_days (business H) na nb).
Proof.
  intros Ha Hb. unfold businessDaysBetweenInclusive.
  rewrite (clampDate_denotes _ _ Ha), (clampDate_denotes _ _ Hb). cbn [bind].
  rewrite date_lt_day.
  destruct (Z.ltb_spec nb na).
  - rewrite count_days_empty by lia. reflexivity.
  - rewrite loop_bound_day.
    rewrite (business_loop_count H (Z.to_nat (nb - na + 1))).
    + reflexivity.
    + apply Hb.
    + destruct Ha as [_ Ha]. unfold supported_day in Ha. lia.
    + lia.
    + lia.
Qed.

Lemma business_loop_enough_fuel (H : gset string) (k : nat) :
  forall (fuel : nat) (d to : date) (acc : Z),
    clipped to ->
    (date_le d to = true -> (Planner.loop_bound d to <= k)%nat) ->
    (k <= fuel)%nat ->
    business_loop fuel d to H acc = business_loop k d to H acc.
Proof.
  induction k as [|k IH]; intros fuel d to acc Hto Hb Hf.
  - destruct fuel as [|fuel]; [reflexivity|]. cbn [business_loop].
    destruct (date_le d to) eqn:E; [|reflexivity].
    pose proof (loop_bound_pos _ _ E). specialize (Hb eq_refl). lia.
  - destruct fuel as [|fuel]; [lia|]. cbn [business_loop].
    destruct (date_le d to) eqn:E; [|reflexivity].
    destruct (isBusinessDay (VDate d) H) as [wd|]; cbn [bind]; [|reflexivity].
    destruct (Planner.addDays d (Int 1)) as [d'|] eqn:Ea; cbn [bind];
      [|reflexivity].
    apply IH; [exact Hto| |lia].
    intros E'. pose proof (loop_bound_step _ _ _ Hto E Ea E').
    specialize (Hb eq_refl). lia.
Qed.

(** More fuel than [loop_bound] gives does not change the result of
    [businessDaysBetweenInclusive]. *)
Lemma businessDaysBetweenInclusive_fuel (H : gset string)
    (fromDate toDate : value) (from to : date) (extra : nat) :
  Planner.clampDate fromDate = Ok from -> Planner.clampDate toDate = Ok to ->
  business_loop (Planner.loop_bound from to + extra) from to H 0
  = business_loop (Planner.loop_bound from to) from to H 0.
Proof.
  intros _ Hto. apply business_loop_enough_fuel.
  - apply (clampDate_clipped _ _ Hto).
  - intros _. lia.
  - lia.
Qed.

(** ** Leave hours *)

Lemma entry_loop_denotes (H : gset string) (nt : Z)
    (es : list PtoEntry) (ds : list Z) :
  entries_denote es ds ->
  forall hours,
    entry_loop (day_date nt) H es hours = Ok (entries_total H nt es ds hours).
Proof.
  intros Hes. induction Hes as [|e d es ds He _ IH]; intros hours;
    [reflexivity|].
  cbn [entry_loop entries_total]. rewrite (proj1 He). cbn [bind].
  rewrite date_le_day. destruct (d <=? nt); cbn [andb]; [|apply IH].
  rewrite (isBusinessDay_day _ _ (proj2 He)). cbn [bind].
  destruct (business H d); apply IH.
Qed.

Lemma range_loop_denotes (H : gset string) (nt : Z)
    (rs : list PtoRange) (spans : list (Z * Z)) :
  ranges_denote rs spans -> supported_day nt ->
  forall hours,
    range_loop (day_date nt) H rs hours = Ok (range_hours H nt spans hours).
Proof.
  intros Hrs Hnt. induction Hrs as [|r s rs spans [Hfrom Hto] _ IH]; intros hours;
    [reflexivity|].
  cbn [range_loop]. rewrite (proj1 Hfrom), (proj1 Hto). cbn [bind].
  rewrite date_gt_day, date_le_day.
  unfold range_hours. cbn [List.filter].
  destruct (Z.ltb_spec nt (fst s)) as [Hlt|Hge].
  - destruct (Z.leb_spec (fst s) nt); [lia|]. apply IH.
  - destruct (Z.leb_spec (fst s) nt); [|lia].
    assert (Hcap : (if snd s <=? nt then day_date (snd s) else day_date nt)
                   = day_date (Z.min (snd s) nt)).
    { destruct (Z.leb_spec (snd s) nt); f_equal; lia. }
    rewrite Hcap.
    rewrite (businessDaysBetweenInclusive_denotes _ _ (fst s) (Z.min (snd s) nt)).
    + cbn [bind fold_left]. apply IH.
    + apply denotes_day_date, Hfrom.
    + apply denotes_day_date, supported_min; [apply Hto|exact Hnt].
Qed.

Lemma getUTCFullYear_day (n : Z) :
  getUTCFullYear (day_date n) = Ok (Int (YearFromDay n)).
Proof.
  unfold day_date. cbn. unfold YearFromTime. rewrite Day_mul. reflexivity.
Qed.

Lemma totalPtoHoursUpTo_denotes (st : State) (target : value) (nt n0 : Z)
    (ds : list Z) (spans : list (Z * Z)) :
  denotes target nt -> denotes (startDate st) n0 ->
  entries_denote (pto st) ds -> ranges_denote (ptoRanges st) spans ->
  exists H,
    holidaySetForRange
      (Int (Z.min (YearFromDay n0) (YearFromDay nt) - 1))
      (Int (Z.max (YearFromDay n0) (YearFromDay nt) + 1)) = Ok H
    /\ totalPtoHoursUpTo st target
       = Ok (range_hours H nt spans (entries_total H nt (pto st) ds 0%float)).
Proof.
  intros Ht H0 Hes Hrs.
  pose proof (supported_year _ (proj2 Ht)) as Hy1.
  pose proof (supported_year _ (proj2 H0)) as Hy0.
  destruct (holidaySetForRange_total
              (Z.min (YearFromDay n0) (YearFromDay nt) - 1)
              (Z.max (YearFromDay n0) (YearFromDay nt) + 1)
              ltac:(lia) ltac:(lia)) as (H & HH).
  exists H. split; [exact HH|].
  unfold totalPtoHoursUpTo. rewrite (proj1 Ht), (proj1 H0). cbn [bind].
  rewrite !getUTCFullYear_day. cbn [bind].
  assert (Hmin : num_sub (num_min (Int (YearFromDay n0)) (Int (YearFromDay nt))) (Int 1)
                 = Int (Z.min (YearFromDay n0) (YearFromDay nt) - 1)).
  { cbn. destruct (Z.ltb_spec (YearFromDay nt) (YearFromDay n0)); cbn; f_equal; lia. }
  assert (Hmax : num_add (num_max (Int (YearFromDay n0)) (Int (YearFromDay nt))) (Int 1)
                 = Int (Z.max (YearFromDay n0) (YearFromDay nt) + 1)).
  { cbn. destruct (Z.ltb_spec (YearFromDay n0) (YearFromDay nt)); cbn; f_equal; lia. }
  rewrite Hmin, Hmax, HH. cbn [bind].
  rewrite (entry_loop_denotes _ _ _ _ Hes). cbn [bind].
  apply (range_loop_denotes _ _ _ _ Hrs (proj2 Ht)).
Qed.

(** ** Balance and forecast series *)

Lemma credit_loop_total (target : date) (cs : list Credit) :
  forall hours, exists c, credit_loop target cs hours = Ok c.
Proof.
  induction cs as [|c cs IH]; intros hours; cbn [credit_loop]; [eauto|].
  destruct (toDateOnlyUTC_total (credit_date c)) as (d & ->). cbn [bind].
  destruct (date_le d target); apply IH.
Qed.

Lemma holiday_getBalanceOn_total (st : State) (target : value) (nt : Z) :
  well_formed st -> denotes target nt ->
  exists b, getBalanceOn st target = Ok b.
Proof.
  intros [(n0 & H0) (nf & Hf) (ds & Hes) (spans & Hrs)] Ht.
  destruct (totalPtoHoursUpTo_denotes st target nt n0 ds spans Ht H0 Hes Hrs)
    as (H & _ & Hp).
  unfold getBalanceOn, totalCreditsUpTo.
  rewrite (proj1 Ht), (proj1 Hf). cbn [bind].
  rewrite date_ge_day.
  rewrite (countPaydays_denotes _ _ nf nt _
             (denotes_day_date _ (proj2 Hf)) (denotes_day_date _ (proj2 Ht))).
  destruct (credit_loop_total (day_date nt) (credits st) 0%float) as (c & Hc).
  destruct (nf <=? nt); cbn [bind]; rewrite Hp; cbn [bind]; rewrite Hc;
    cbn [bind]; eauto.
Qed.

Lemma holiday_getBalanceOn_ext (st : State) (v v' : value) :
  Planner.toDateOnlyUTC v = Planner.toDateOnlyUTC v' ->
  getBalanceOn st v = getBalanceOn st v'.
Proof.
  intros H. unfold getBalanceOn, totalPtoHoursUpTo, totalCreditsUpTo.
  rewrite H. reflexivity.
Qed.

Lemma holiday_series_loop_spec (st : State) (t : Z) :
  well_formed st ->
  forall (n : nat) (i : Z) (series : list Point),
    (forall j, i <= j < i + Z.of_nat n -> supported_day (Day t + j)) ->
    exists l,
      series_loop n st (Date (Int t)) i series = Ok (series ++ l)
      /\ List.length l = n
      /\ forall k, (k < n)%nat ->
           exists pt, nth_error l k = Some pt
                      /\ HolidaySpec.point_ok st t (i + Z.of_nat k) pt.
Proof.
  intros Hwf. induction n as [|n IH]; intros i series Hsup.
  - exists []. cbn. rewrite app_nil_r. repeat split. intros k Hk. lia.
  - cbn [series_loop].
    assert (Hi : supported_day (Day t + i)) by (apply Hsup; lia).
    assert (Hi' : supported_day (Day (t + i * msPerDay)))
      by (rewrite Day_add; exact Hi).
    rewrite (addDays_time _ _ Hi). cbn [bind].
    rewrite (ymd_supported _ Hi'). cbn [bind].
    destruct (holiday_getBalanceOn_total st _ _ Hwf (denotes_iso _ Hi')) as (b & Hb).
    rewrite Hb. cbn [bind].
    destruct (IH (i + 1) (series ++ [mkPoint (Date (Int (t + i * msPerDay))) b]))
      as (l & Hl & Hlen & Hnth).
    { intros j Hj. apply Hsup. lia. }
    exists (mkPoint (Date (Int (t + i * msPerDay))) b :: l). repeat split.
    + rewrite Hl, <- app_assoc. reflexivity.
    + cbn. rewrite Hlen. reflexivity.
    + intros [|k] Hk.
      * eexists. split; [reflexivity|].
        rewrite Z.add_0_r. unfold HolidaySpec.point_ok. cbn [point_date point_y].
        repeat split.
        -- apply addDays_time, Hi.
        -- apply ymd_supported, Hi'.
        -- exact Hb.
        -- rewrite <- Hb. apply holiday_getBalanceOn_ext.
           rewrite toDateOnlyUTC_Date, toDateOnlyUTC_iso by exact Hi'.
           reflexivity.
      * destruct (Hnth k ltac:(lia)) as (pt & Hpt & Hok).
        exists pt. split; [exact Hpt|].
        replace (i + Z.of_nat (S k)) with (i + 1 + Z.of_nat k) by lia.
        exact Hok.
Qed.

Lemma generateForecastSeries_denotes (st : State) (t days : Z) :
  0 <= days ->
  supported_day (Day t) -> supported_day (Day t + days) ->
  well_formed st ->
  exists series,
    generateForecastSeries st (Date (Int t)) days = Ok series
    /\ Z.of_nat (List.length series) = days + 1
    /\ forall i, 0 <= i <= days ->
         exists pt, nth_error series (Z.to_nat i) = Some pt
                    /\ HolidaySpec.point_ok st t i pt.
Proof.
  intros Hd Ht Hte Hwf. unfold generateForecastSeries.
  destruct (holiday_series_loop_spec st t Hwf (Z.to_nat (days + 1)) 0 [])
    as (l & Hl & Hlen & Hnth).
  { intros j Hj. unfold supported_day in *. lia. }
  exists l. repeat split.
  - exact Hl.
  - lia.
  - intros i Hi. destruct (Hnth (Z.to_nat i) ltac:(lia)) as (pt & Hpt & Hok).
    exists pt. split; [exact Hpt|].
    rewrite Z2Nat.id in Hok by lia. exact Hok.
Qed.

(** ** Claims that span both revisions *)

(** C2: the leave hours deducted up to the target date are, summed over
    the ranges that start on or before it, 8 times the number of business
    days from the start of the range to its end or to the target date,
    whichever comes first; a range in progress counts up to and including
    the target date only.  In the first revision business days are the
    weekdays and the balance subtracts this total; in the second they also
    exclude the holiday set of the years around the start and target
    dates, and the total is added to the hours of the single-day
    entries. *)
Theorem leave_hours_capped :
  (forall (st : Planner.State) (target : value) (nt : Z) (spans : list (Z * Z)),
      denotes target nt -> Spec.ranges_denote (Planner.ptoRanges st) spans ->
      Planner.ptoHoursUpTo st target = Ok (leave_hours weekday spans nt)
      /\ forall nf, denotes (Planner.firstPayday st) nf ->
           exists before credit,
             Planner.getBalanceOn st target
             = Ok (before - float_of_Z (leave_hours weekday spans nt) + credit)%float)
  /\ (forall (st : State) (target : value) (nt n0 : Z) (ds : list Z)
             (spans : list (Z * Z)),
         denotes target nt -> denotes (startDate st) n0 ->
         entries_denote (pto st) ds ->
         HolidaySpec.ranges_denote (ptoRanges st) spans ->
         exists H,
           holidaySetForRange
             (Int (Z.min (YearFromDay n0) (YearFromDay nt) - 1))
             (Int (Z.max (YearFromDay n0) (YearFromDay nt) + 1)) = Ok H
           /\ totalPtoHoursUpTo st target
              = Ok (range_hours H nt spans (entries_total H nt (pto st) ds 0%float)))
  /\ (forall (P : Z -> bool) (a b nt : Z),
         a <= nt < b -> leave_hours P [(a, b)] nt = count_days P a nt * 8)
  /\ (forall (P : Z -> bool) (a b nt : Z),
         a <= b <= nt -> leave_hours P [(a, b)] nt = count_days P a b * 8)
  /\ (forall (P : Z -> bool) (a b nt : Z),
         nt < a -> leave_hours P [(a, b)] nt = 0).
Proof.
  split; [|split; [|split; [|split]]].
  - intros st target nt spans Ht Hrs. split.
    + apply ptoHoursUpTo_denotes; assumption.
    + intros nf Hf.
      destruct (getBalanceOn_denotes st target nt nf spans Ht Hf Hrs)
        as (periods & leave & credit & _ & Hl & _ & Hb).
      rewrite (ptoHoursUpTo_denotes _ _ _ _ Ht Hrs) in Hl.
      injection Hl as <-. eauto.
  - apply totalPtoHoursUpTo_denotes.
  - intros P a b nt Hab. rewrite leave_hours_cons. cbn [fst snd].
    destruct (Z.leb_spec a nt); [|lia].
    replace (Z.min b nt) with nt by lia. unfold leave_hours. cbn. lia.
  - intros P a b nt Hab. rewrite leave_hours_cons. cbn [fst snd].
    destruct (Z.leb_spec a nt); [|lia].
    replace (Z.min b nt) with b by lia. unfold leave_hours. cbn. lia.
  - intros P a b nt Hab. rewrite leave_hours_cons. cbn [fst snd].
    destruct (Z.leb_spec a nt); [lia|]. reflexivity.
Qed.

Lemma leave_hours_capped_witness :
  denotes (VStr "2026-01-07") 20460
  /\ Spec.ranges_denote (Planner.ptoRanges scenario_D) [(20458, 20462)]
  /\ Planner.ptoHoursUpTo scenario_D (VStr "2026-01-07") = Ok 24
  /\ 20458 <= 20460 < 20462
  /\ leave_hours weekday [(20458, 20462)] 20460 = count_days weekday 20458 20460 * 8.
Proof.
  assert (H1 : denotes (VStr "2026-01-07") 20460) by denotes_by_eval.
  assert (H2 : Spec.ranges_denote (Planner.ptoRanges scenario_D) [(20458, 20462)])
    by (constructor; [split; denotes_by_eval | constructor]).
  assert (H3 : 20458 <= 20460 < 20462) by lia.
  destruct leave_hours_capped as (Hfirst & _ & Hprogress & _).
  split; [exact H1|]. split; [exact H2|]. split; [|split; [exact H3|]].
  - exact (proj1 (Hfirst scenario_D (VStr "2026-01-07") 20460 [(20458, 20462)] H1 H2)).
  - exact (Hprogress weekday 20458 20462 20460 H3).
Defined.

(** C5: on an inverted range the weekday and business-day counts are 0,
    not an exception, and a leave range that ends before it starts adds
    nothing to the leave hours nor to the balance, wherever it stands in
    the ledger. *)
Theorem inverted_range_counts_zero :
  (forall (a b : value) (na nb : Z),
      denotes a na -> denotes b nb -> nb < na ->
      Planner.weekdaysBetweenInclusive a b = Ok 0)
  /\ (forall (a b : value) (na nb : Z) (H : gset string),
         denotes a na -> denotes b nb -> nb < na ->
         businessDaysBetweenInclusive a b H = Ok 0)
  /\ (forall (st : Planner.State) (r : Planner.PtoRange)
             (rs1 rs2 : list Planner.PtoRange) (sp1 sp2 : list (Z * Z))
             (a b nt : Z) (target : value),
         Planner.ptoRanges st = rs1 ++ r :: rs2 ->
         Spec.ranges_denote rs1 sp1 -> Spec.ranges_denote rs2 sp2 ->
         denotes (Planner.pto_from r) a -> denotes (Planner.pto_to r) b ->
         b < a ->
         denotes target nt ->
         Planner.ptoHoursUpTo st target
         = Ok (leave_hours weekday (sp1 ++ sp2) nt)
         /\ Planner.ptoHoursUpTo st target
            = Planner.ptoHoursUpTo (set_ptoRanges st (rs1 ++ rs2)) target
         /\ Planner.getBalanceOn st target
            = Planner.getBalanceOn (set_ptoRanges st (rs1 ++ rs2)) target).
Proof.
  split; [|split].
  - intros a b na nb Ha Hb Hlt.
    rewrite (weekdaysBetweenInclusive_denotes _ _ _ _ Ha Hb).
    unfold weekdays_in. rewrite count_days_empty by lia. reflexivity.
  - intros a b na nb H Ha Hb Hlt.
    rewrite (businessDaysBetweenInclusive_denotes _ _ _ _ _ Ha Hb).
    rewrite count_days_empty by lia. reflexivity.
  - intros st r rs1 rs2 sp1 sp2 a b nt target Hst H1 H2 Ha Hb Hlt Ht.
    assert (Hall : Spec.ranges_denote (Planner.ptoRanges st)
                     (sp1 ++ (a, b) :: sp2)).
    { rewrite Hst. apply Forall2_app; [exact H1|].
      constructor; [split; assumption|exact H2]. }
    assert (Hrest : Spec.ranges_denote
                      (Planner.ptoRanges (set_ptoRanges st (rs1 ++ rs2)))
                      (sp1 ++ sp2)).
    { cbn. apply Forall2_app; assumption. }
    assert (Hsame : leave_hours weekday (sp1 ++ (a, b) :: sp2) nt
                    = leave_hours weekday (sp1 ++ sp2) nt).
    { rewrite !leave_hours_app.
      change ((a, b) :: sp2) with ([(a, b)] ++ sp2).
      rewrite leave_hours_app, leave_hours_inverted by lia. lia. }
    assert (E1 : Planner.ptoHoursUpTo st target
                 = Ok (leave_hours weekday (sp1 ++ sp2) nt)).
    { rewrite (ptoHoursUpTo_denotes _ _ _ _ Ht Hall), Hsame. reflexivity. }
    assert (E2 : Planner.ptoHoursUpTo (set_ptoRanges st (rs1 ++ rs2)) target
                 = Ok (leave_hours weekday (sp1 ++ sp2) nt)).
    { apply (ptoHoursUpTo_denotes _ _ _ _ Ht Hrest). }
    split; [exact E1|]. split; [congruence|].
    unfold Planner.getBalanceOn. rewrite E1, E2. reflexivity.
Qed.

Lemma inverted_range_counts_zero_witness :
  denotes (VStr "2026-01-09") 20462
  /\ denotes (VStr "2026-01-05") 20458
  /\ 20458 < 20462
  /\ Planner.weekdaysBetweenInclusive (VStr "2026-01-09") (VStr "2026-01-05") = Ok 0
  /\ businessDaysBetweenInclusive (VStr "2026-01-09") (VStr "2026-01-05") ∅ = Ok 0
  /\ Planner.getBalanceOn (set_ptoRanges Planner.DEFAULTS [inverted_range])
       (VStr "2026-01-22")
     = Planner.getBalanceOn (set_ptoRanges Planner.DEFAULTS []) (VStr "2026-01-22").
Proof.
  assert (H1 : denotes (VStr "2026-01-09") 20462) by denotes_by_eval.
  assert (H2 : denotes (VStr "2026-01-05") 20458) by denotes_by_eval.
  assert (H3 : 20458 < 20462) by lia.
  assert (H4 : denotes (VStr "2026-01-22") 20475) by denotes_by_eval.
  assert (Hn : Spec.ranges_denote [] []) by constructor.
  destruct inverted_range_counts_zero as (Hw & Hb & Hl).
  split; [exact H1|]. split; [exact H2|]. split; [exact H3|].
  split; [exact (Hw _ _ _ _ H1 H2 H3)|].
  split; [exact (Hb _ _ _ _ ∅ H1 H2 H3)|].
  exact (proj2 (proj2 (Hl (set_ptoRanges Planner.DEFAULTS [inverted_range])
                         inverted_range [] [] [] [] 20462 20458 20475
                         (VStr "2026-01-22") eq_refl Hn Hn H1 H2 H3 H4))).
Defined.

(** C7: the forecast series from a start date over [days >= 0] days has
    [days + 1] entries; entry [i] carries the date [i] days after the
    start, every calendar day being present, and the balance that
    [getBalanceOn] gives for that date.  This holds for [forecastSeries]
    of the first revision and [generateForecastSeries] of the second. *)
Theorem forecast_series_dense :
  (forall (st : Planner.State) (t days nf : Z) (spans : list (Z * Z)),
      0 <= days ->
      supported_day (Day t) -> supported_day (Day t + days) ->
      denotes (Planner.firstPayday st) nf ->
      Spec.ranges_denote (Planner.ptoRanges st) spans ->
      exists series,
        Planner.forecastSeries st (Date (Int t)) days = Ok series
        /\ Z.of_nat (List.length series) = days + 1
        /\ forall i, 0 <= i <= days ->
             exists pt, nth_error series (Z.to_nat i) = Some pt
                        /\ Spec.point_ok st t i pt)
  /\ (forall (st : State) (t days : Z),
         0 <= days ->
         supported_day (Day t) -> supported_day (Day t + days) ->
         well_formed st ->
         exists series,
           generateForecastSeries st (Date (Int t)) days = Ok series
           /\ Z.of_nat (List.length series) = days + 1
           /\ forall i, 0 <= i <= days ->
                exists pt, nth_error series (Z.to_nat i) = Some pt
                           /\ HolidaySpec.point_ok st t i pt).
Proof.
  split.
  - apply forecastSeries_denotes.
  - apply generateForecastSeries_denotes.
Qed.

Lemma holiday_defaults_well_formed : well_formed DEFAULTS.
Proof.
  constructor.
  - exists 20454. denotes_by_eval.
  - exists 20461. denotes_by_eval.
  - exists []. constructor.
  - exists []. constructor.
Defined.

Lemma forecast_series_dense_witness :
  0 <= 3
  /\ supported_day (Day 1767225600000)
  /\ supported_day (Day 1767225600000 + 3)
  /\ denotes (Planner.firstPayday Planner.DEFAULTS) 20461
  /\ Spec.ranges_denote (Planner.ptoRanges Planner.DEFAULTS) []
  /\ well_formed DEFAULTS
  /\ (exists series,
        Planner.forecastSeries Planner.DEFAULTS (Date (Int 1767225600000)) 3
        = Ok series
        /\ Z.of_nat (List.length series) = 3 + 1)
  /\ (exists series,
        generateForecastSeries DEFAULTS (Date (Int 1767225600000)) 3 = Ok series
        /\ Z.of_nat (List.length series) = 3 + 1).
Proof.
  assert (H1 : 0 <= 3) by lia.
  assert (H2 : supported_day (Day 1767225600000))
    by (apply supported_iff; vm_compute; split; discriminate).
  assert (H3 : supported_day (Day 1767225600000 + 3))
    by (apply supported_iff; vm_compute; split; discriminate).
  assert (H4 : denotes (Planner.firstPayday Planner.DEFAULTS) 20461)
    by denotes_by_eval.
  assert (H5 : Spec.ranges_denote (Planner.ptoRanges Planner.DEFAULTS) [])
    by constructor.
  destruct (proj1 forecast_series_dense Planner.DEFAULTS 1767225600000 3 20461 []
              H1 H2 H3 H4 H5) as (s1 & Hs1 & Hl1 & _).
  destruct (proj2 forecast_series_dense DEFAULTS 1767225600000 3
              H1 H2 H3 holiday_defaults_well_formed) as (s2 & Hs2 & Hl2 & _).
  split; [exact H1|]. split; [exact H2|]. split; [exact H3|].
  split; [exact H4|]. split; [exact H5|].
  split; [exact holiday_defaults_well_formed|].
  split; [exists s1|exists s2]; split; assumption.
Defined.

End HolidayPlannerFacts.

(* ================================================================== *)
(** * Further properties of the first revision                         *)
(* ================================================================== *)

Module PlannerLaws.
Import JS Planner Spec JSFacts PlannerFacts.

(** *** Malformed dates *)

Lemma ymd_Int (t : Z) : exists s, ymd (Date (Int t)) = Ok s.
Proof. unfold ymd, toISOString. cbn [bind]. eauto. Qed.

Lemma clampDate_cases (v : value) :
  (toDateOnlyUTC v = Ok Null /\ clampDate v = Throw TypeError)
  \/ (toDateOnlyUTC v = Ok (Date NaN) /\ clampDate v = Throw RangeError)
  \/ (exists t d, toDateOnlyUTC v = Ok (Date (Int t)) /\ clampDate v = Ok d).
Proof.
  destruct (toDateOnlyUTC_total v) as (d & Hd).
  pose proof (toDateOnlyUTC_clipped _ _ Hd) as Hc.
  unfold clampDate. rewrite Hd. cbn [bind].
  destruct d as [|[| |t]].
  - left. split; reflexivity.
  - right; left. split; reflexivity.
  - destruct Hc.
  - right; right. destruct (ymd_Int t) as (s & ->). cbn [bind].
    destruct (toDateOnlyUTC_total (VStr s)) as (d & ->). eauto.
Qed.

Lemma unparseable_NaN (s : string) :
  s <> EmptyString -> unparseable s = true ->
  toDateOnlyUTC (VStr s) = Ok (Date NaN).
Proof.
  intros Hs Hu. rewrite (toDateOnlyUTC_str s Hs). cbv zeta. unfold new_Date.
  rewrite Date_UTC_NaN; [reflexivity|].
  unfold unparseable in Hu.
  apply orb_true_iff in Hu as [Hu|Hu]; [apply orb_true_iff in Hu as [Hu|Hu]|].
  - left. apply integral_NaN, Hu.
  - right; left. apply integral_pred_NaN, Hu.
  - right; right. apply integral_NaN, Hu.
Qed.

(** X1.  [clampDate] throws exactly on the values that [toDateOnlyUTC]
    turns into [null] (a TypeError) or into an Invalid Date (a RangeError):
    on a missing, [null] or empty input, and on an unparseable string. *)
Theorem clampDate_rejects_malformed :
  clampDate VUndefined = Throw TypeError
  /\ clampDate (VDate Null) = Throw TypeError
  /\ clampDate (VStr EmptyString) = Throw TypeError
  /\ (forall s, s <> EmptyString -> unparseable s = true ->
        clampDate (VStr s) = Throw RangeError)
  /\ (forall v e,
        clampDate v = Throw e
        <-> (e = TypeError /\ toDateOnlyUTC v = Ok Null)
            \/ (e = RangeError /\ toDateOnlyUTC v = Ok (Date NaN))).
Proof.
  split; [reflexivity|]. split; [reflexivity|]. split; [reflexivity|]. split.
  - intros s Hs Hu. pose proof (unparseable_NaN s Hs Hu) as Hn.
    destruct (clampDate_cases (VStr s)) as [[H1 _]|[[_ H2]|(t & d & H3 & _)]];
      [congruence|exact H2|congruence].
  - intros v e.
    destruct (clampDate_cases v) as [[H1 H2]|[[H1 H2]|(t & d & H1 & H2)]];
      rewrite H1, H2; split.
    + intros [= <-]. left. split; reflexivity.
    + intros [[-> _]|[_ [=]]]. reflexivity.
    + intros [= <-]. right. split; reflexivity.
    + intros [[_ [=]]|[-> _]]. reflexivity.
    + intros [=].
    + intros [[_ [=]]|[_ [=]]].
Qed.

Lemma clampDate_rejects_malformed_witness :
  ("next friday" : string) <> EmptyString
  /\ unparseable "next friday" = true
  /\ clampDate (VStr "next friday") = Throw RangeError.
Proof.
  assert (H1 : ("next friday" : string) <> EmptyString) by discriminate.
  assert (H2 : unparseable "next friday" = true) by (vm_compute; reflexivity).
  split; [exact H1|]. split; [exact H2|].
  exact (proj1 (proj2 (proj2 (proj2 clampDate_rejects_malformed)))
           "next friday" H1 H2).
Defined.

(** *** Balance on an unparseable date *)

Lemma date_NaN_le (d : date) : date_le d (Date NaN) = false.
Proof. destruct d as [|[| |]]; reflexivity. Qed.

Lemma date_NaN_gt (d : date) : date_gt d (Date NaN) = false.
Proof. destruct d as [|[| |]]; reflexivity. Qed.

Lemma date_NaN_ge (d : date) : date_ge (Date NaN) d = false.
Proof. destruct d as [|[|[|]|]]; reflexivity. Qed.

Lemma credit_loop_NaN (cs : list Credit) (h : float) :
  credit_loop (Date NaN) cs h = Ok h.
Proof.
  induction cs as [|c cs IH]; [reflexivity|]. cbn [credit_loop].
  destruct (toDateOnlyUTC_total (credit_date c)) as (d & ->). cbn [bind].
  rewrite date_NaN_le. exact IH.
Qed.

Lemma clampDate_Invalid : clampDate (VDate (Date NaN)) = Throw RangeError.
Proof. reflexivity. Qed.

Lemma pto_loop_NaN (r : PtoRange) (rs : list PtoRange) (h : Z) :
  exists e, pto_loop (Date NaN) (r :: rs) h = Throw e.
Proof.
  cbn [pto_loop].
  destruct (toDateOnlyUTC_total (pto_from r)) as (f & ->).
  destruct (toDateOnlyUTC_total (pto_to r)) as (t & ->). cbn [bind].
  rewrite date_NaN_gt, date_NaN_le.
  unfold weekdaysBetweenInclusive.
  destruct (clampDate (VDate f)) as [cf|e]; cbn [bind]; [|eauto].
  rewrite clampDate_Invalid. cbn [bind]. eauto.
Qed.

(** X2.  A target date that is an unparseable string: with an empty leave
    ledger [getBalanceOn] answers, silently, with the start balance (no
    accrual and no credit is counted); with any leave range in the ledger
    it throws. *)
Theorem getBalanceOn_unparseable_target (st : State) (target : value) :
  toDateOnlyUTC target = Ok (Date NaN) ->
  (ptoRanges st = [] ->
   getBalanceOn st target = Ok (base st - float_of_Z 0 + 0)%float)
  /\ (ptoRanges st <> [] -> exists e, getBalanceOn st target = Throw e).
Proof.
  intros Ht. unfold getBalanceOn, ptoHoursUpTo, creditHoursUpTo.
  rewrite Ht. cbn [bind].
  destruct (toDateOnlyUTC_total (firstPayday st)) as (first & ->). cbn [bind].
  rewrite date_NaN_ge. cbn [bind]. split.
  - intros ->. cbn [pto_loop bind]. rewrite credit_loop_NaN. reflexivity.
  - intros Hne. destruct (ptoRanges st) as [|r rs]; [congruence|].
    destruct (pto_loop_NaN r rs 0) as (e & ->). cbn [bind]. eauto.
Qed.

Lemma getBalanceOn_unparseable_target_witness :
  toDateOnlyUTC (VStr "soon") = Ok (Date NaN)
  /\ ptoRanges DEFAULTS = []
  /\ getBalanceOn DEFAULTS (VStr "soon") = Ok (base DEFAULTS - float_of_Z 0 + 0)%float
  /\ ptoRanges scenario_D <> []
  /\ exists e, getBalanceOn scenario_D (VStr "soon") = Throw e.
Proof.
  assert (H : toDateOnlyUTC (VStr "soon") = Ok (Date NaN)) by (vm_compute; reflexivity).
  assert (H2 : ptoRanges scenario_D <> []) by discriminate.
  split; [exact H|]. split; [reflexivity|].
  split; [exact (proj1 (getBalanceOn_unparseable_target DEFAULTS _ H) eq_refl)|].
  split; [exact H2|].
  exact (proj2 (getBalanceOn_unparseable_target scenario_D _ H) H2).
Defined.

(** *** Whole days *)

Lemma supported_1e8 (n : Z) : supported_day n -> -100000000 <= n <= 100000000.
Proof. intros H. apply supported_bounds in H. lia. Qed.

(** X3.  [daysBetween] counts calendar days: the time of day of a Date
    object plays no part, swapping the arguments changes the sign, and
    [addDays] by [k] days moves a date [k] days away. *)
Theorem daysBetween_calendar_days :
  (forall t1 t2,
      supported_day (Day t1) -> supported_day (Day t2) ->
      daysBetween (VDate (Date (Int t1))) (VDate (Date (Int t2)))
      = Ok (Int (Day t2 - Day t1)))
  /\ (forall a b k,
         (exists na, denotes a na) -> (exists nb, denotes b nb) ->
         daysBetween a b = Ok (Int k) -> daysBetween b a = Ok (Int (- k)))
  /\ (forall a na k,
         denotes a na -> supported_day (na + k) ->
         exists d d',
           clampDate a = Ok d /\ addDays d (Int k) = Ok d'
           /\ daysBetween a (VDate d') = Ok (Int k)).
Proof.
  split; [|split].
  - intros t1 t2 H1 H2.
    apply daysBetween_denotes; apply denotes_Date; assumption.
  - intros a b k (na & Ha) (nb & Hb) Hk.
    rewrite (daysBetween_denotes _ _ _ _ Ha Hb) in Hk. injection Hk as <-.
    rewrite (daysBetween_denotes _ _ _ _ Hb Ha). do 2 f_equal. lia.
  - intros a na k Ha Hk.
    exists (day_date na), (day_date (na + k)).
    split; [apply clampDate_denotes, Ha|].
    split; [apply addDays_day, supported_1e8, Hk|].
    rewrite (daysBetween_denotes _ _ na (na + k) Ha (denotes_day_date _ Hk)).
    do 2 f_equal. lia.
Qed.

Lemma daysBetween_calendar_days_witness :
  supported_day (Day 1767225600000)
  /\ supported_day (Day 1767916799999)
  /\ daysBetween (VDate (Date (Int 1767225600000)))
       (VDate (Date (Int 1767916799999))) = Ok (Int 7)
  /\ denotes (VStr "2026-01-01") 20454
  /\ supported_day (20454 + 30)
  /\ exists d d',
       clampDate (VStr "2026-01-01") = Ok d /\ addDays d (Int 30) = Ok d'
       /\ daysBetween (VStr "2026-01-01") (VDate d') = Ok (Int 30).
Proof.
  assert (H1 : supported_day (Day 1767225600000))
    by (apply supported_iff; vm_compute; split; discriminate).
  assert (H2 : supported_day (Day 1767916799999))
    by (apply supported_iff; vm_compute; split; discriminate).
  assert (H3 : denotes (VStr "2026-01-01") 20454) by denotes_by_eval.
  assert (H4 : supported_day (20454 + 30)) by (apply supported_iff; lia).
  split; [exact H1|]. split; [exact H2|].
  split; [exact (proj1 daysBetween_calendar_days _ _ H1 H2)|].
  split; [exact H3|]. split; [exact H4|].
  exact (proj2 (proj2 daysBetween_calendar_days) _ _ _ H3 H4).
Defined.

(** *** Pay schedules *)

(** X4.  For a positive period, [nextPaydayOnOrAfter] returns the earliest
    day of the schedule [first, first + p, first + 2p, ...] that is not
    before [d]: the first payday itself when [d] is not after it.  Asked
    again from its own answer, it returns that answer. *)
Theorem nextPaydayOnOrAfter_earliest (d first : value) (nd nf p : Z) :
  denotes d nd -> denotes first nf -> 0 < p ->
  exists s,
    0 <= s
    /\ nd <= nf + s * p
    /\ (forall k, 0 <= k -> nd <= nf + k * p -> s <= k)
    /\ (nd <= nf -> s = 0)
    /\ nextPaydayOnOrAfter d first (Int p)
       = Ok (new_Date (Int ((nf + s * p) * msPerDay)))
    /\ (supported_day (nf + s * p) ->
        nextPaydayOnOrAfter d first (Int p) = Ok (day_date (nf + s * p))
        /\ nextPaydayOnOrAfter (VDate (day_date (nf + s * p))) first (Int p)
           = Ok (day_date (nf + s * p))).
Proof.
  intros Hd Hf Hp.
  destruct (next_payday_spec nd nf p Hp) as (s & Hs & Heq & Hge & Hmin).
  exists s. split; [exact Hs|]. split; [lia|]. split; [exact Hmin|].
  split.
  { intros Hle. specialize (Hmin 0 ltac:(lia) ltac:(lia)). lia. }
  split.
  { rewrite (nextPaydayOnOrAfter_denotes _ _ _ _ _ Hd Hf Hp), Heq. reflexivity. }
  intros Hsup. split.
  - rewrite (nextPaydayOnOrAfter_denotes _ _ _ _ _ Hd Hf Hp), Heq.
    rewrite clip_supported by exact Hsup. reflexivity.
  - rewrite (nextPaydayOnOrAfter_denotes _ _ (nf + s * p) nf p
               (denotes_day_date _ Hsup) Hf Hp).
    destruct (next_payday_spec (nf + s * p) nf p Hp) as (s' & Hs' & Heq' & Hge' & Hmin').
    specialize (Hmin' s Hs ltac:(lia)).
    assert (s' = s) by nia. subst s'.
    rewrite Heq', clip_supported by exact Hsup. reflexivity.
Qed.

Lemma nextPaydayOnOrAfter_earliest_witness :
  denotes (VStr "2026-01-10") 20463
  /\ denotes (VStr "2026-01-08") 20461
  /\ 0 < 14
  /\ exists s,
       nextPaydayOnOrAfter (VStr "2026-01-10") (VStr "2026-01-08") (Int 14)
       = Ok (new_Date (Int ((20461 + s * 14) * msPerDay)))
       /\ 20463 <= 20461 + s * 14.
Proof.
  assert (H1 : denotes (VStr "2026-01-10") 20463) by denotes_by_eval.
  assert (H2 : denotes (VStr "2026-01-08") 20461) by denotes_by_eval.
  assert (H3 : 0 < 14) by lia.
  split; [exact H1|]. split; [exact H2|]. split; [exact H3|].
  destruct (nextPaydayOnOrAfter_earliest _ _ _ _ _ H1 H2 H3)
    as (s & _ & Hge & _ & _ & Heq & _).
  exists s. split; [exact Heq | exact Hge].
Defined.

Lemma nextPaydayOnOrAfter_negative_period_aux (d first : value) (nd nf p : Z) :
  denotes d nd -> denotes first nf -> 0 < p -> nf < nd ->
  nextPaydayOnOrAfter d first (Int (- p))
  = Ok (day_date (nf + ((nd - nf) / p) * p))
  /\ nf <= nf + ((nd - nf) / p) * p <= nd
  /\ ((nd - nf) mod p <> 0 -> nf + ((nd - nf) / p) * p < nd).
Proof.
  intros Hd Hf Hp Hlt.
  pose proof (Z.div_mod (nd - nf) p ltac:(lia)) as Hdm.
  pose proof (Z.mod_pos_bound (nd - nf) p Hp) as Hmod.
  pose proof (Z.div_pos (nd - nf) p ltac:(lia) Hp) as Hq.
  assert (Hr : nf <= nf + (nd - nf) / p * p <= nd) by nia.
  split; [|split; [exact Hr|nia]].
  unfold nextPaydayOnOrAfter.
  rewrite (clampDate_denotes _ _ Hd), (clampDate_denotes _ _ Hf). cbn [bind].
  rewrite date_le_day. destruct (Z.leb_spec nd nf); [lia|].
  rewrite (daysBetween_denotes _ _ nf nd);
    [| apply denotes_day_date, Hf | apply denotes_day_date, Hd].
  cbn [bind num_ceil_div]. destruct (Z.eqb_spec (- p) 0); [lia|].
  cbn [num_mul]. rewrite addDays_clip.
  rewrite Z.div_opp_opp by lia.
  replace (nf + - ((nd - nf) / p) * - p) with (nf + (nd - nf) / p * p) by lia.
  rewrite clip_supported; [reflexivity|].
  destruct Hd as [_ Hd], Hf as [_ Hf]. unfold supported_day in *. lia.
Qed.

(** X5.  A negative period is not rejected: for a date [d] after the first
    payday, [nextPaydayOnOrAfter] with period [-p] returns the last day of
    the schedule of period [p] that is not after [d], which is before [d]
    unless [d] is itself a payday. *)
Theorem nextPaydayOnOrAfter_negative_period (d first : value) (nd nf p : Z) :
  denotes d nd -> denotes first nf -> 0 < p -> nf < nd ->
  exists q,
    nextPaydayOnOrAfter d first (Int (- p)) = Ok (day_date q)
    /\ q = nf + ((nd - nf) / p) * p
    /\ nf <= q <= nd
    /\ ((nd - nf) mod p <> 0 -> q < nd).
Proof.
  intros Hd Hf Hp Hlt.
  destruct (nextPaydayOnOrAfter_negative_period_aux _ _ _ _ _ Hd Hf Hp Hlt)
    as (Heq & Hr & Hstrict).
  exists (nf + ((nd - nf) / p) * p). auto.
Qed.

Lemma nextPaydayOnOrAfter_negative_period_witness :
  denotes (VStr "2026-01-10") 20463
  /\ denotes (VStr "2026-01-08") 20461
  /\ 0 < 14 /\ 20461 < 20463
  /\ nextPaydayOnOrAfter (VStr "2026-01-10") (VStr "2026-01-08") (Int (- 14))
     = Ok (day_date 20461).
Proof.
  assert (H1 : denotes (VStr "2026-01-10") 20463) by denotes_by_eval.
  assert (H2 : denotes (VStr "2026-01-08") 20461) by denotes_by_eval.
  assert (H3 : 0 < 14) by lia.
  assert (H4 : 20461 < 20463) by lia.
  split; [exact H1|]. split; [exact H2|]. split; [exact H3|]. split; [exact H4|].
  destruct (nextPaydayOnOrAfter_negative_period _ _ _ _ _ H1 H2 H3 H4)
    as (q & Heq & Hq & _).
  rewrite Hq in Heq. exact Heq.
Defined.

Lemma payday_run_length (n : nat) :
  forall q p, List.length (payday_run n q p) = n.
Proof.
  induction n as [|n IH]; intros q p; cbn [payday_run List.length];
    [reflexivity|]. rewrite IH. reflexivity.
Qed.




(** X7.  An interval whose end is before its start holds no payday:
    [getPaydaysBetween] returns the empty list after one test. *)
Theorem getPaydaysBetween_inverted (start endDate first : value)
    (ns ne nf p : Z) (fuel : nat) :
  denotes start ns -> denotes endDate ne -> denotes first nf ->
  ne < ns -> 0 < p ->
  getPaydaysBetween (S fuel) start endDate first (Int p) = Some (Ok []).
Proof.
  intros Hs He Hf Hlt Hp. unfold getPaydaysBetween.
  rewrite (clampDate_denotes _ _ Hs), (clampDate_denotes _ _ He).
  rewrite (nextPaydayOnOrAfter_denotes _ _ ns nf p
             (denotes_day_date _ (proj2 Hs)) Hf Hp).
  destruct (next_payday_spec ns nf p Hp) as (s & _ & _ & Hge & _).
  rewrite (paydays_loop_run 0); [reflexivity|apply He| |exact Hp| | |lia].
  - destruct Hs as [_ Hs]. unfold supported_day in Hs. lia.
  - intros Hle. lia.
  - reflexivity.
Qed.

Lemma getPaydaysBetween_inverted_witness :
  denotes (VStr "2026-01-31") 20484
  /\ denotes (VStr "2026-01-01") 20454
  /\ denotes (VStr "2026-01-08") 20461
  /\ 20454 < 20484 /\ 0 < 14
  /\ getPaydaysBetween 1 (VStr "2026-01-31") (VStr "2026-01-01")
       (VStr "2026-01-08") (Int 14) = Some (Ok []).
Proof.
  assert (H1 : denotes (VStr "2026-01-31") 20484) by denotes_by_eval.
  assert (H2 : denotes (VStr "2026-01-01") 20454) by denotes_by_eval.
  assert (H3 : denotes (VStr "2026-01-08") 20461) by denotes_by_eval.
  assert (H4 : 20454 < 20484) by lia.
  assert (H5 : 0 < 14) by lia.
  split; [exact H1|]. split; [exact H2|]. split; [exact H3|].
  split; [exact H4|]. split; [exact H5|].
  exact (getPaydaysBetween_inverted _ _ _ _ _ _ _ O H1 H2 H3 H4 H5).
Defined.

Lemma paydays_loop_stuck (fuel : nat) :
  forall (q ne : Z) (out : list date),
    supported_day q -> q <= ne ->
    paydays_loop fuel (day_date q) (day_date ne) (Int 0) out = None.
Proof.
  induction fuel as [|fuel IH]; intros q ne out Hq Hle; [reflexivity|].
  cbn [paydays_loop]. rewrite date_le_day.
  destruct (Z.leb_spec q ne); [|lia].
  rewrite addDays_day by (apply supported_1e8 in Hq; lia).
  rewrite Z.add_0_r. apply IH; assumption.
Qed.

(** X8.  With a period of 0 days and the first payday in the interval,
    the loop of [getPaydaysBetween] never ends by its test: it stays on
    the first payday and adds it to the list again and again, for as many
    entries as an array can hold (4,294,967,295), so that the call cannot
    return a list.  When the first payday is before the interval, the next
    payday is an Invalid Date and the list is empty. *)
Theorem getPaydaysBetween_zero_period (start endDate first : value)
    (ns ne nf : Z) :
  denotes start ns -> denotes endDate ne -> denotes first nf ->
  (ns <= nf <= ne ->
   forall fuel, Z.of_nat fuel <= 4294967295 ->
     getPaydaysBetween fuel start endDate first (Int 0) = None)
  /\ (nf < ns ->
      nextPaydayOnOrAfter start first (Int 0) = Ok (Date NaN)
      /\ forall fuel,
           getPaydaysBetween (S fuel) start endDate first (Int 0)
           = Some (Ok [])).
Proof.
  intros Hs He Hf.
  assert (Hnext : forall d, denotes d ns ->
            nextPaydayOnOrAfter d first (Int 0)
            = Ok (if ns <=? nf then day_date nf else Date NaN)).
  { intros d Hd. unfold nextPaydayOnOrAfter.
    rewrite (clampDate_denotes _ _ Hd), (clampDate_denotes _ _ Hf). cbn [bind].
    rewrite date_le_day. destruct (Z.leb_spec ns nf); [reflexivity|].
    rewrite (daysBetween_denotes _ _ nf ns);
      [| apply denotes_day_date, Hf | apply denotes_day_date, Hs].
    cbn [bind num_ceil_div Z.eqb].
    destruct (Z.eqb_spec (ns - nf) 0); [lia|].
    destruct (Z.ltb_spec (ns - nf) 0); [lia|]. reflexivity. }
  split.
  - intros [H1 H2] fuel _. unfold getPaydaysBetween.
    rewrite (clampDate_denotes _ _ Hs), (clampDate_denotes _ _ He).
    rewrite (Hnext _ (denotes_day_date _ (proj2 Hs))).
    destruct (Z.leb_spec ns nf); [|lia].
    apply paydays_loop_stuck; [apply Hf|exact H2].
  - intros Hlt. split.
    + rewrite (Hnext _ Hs). destruct (Z.leb_spec ns nf); [lia|reflexivity].
    + intros fuel. unfold getPaydaysBetween.
      rewrite (clampDate_denotes _ _ Hs), (clampDate_denotes _ _ He).
      rewrite (Hnext _ (denotes_day_date _ (proj2 Hs))).
      destruct (Z.leb_spec ns nf); [lia|]. reflexivity.
Qed.

Lemma getPaydaysBetween_zero_period_witness :
  denotes (VStr "2026-01-01") 20454
  /\ denotes (VStr "2026-01-31") 20484
  /\ denotes (VStr "2026-01-08") 20461
  /\ 20454 <= 20461 <= 20484
  /\ Z.of_nat 1000 <= 4294967295
  /\ getPaydaysBetween 1000 (VStr "2026-01-01") (VStr "2026-01-31")
       (VStr "2026-01-08") (Int 0) = None.
Proof.
  assert (H1 : denotes (VStr "2026-01-01") 20454) by denotes_by_eval.
  assert (H2 : denotes (VStr "2026-01-31") 20484) by denotes_by_eval.
  assert (H3 : denotes (VStr "2026-01-08") 20461) by denotes_by_eval.
  assert (H4 : 20454 <= 20461 <= 20484) by lia.
  assert (H5 : Z.of_nat 1000 <= 4294967295) by lia.
  split; [exact H1|]. split; [exact H2|]. split; [exact H3|].
  split; [exact H4|]. split; [exact H5|].
  exact (proj1 (getPaydaysBetween_zero_period _ _ _ _ _ _ H1 H2 H3) H4
           1000%nat H5).
Defined.

Lemma new_Date_below_range (n : Z) :
  n < -100000000 -> new_Date (Int (n * msPerDay)) = Date NaN.
Proof.
  intros H. unfold new_Date, TimeClip, msPerDay.
  destruct (Z.leb_spec (Z.abs (n * 86400000)) 8640000000000000); [lia|reflexivity].
Qed.

Lemma paydays_loop_backwards (n : nat) :
  forall (fuel : nat) (q ne p : Z) (out : list date),
    0 < p -> -100000000 <= q <= ne -> ne <= 100000000 ->
    Z.of_nat n = (q + 100000000) / p + 1 -> (n < fuel)%nat ->
    paydays_loop fuel (day_date q) (day_date ne) (Int (- p)) out
    = Some (Ok (out ++ map day_date (payday_run n q (- p)))).
Proof.
  induction n as [|n IH]; intros fuel q ne p out Hp Hq Hne Hn Hfuel.
  - pose proof (Z.div_pos (q + 100000000) p ltac:(lia) Hp). lia.
  - destruct fuel as [|fuel]; [lia|].
    cbn [paydays_loop payday_run map]. rewrite date_le_day.
    destruct (Z.leb_spec q ne); [|lia].
    rewrite addDays_clip.
    pose proof (Z.div_mod (q + 100000000) p ltac:(lia)) as Hdm.
    pose proof (Z.mod_pos_bound (q + 100000000) p Hp) as Hmod.
    destruct (Z.le_gt_cases (-100000000) (q + - p)) as [Hin|Hout].
    + rewrite HolidayPlannerFacts.new_Date_day by lia.
      rewrite (IH fuel (q + - p) ne p); [|exact Hp|lia|exact Hne| |lia].
      * rewrite <- app_assoc. reflexivity.
      * replace (q + - p + 100000000) with (q + 100000000 + (-1) * p) by lia.
        rewrite Z.div_add by lia. lia.
    + rewrite new_Date_below_range by lia.
      assert (Hz : (q + 100000000) / p = 0) by (apply Z.div_small; lia).
      assert (n = O) by lia. subst n.
      destruct fuel as [|fuel]; [lia|]. reflexivity.
Qed.

(** X9.  A negative period is not rejected either by [getPaydaysBetween]:
    with period [-p] and the first payday not after the end of the
    interval, the loop walks back in time, [p] days at a time, until the
    date leaves the range of time values (100,000,000 days before 1970),
    and returns every date on the way, however far before the start of
    the interval. *)
Theorem getPaydaysBetween_negative_period (start endDate first : value)
    (ns ne nf p : Z) :
  denotes start ns -> denotes endDate ne -> denotes first nf ->
  ns <= ne -> nf <= ne -> 0 < p ->
  exists (fuel : nat) (q : Z) (ds : list Z),
    (forall extra,
        getPaydaysBetween (fuel + extra) start endDate first (Int (- p))
        = Some (Ok (map day_date ds)))
    /\ q = (if ns <=? nf then nf else nf + (ns - nf) / p * p)
    /\ Z.of_nat (List.length ds) = (q + 100000000) / p + 1
    /\ (forall x, In x ds
                  <-> exists k, 0 <= k /\ x = q - k * p /\ -100000000 <= x).
Proof.
  intros Hs He Hf Hse Hfe Hp.
  set (q := if ns <=? nf then nf else nf + (ns - nf) / p * p).
  pose proof (supported_1e8 _ (proj2 Hs)) as Bs.
  pose proof (supported_1e8 _ (proj2 Hf)) as Bf.
  pose proof (supported_1e8 _ (proj2 He)) as Be.
  assert (Hq : nextPaydayOnOrAfter (VDate (day_date ns)) first (Int (- p))
               = Ok (day_date q) /\ -100000000 <= q <= ne).
  { unfold q. destruct (Z.leb_spec ns nf) as [Hle|Hlt].
    - split; [|lia]. unfold nextPaydayOnOrAfter.
      rewrite (clampDate_day_date _ (proj2 Hs)), (clampDate_denotes _ _ Hf).
      cbn [bind]. rewrite date_le_day.
      destruct (Z.leb_spec ns nf); [reflexivity|lia].
    - destruct (nextPaydayOnOrAfter_negative_period_aux _ _ ns nf p
                  (denotes_day_date _ (proj2 Hs)) Hf Hp Hlt) as (Heq & Hr).
      split; [exact Heq|lia]. }
  destruct Hq as [Hnext Hqr].
  set (n := Z.to_nat ((q + 100000000) / p + 1)).
  pose proof (Z.div_pos (q + 100000000) p ltac:(lia) Hp) as Hdiv.
  exists (S n), q, (payday_run n q (- p)). split; [|split; [reflexivity|split]].
  - intros extra. unfold getPaydaysBetween.
    rewrite (clampDate_denotes _ _ Hs), (clampDate_denotes _ _ He), Hnext.
    rewrite (paydays_loop_backwards n); [reflexivity|exact Hp|exact Hqr|lia| |lia].
    unfold n. lia.
  - rewrite payday_run_length. unfold n. lia.
  - intros x. rewrite payday_run_In. unfold n. rewrite Z2Nat.id by lia. split.
    + intros (j & Hj & ->). exists j.
      pose proof (Z.mul_div_le (q + 100000000) p Hp).
      split; [lia|]. split; [lia|]. nia.
    + intros (k & Hk & -> & Hx). exists k. split; [|lia].
      split; [lia|].
      assert (k <= (q + 100000000) / p).
      { apply Z.div_le_lower_bound; [exact Hp|nia]. }
      lia.
Qed.

Lemma getPaydaysBetween_negative_period_witness :
  denotes (VStr "2026-01-01") 20454
  /\ denotes (VStr "2026-01-31") 20484
  /\ denotes (VStr "2026-01-08") 20461
  /\ 20454 <= 20484 /\ 20461 <= 20484 /\ 0 < 14
  /\ exists (fuel : nat) (ds : list Z),
       getPaydaysBetween (fuel + 0) (VStr "2026-01-01") (VStr "2026-01-31")
         (VStr "2026-01-08") (Int (- (14))) = Some (Ok (map day_date ds))
       /\ Z.of_nat (List.length ds) = (20461 + 100000000) / 14 + 1.
Proof.
  assert (H1 : denotes (VStr "2026-01-01") 20454) by denotes_by_eval.
  assert (H2 : denotes (VStr "2026-01-31") 20484) by denotes_by_eval.
  assert (H3 : denotes (VStr "2026-01-08") 20461) by denotes_by_eval.
  assert (H4 : 20454 <= 20484) by lia.
  assert (H5 : 20461 <= 20484) by lia.
  assert (H6 : 0 < 14) by lia.
  split; [exact H1|]. split; [exact H2|]. split; [exact H3|].
  split; [exact H4|]. split; [exact H5|]. split; [exact H6|].
  destruct (getPaydaysBetween_negative_period _ _ _ _ _ _ _ H1 H2 H3 H4 H5 H6)
    as (fuel & q & ds & Hrun & Hq & Hlen & _).
  exists fuel, ds. split; [exact (Hrun O)|].
  rewrite Hlen, Hq. reflexivity.
Defined.

(** *** Weekdays *)

Lemma count_days_split (P : Z -> bool) (a b c : Z) :
  a <= b + 1 -> b <= c ->
  count_days P a c = count_days P a b + count_days P (b + 1) c.
Proof.
  intros H1 H2. unfold count_days.
  replace (c - a + 1) with ((b - a + 1) + (c - (b + 1) + 1)) by lia.
  rewrite seqZ_app by lia.
  replace (a + (b - a + 1)) with (b + 1) by lia.
  rewrite List.filter_app, length_app. lia.
Qed.

Lemma count_days_mono (P : Z -> bool) (a b c : Z) :
  b <= c -> count_days P a b <= count_days P a c.
Proof.
  intros H. destruct (Z.le_gt_cases a (b + 1)) as [Hab|Hab].
  - rewrite (count_days_split P a b c Hab H).
    pose proof (count_days_nonneg P (b + 1) c). lia.
  - rewrite (count_days_empty P a b) by lia. apply count_days_nonneg.
Qed.

Lemma weekday_of_add (a i : Z) :
  weekday_of (a + i) = (weekday_of a + i) mod 7.
Proof.
  unfold weekday_of.
  replace (a + i + 4) with (a + 4 + i) by lia.
  rewrite Zplus_mod_idemp_l. reflexivity.
Qed.

Lemma weekdays_in_week (a : Z) : weekdays_in a (a + 6) = 5.
Proof.
  unfold weekdays_in.
  do 7 (rewrite count_days_step by lia; rewrite <- ?Z.add_assoc; cbn [Z.add Pos.add Pos.succ]).
  rewrite count_days_empty by lia.
  unfold is_weekend. rewrite !weekday_of_add.
  pose proof (HolidayPlannerFacts.weekday_of_range a) as Hr.
  assert (Hc : weekday_of a = 0 \/ weekday_of a = 1 \/ weekday_of a = 2
               \/ weekday_of a = 3 \/ weekday_of a = 4 \/ weekday_of a = 5
               \/ weekday_of a = 6) by lia.
  destruct Hc as [-> | [-> | [-> | [-> | [-> | [-> | ->]]]]]]; reflexivity.
Qed.

Lemma weekdays_in_weeks (k : nat) :
  forall a, weekdays_in a (a + 7 * Z.of_nat k - 1) = 5 * Z.of_nat k.
Proof.
  induction k as [|k IH]; intros a.
  - unfold weekdays_in. rewrite count_days_empty by lia. reflexivity.
  - unfold weekdays_in in *.
    rewrite (count_days_split _ a (a + 6)) by lia.
    pose proof (weekdays_in_week a) as Hw. unfold weekdays_in in Hw. rewrite Hw.
    replace (a + 7 * Z.of_nat (S k) - 1) with (a + 6 + 1 + 7 * Z.of_nat k - 1) by lia.
    rewrite IH. lia.
Qed.

(** X10.  A range of whole weeks holds 5 weekdays per week, whatever the
    day of the week it starts on: 40 hours of leave per week. *)
Theorem weekdays_whole_weeks (a b : value) (na nb k : Z) :
  denotes a na -> denotes b nb -> 0 <= k -> nb - na + 1 = 7 * k ->
  weekdaysBetweenInclusive a b = Ok (5 * k).
Proof.
  intros Ha Hb Hk Hlen.
  rewrite (weekdaysBetweenInclusive_denotes _ _ _ _ Ha Hb).
  replace nb with (na + 7 * Z.of_nat (Z.to_nat k) - 1) by lia.
  rewrite weekdays_in_weeks. f_equal. lia.
Qed.

Lemma weekdays_whole_weeks_witness :
  denotes (VStr "2026-01-07") 20460
  /\ denotes (VStr "2026-01-20") 20473
  /\ 0 <= 2 /\ 20473 - 20460 + 1 = 7 * 2
  /\ weekdaysBetweenInclusive (VStr "2026-01-07") (VStr "2026-01-20") = Ok (5 * 2).
Proof.
  assert (H1 : denotes (VStr "2026-01-07") 20460) by denotes_by_eval.
  assert (H2 : denotes (VStr "2026-01-20") 20473) by denotes_by_eval.
  assert (H3 : 0 <= 2) by lia.
  assert (H4 : 20473 - 20460 + 1 = 7 * 2) by lia.
  split; [exact H1|]. split; [exact H2|]. split; [exact H3|]. split; [exact H4|].
  exact (weekdays_whole_weeks _ _ _ _ _ H1 H2 H3 H4).
Defined.

(** X11.  Weekday counts add up: cutting an interval after any of its days
    gives two intervals whose counts sum to the count of the whole; and a
    count is never negative nor more than the number of days. *)
Theorem weekdays_additive (a b b' c : value) (na nb nc : Z) :
  denotes a na -> denotes b nb -> denotes b' (nb + 1) -> denotes c nc ->
  na <= nb -> nb < nc ->
  exists x y,
    weekdaysBetweenInclusive a b = Ok x
    /\ weekdaysBetweenInclusive b' c = Ok y
    /\ weekdaysBetweenInclusive a c = Ok (x + y)
    /\ 0 <= x <= nb - na + 1
    /\ 0 <= y <= nc - nb.
Proof.
  intros Ha Hb Hb' Hc H1 H2.
  exists (weekdays_in na nb), (weekdays_in (nb + 1) nc).
  rewrite (weekdaysBetweenInclusive_denotes _ _ _ _ Ha Hb).
  rewrite (weekdaysBetweenInclusive_denotes _ _ _ _ Hb' Hc).
  rewrite (weekdaysBetweenInclusive_denotes _ _ _ _ Ha Hc).
  unfold weekdays_in.
  split; [reflexivity|]. split; [reflexivity|]. split.
  - rewrite (count_days_split _ na nb nc) by lia. reflexivity.
  - pose proof (count_days_nonneg (fun n => negb (is_weekend n)) na nb).
    pose proof (count_days_le (fun n => negb (is_weekend n)) na nb ltac:(lia)).
    pose proof (count_days_nonneg (fun n => negb (is_weekend n)) (nb + 1) nc).
    pose proof (count_days_le (fun n => negb (is_weekend n)) (nb + 1) nc ltac:(lia)).
    lia.
Qed.

Lemma weekdays_additive_witness :
  denotes (VStr "2026-01-05") 20458
  /\ denotes (VStr "2026-01-07") 20460
  /\ denotes (VStr "2026-01-08") (20460 + 1)
  /\ denotes (VStr "2026-01-22") 20475
  /\ 20458 <= 20460 /\ 20460 < 20475
  /\ exists x y,
       weekdaysBetweenInclusive (VStr "2026-01-05") (VStr "2026-01-07") = Ok x
       /\ weekdaysBetweenInclusive (VStr "2026-01-08") (VStr "2026-01-22") = Ok y
       /\ weekdaysBetweenInclusive (VStr "2026-01-05") (VStr "2026-01-22")
          = Ok (x + y).
Proof.
  assert (H1 : denotes (VStr "2026-01-05") 20458) by denotes_by_eval.
  assert (H2 : denotes (VStr "2026-01-07") 20460) by denotes_by_eval.
  assert (H3 : denotes (VStr "2026-01-08") (20460 + 1)) by denotes_by_eval.
  assert (H4 : denotes (VStr "2026-01-22") 20475) by denotes_by_eval.
  assert (H5 : 20458 <= 20460) by lia.
  assert (H6 : 20460 < 20475) by lia.
  split; [exact H1|]. split; [exact H2|]. split; [exact H3|]. split; [exact H4|].
  split; [exact H5|]. split; [exact H6|].
  destruct (weekdays_additive _ _ _ _ _ _ _ H1 H2 H3 H4 H5 H6)
    as (x & y & Hx & Hy & Hxy & _).
  exists x, y. split; [exact Hx|]. split; [exact Hy|exact Hxy].
Defined.

(** *** The leave ledger *)

Lemma leave_hours_mono (P : Z -> bool) (spans : list (Z * Z)) (nt nt' : Z) :
  nt <= nt' -> leave_hours P spans nt <= leave_hours P spans nt'.
Proof.
  intros H. induction spans as [|s spans IH]; [reflexivity|].
  rewrite !leave_hours_cons.
  destruct (Z.leb_spec (fst s) nt), (Z.leb_spec (fst s) nt'); try lia.
  - pose proof (count_days_mono P (fst s) (Z.min (snd s) nt) (Z.min (snd s) nt')
                  ltac:(lia)). lia.
  - pose proof (count_days_nonneg P (fst s) (Z.min (snd s) nt')). lia.
Qed.

Lemma ledger_hours_cons (P : Z -> bool) (s : Z * Z) (spans : list (Z * Z)) :
  ledger_hours P (s :: spans)
  = count_days P (fst s) (snd s) * 8 + ledger_hours P spans.
Proof. reflexivity. Qed.

Lemma leave_hours_le_ledger (P : Z -> bool) (spans : list (Z * Z)) (nt : Z) :
  leave_hours P spans nt <= ledger_hours P spans.
Proof.
  induction spans as [|s spans IH]; [reflexivity|].
  rewrite leave_hours_cons, ledger_hours_cons.
  pose proof (count_days_nonneg P (fst s) (snd s)).
  destruct (Z.leb_spec (fst s) nt); [|lia].
  pose proof (count_days_mono P (fst s) (Z.min (snd s) nt) (snd s) ltac:(lia)).
  lia.
Qed.

Lemma leave_hours_all (P : Z -> bool) (spans : list (Z * Z)) (nt : Z) :
  Forall (fun s => snd s <= nt) spans ->
  leave_hours P spans nt = ledger_hours P spans.
Proof.
  induction 1 as [|s spans Hs _ IH]; [reflexivity|].
  rewrite leave_hours_cons, ledger_hours_cons, IH.
  destruct (Z.leb_spec (fst s) nt).
  - rewrite Z.min_l by lia. reflexivity.
  - rewrite (count_days_empty P (fst s) (snd s)) by lia. reflexivity.
Qed.

(** X12.  The leave deducted grows with the target date: it is never
    negative, never decreases when the target moves later, never exceeds
    the hours of the whole ledger, and reaches them once the target is on
    or after the last day of every range. *)
Theorem ptoHoursUpTo_monotone (st : State) (t t' : value) (nt nt' : Z)
    (spans : list (Z * Z)) :
  denotes t nt -> denotes t' nt' -> ranges_denote (ptoRanges st) spans ->
  nt <= nt' ->
  exists h h',
    ptoHoursUpTo st t = Ok h
    /\ ptoHoursUpTo st t' = Ok h'
    /\ 0 <= h <= h'
    /\ h' <= ledger_hours weekday spans
    /\ (Forall (fun s => snd s <= nt') spans -> h' = ledger_hours weekday spans).
Proof.
  intros Ht Ht' Hrs Hle.
  exists (leave_hours weekday spans nt), (leave_hours weekday spans nt').
  split; [apply (ptoHoursUpTo_denotes _ _ _ _ Ht Hrs)|].
  split; [apply (ptoHoursUpTo_denotes _ _ _ _ Ht' Hrs)|].
  split; [|split].
  - destruct (leave_hours_mult8 weekday spans nt) as (k & Hk & Hk').
    pose proof (leave_hours_mono weekday spans nt nt' Hle). lia.
  - apply leave_hours_le_ledger.
  - apply leave_hours_all.
Qed.

Lemma ptoHoursUpTo_monotone_witness :
  denotes (VStr "2026-01-07") 20460
  /\ denotes (VStr "2026-01-22") 20475
  /\ ranges_denote (ptoRanges scenario_D) [(20458, 20462)]
  /\ 20460 <= 20475
  /\ exists h h',
       ptoHoursUpTo scenario_D (VStr "2026-01-07") = Ok h
       /\ ptoHoursUpTo scenario_D (VStr "2026-01-22") = Ok h'
       /\ 0 <= h <= h'.
Proof.
  assert (H1 : denotes (VStr "2026-01-07") 20460) by denotes_by_eval.
  assert (H2 : denotes (VStr "2026-01-22") 20475) by denotes_by_eval.
  assert (H3 : ranges_denote (ptoRanges scenario_D) [(20458, 20462)]).
  { constructor; [|constructor]. split; denotes_by_eval. }
  assert (H4 : 20460 <= 20475) by lia.
  split; [exact H1|]. split; [exact H2|]. split; [exact H3|]. split; [exact H4|].
  destruct (ptoHoursUpTo_monotone _ _ _ _ _ _ H1 H2 H3 H4)
    as (h & h' & Hh & Hh' & Hle & _).
  exists h, h'. split; [exact Hh|]. split; [exact Hh'|exact Hle].
Defined.

Lemma leave_hours_Permutation (P : Z -> bool) (l l' : list (Z * Z)) (nt : Z) :
  Permutation l l' -> leave_hours P l nt = leave_hours P l' nt.
Proof.
  induction 1 as [|s l l' _ IH|s s' l|l l' l'' _ IH1 _ IH2].
  - reflexivity.
  - rewrite !leave_hours_cons, IH. reflexivity.
  - rewrite !leave_hours_cons. lia.
  - congruence.
Qed.

Lemma getBalanceOn_set_ptoRanges (st : State) (rs : list PtoRange) (target : value) :
  ptoHoursUpTo (set_ptoRanges st rs) target = ptoHoursUpTo st target ->
  getBalanceOn (set_ptoRanges st rs) target = getBalanceOn st target.
Proof.
  intros H. unfold getBalanceOn. rewrite H. reflexivity.
Qed.

(** X13.  The order of the leave ledger does not matter: any rearrangement
    of the ranges gives the same leave hours and the same balance. *)
Theorem ledger_order_irrelevant (st : State) (rs' : list PtoRange)
    (target : value) (nt : Z) (spans : list (Z * Z)) :
  denotes target nt -> ranges_denote (ptoRanges st) spans ->
  Permutation (ptoRanges st) rs' ->
  ptoHoursUpTo (set_ptoRanges st rs') target = ptoHoursUpTo st target
  /\ getBalanceOn (set_ptoRanges st rs') target = getBalanceOn st target.
Proof.
  intros Ht Hrs Hperm.
  destruct (Permutation_Forall2 Hperm Hrs) as (spans' & Hsp & Hrs').
  assert (H : ptoHoursUpTo (set_ptoRanges st rs') target = ptoHoursUpTo st target).
  { rewrite (ptoHoursUpTo_denotes st _ _ _ Ht Hrs).
    rewrite (ptoHoursUpTo_denotes (set_ptoRanges st rs') _ nt spans' Ht Hrs').
    f_equal. symmetry. apply leave_hours_Permutation, Hsp. }
  split; [exact H|]. apply getBalanceOn_set_ptoRanges, H.
Qed.

Lemma ledger_order_irrelevant_witness :
  denotes (VStr "2026-03-31") 20543
  /\ ranges_denote (ptoRanges out_of_order) [(20514, 20518); (20458, 20462)]
  /\ Permutation (ptoRanges out_of_order) [january_leave; march_leave]
  /\ getBalanceOn (set_ptoRanges out_of_order [january_leave; march_leave])
       (VStr "2026-03-31")
     = getBalanceOn out_of_order (VStr "2026-03-31").
Proof.
  assert (H1 : denotes (VStr "2026-03-31") 20543) by denotes_by_eval.
  assert (H2 : ranges_denote (ptoRanges out_of_order)
                 [(20514, 20518); (20458, 20462)]).
  { constructor; [split; denotes_by_eval|].
    constructor; [split; denotes_by_eval|]. constructor. }
  assert (H3 : Permutation (ptoRanges out_of_order) [january_leave; march_leave])
    by apply perm_swap.
  split; [exact H1|]. split; [exact H2|]. split; [exact H3|].
  exact (proj2 (ledger_order_irrelevant _ _ _ _ _ H1 H2 H3)).
Defined.

(** *** Sorting with a comparator that orders by a key *)

Section Sorting.
Context {A : Type}.
Variable compare : A -> A -> result num.
Variable key : A -> Z.
Variable ok : A -> Prop.
Hypothesis compare_key :
  forall x y, ok x -> ok y ->
    exists c, compare x y = Ok c /\ num_lt c (Int 0) = (key x <? key y).

Lemma sort_insert_spec (x : A) (l : list A) :
  ok x -> Forall ok l -> StronglySorted (fun a b => key a <= key b) l ->
  exists l',
    sort_insert compare x l = Ok l'
    /\ Permutation (x :: l) l'
    /\ StronglySorted (fun a b => key a <= key b) l'
    /\ (Forall (fun y => key x <= key y) l -> l' = x :: l).
Proof.
  intros Hx Hl Hs. induction l as [|y l IH].
  - exists [x]. split; [reflexivity|]. split; [reflexivity|].
    split; [repeat constructor|reflexivity].
  - cbn [sort_insert].
    apply Forall_cons in Hl as [Hy Hl].
    apply StronglySorted_inv in Hs as [Hs Hall].
    destruct (compare_key y x Hy Hx) as (c & -> & Hc). cbn [bind].
    rewrite Hc. destruct (Z.ltb_spec (key y) (key x)) as [Hlt|Hge].
    + destruct (IH Hl Hs) as (r & -> & Hp & Hsr & _). cbn [bind].
      exists (y :: r). split; [reflexivity|]. split; [|split].
      * rewrite perm_swap. constructor. exact Hp.
      * constructor; [exact Hsr|].
        rewrite <- Hp. constructor; [lia|exact Hall].
      * intros Hf. apply Forall_cons in Hf as [Hf _]. lia.
    + exists (x :: y :: l). split; [reflexivity|]. split; [reflexivity|].
      split; [|reflexivity].
      constructor; [constructor; assumption|].
      constructor; [exact Hge|].
      eapply Forall_impl; [exact Hall|]. cbn. intros z Hz. lia.
Qed.

Lemma Array_sort_spec (l : list A) :
  Forall ok l ->
  exists l',
    Array_sort compare l = Ok l'
    /\ Permutation l l'
    /\ StronglySorted (fun a b => key a <= key b) l'
    /\ (StronglySorted (fun a b => key a <= key b) l -> l' = l).
Proof.
  induction l as [|x l IH]; intros Hl.
  - exists []. split; [reflexivity|]. split; [reflexivity|].
    split; [constructor|reflexivity].
  - apply Forall_cons in Hl as [Hx Hl].
    destruct (IH Hl) as (r & Hr & Hp & Hs & Hid).
    cbn [Array_sort]. rewrite Hr. cbn [bind].
    assert (Hok : Forall ok r) by (rewrite <- Hp; exact Hl).
    destruct (sort_insert_spec x r Hx Hok Hs) as (r' & Hr' & Hp' & Hs' & Hid').
    exists r'. split; [exact Hr'|]. split; [|split; [exact Hs'|]].
    + rewrite <- Hp'. constructor. exact Hp.
    + intros Hsorted. apply StronglySorted_inv in Hsorted as [Hsl Hall].
      rewrite (Hid Hsl) in *. apply Hid', Hall.
Qed.
End Sorting.

Lemma date_sub_lt0 (a b : Z) :
  num_lt (date_sub (day_date a) (day_date b)) (Int 0) = (a <? b).
Proof.
  unfold date_sub, day_date, ToNumber, num_sub, num_opp, num_add, num_lt, msPerDay.
  destruct (Z.ltb_spec (a * 86400000 + - (b * 86400000)) 0), (Z.ltb_spec a b);
    try reflexivity; lia.
Qed.

Lemma map_to_dates (rs : list PtoRange) (spans : list (Z * Z)) :
  ranges_denote rs spans ->
  map_result (fun r => toDateOnlyUTC (pto_to r)) rs
  = Ok (map (fun s => day_date (snd s)) spans).
Proof.
  induction 1 as [|r s rs spans [_ Hto] _ IH]; [reflexivity|].
  cbn [map_result map]. rewrite (proj1 Hto), IH. reflexivity.
Qed.

Lemma latestPTODate_nonempty (st : State) (spans : list (Z * Z)) :
  ranges_denote (ptoRanges st) spans -> ptoRanges st <> [] ->
  exists m,
    In m (map snd spans)
    /\ (forall x, In x (map snd spans) -> x <= m)
    /\ latestPTODate st = Ok (day_date m).
Proof.
  intros Hrs Hne. unfold latestPTODate.
  destruct (ptoRanges st) as [|r rs] eqn:E; [congruence|].
  rewrite (map_to_dates _ _ Hrs). cbn [bind].
  set (ds := map (fun s => day_date (snd s)) spans).
  destruct (Array_sort_spec (fun a b => Ok (date_sub b a))
              (fun d => match d with Date (Int t) => - t | _ => 0 end)
              (fun d => exists n, d = day_date n) ) with (l := ds)
    as (sorted & Hsort & Hperm & Hsorted & _).
  { intros x y (nx & ->) (ny & ->). eexists. split; [reflexivity|].
    rewrite date_sub_lt0. unfold day_date, msPerDay.
    destruct (Z.ltb_spec ny nx), (Z.ltb_spec (- (nx * 86400000)) (- (ny * 86400000)));
      try reflexivity; lia. }
  { unfold ds. apply List.Forall_forall. intros d Hd.
    apply in_map_iff in Hd as (s & <- & _). eauto. }
  rewrite Hsort. cbn [bind].
  destruct sorted as [|d sorted].
  { apply Permutation_length in Hperm. unfold ds in Hperm.
    rewrite length_map in Hperm. inversion Hrs; subst; discriminate. }
  cbn [hd].
  assert (Hin : In d ds) by (rewrite Hperm; left; reflexivity).
  unfold ds in Hin. apply in_map_iff in Hin as (s & <- & Hs).
  exists (snd s). split; [apply in_map, Hs|]. split; [|reflexivity].
  intros x Hx. apply in_map_iff in Hx as (s' & <- & Hs').
  assert (Hin' : In (day_date (snd s')) (day_date (snd s) :: sorted)).
  { rewrite <- Hperm. unfold ds.
    apply (in_map (fun s => day_date (snd s))), Hs'. }
  destruct Hin' as [Heq|Hin'].
  + unfold day_date, msPerDay in Heq. injection Heq as Heq. lia.
  + apply StronglySorted_inv in Hsorted as [_ Hall].
    rewrite List.Forall_forall in Hall. specialize (Hall _ Hin').
    unfold day_date, msPerDay in Hall. cbn in Hall. lia.
Qed.

(** X14.  [latestPTODate] is [null] for an empty ledger and otherwise the
    last day of the range that ends last. *)
Theorem latestPTODate_is_last_day (st : State) (spans : list (Z * Z)) :
  ranges_denote (ptoRanges st) spans ->
  (ptoRanges st = [] -> latestPTODate st = Ok Null)
  /\ (ptoRanges st <> [] ->
      exists m,
        In m (map snd spans)
        /\ (forall x, In x (map snd spans) -> x <= m)
        /\ latestPTODate st = Ok (day_date m)).
Proof.
  intros Hrs. split.
  - intros E. unfold latestPTODate. rewrite E. reflexivity.
  - apply latestPTODate_nonempty, Hrs.
Qed.

Lemma latestPTODate_is_last_day_witness :
  ranges_denote (ptoRanges out_of_order) [(20514, 20518); (20458, 20462)]
  /\ ptoRanges out_of_order <> []
  /\ exists m, latestPTODate out_of_order = Ok (day_date m)
               /\ 20518 <= m /\ 20462 <= m.
Proof.
  assert (H1 : ranges_denote (ptoRanges out_of_order)
                 [(20514, 20518); (20458, 20462)]).
  { constructor; [split; denotes_by_eval|].
    constructor; [split; denotes_by_eval|]. constructor. }
  assert (H2 : ptoRanges out_of_order <> []) by discriminate.
  split; [exact H1|]. split; [exact H2|].
  destruct (proj2 (latestPTODate_is_last_day _ _ H1) H2) as (m & _ & Hmax & Hm).
  exists m. split; [exact Hm|].
  split; apply Hmax; cbn; auto.
Defined.

Lemma future_hours_cons (P : Z -> bool) (s : Z * Z) (spans : list (Z * Z))
    (nfrom : Z) :
  future_hours P (s :: spans) nfrom
  = (if nfrom <=? snd s
     then count_days P (Z.max (fst s) nfrom) (snd s) * 8 else 0)
    + future_hours P spans nfrom.
Proof.
  unfold future_hours, Zsum. cbn [List.filter].
  destruct (nfrom <=? snd s); cbn [map fold_right]; lia.
Qed.

Lemma supported_max (a b : Z) :
  supported_day a -> supported_day b -> supported_day (Z.max a b).
Proof. unfold supported_day. lia. Qed.

Lemma future_loop_denotes (rs : list PtoRange) (spans : list (Z * Z)) (nfrom : Z) :
  ranges_denote rs spans -> supported_day nfrom ->
  forall hours,
    future_loop (day_date nfrom) rs hours
    = Ok (hours + future_hours weekday spans nfrom).
Proof.
  intros Hrs Hn. induction Hrs as [|r s rs spans [Hfrom Hto] _ IH]; intros hours.
  - cbn. f_equal; unfold future_hours; cbn; lia.
  - cbn [future_loop]. rewrite (proj1 Hfrom), (proj1 Hto). cbn [bind].
    rewrite !date_lt_day, future_hours_cons.
    destruct (Z.ltb_spec (snd s) nfrom) as [Hlt|Hge].
    + destruct (Z.leb_spec nfrom (snd s)); [lia|]. rewrite IH. f_equal; lia.
    + destruct (Z.leb_spec nfrom (snd s)); [|lia].
      assert (Hstart : (if fst s <? nfrom then day_date nfrom else day_date (fst s))
                       = day_date (Z.max (fst s) nfrom)).
      { destruct (Z.ltb_spec (fst s) nfrom); f_equal; lia. }
      rewrite Hstart.
      rewrite (weekdaysBetweenInclusive_denotes _ _ (Z.max (fst s) nfrom) (snd s)).
      * cbn [bind]. rewrite IH, weekdays_in_weekday. f_equal; lia.
      * apply denotes_day_date, supported_max; [apply Hfrom|exact Hn].
      * apply denotes_day_date, Hto.
Qed.

Lemma leave_future_split (P : Z -> bool) (spans : list (Z * Z)) (nt : Z) :
  leave_hours P spans nt + future_hours P spans (nt + 1) = ledger_hours P spans.
Proof.
  induction spans as [|s spans IH]; [reflexivity|].
  rewrite leave_hours_cons, future_hours_cons, ledger_hours_cons.
  destruct (Z.leb_spec (fst s) nt) as [Hf|Hf],
           (Z.leb_spec (nt + 1) (snd s)) as [Ht|Ht].
  - rewrite Z.min_r, Z.max_r by lia.
    rewrite (count_days_split P (fst s) nt (snd s)) by lia. lia.
  - rewrite Z.min_l by lia. lia.
  - rewrite Z.max_l by lia. lia.
  - rewrite (count_days_empty P (fst s) (snd s)) by lia. lia.
Qed.

(** X15.  Past and future leave make up the ledger: the hours deducted up
    to a day and the hours [totalFuturePTO] counts from the next day on
    sum to the hours of all the ranges (an inverted range counts for none
    on either side). *)
Theorem totalFuturePTO_complement (st : State) (t t' : value) (nt : Z)
    (spans : list (Z * Z)) :
  denotes t nt -> denotes t' (nt + 1) -> ranges_denote (ptoRanges st) spans ->
  exists past future,
    ptoHoursUpTo st t = Ok past
    /\ totalFuturePTO st t' = Ok future
    /\ future = future_hours weekday spans (nt + 1)
    /\ past + future = ledger_hours weekday spans.
Proof.
  intros Ht Ht' Hrs.
  exists (leave_hours weekday spans nt), (future_hours weekday spans (nt + 1)).
  split; [apply (ptoHoursUpTo_denotes _ _ _ _ Ht Hrs)|]. split; [|split].
  - unfold totalFuturePTO. rewrite (proj1 Ht'). cbn [bind].
    rewrite (future_loop_denotes _ _ _ Hrs (proj2 Ht')). reflexivity.
  - reflexivity.
  - apply leave_future_split.
Qed.

Lemma totalFuturePTO_complement_witness :
  denotes (VStr "2026-01-07") 20460
  /\ denotes (VStr "2026-01-08") (20460 + 1)
  /\ ranges_denote (ptoRanges out_of_order) [(20514, 20518); (20458, 20462)]
  /\ exists past future,
       ptoHoursUpTo out_of_order (VStr "2026-01-07") = Ok past
       /\ totalFuturePTO out_of_order (VStr "2026-01-08") = Ok future
       /\ past + future
          = ledger_hours weekday [(20514, 20518); (20458, 20462)].
Proof.
  assert (H1 : denotes (VStr "2026-01-07") 20460) by denotes_by_eval.
  assert (H2 : denotes (VStr "2026-01-08") (20460 + 1)) by denotes_by_eval.
  assert (H3 : ranges_denote (ptoRanges out_of_order)
                 [(20514, 20518); (20458, 20462)]).
  { constructor; [split; denotes_by_eval|].
    constructor; [split; denotes_by_eval|]. constructor. }
  split; [exact H1|]. split; [exact H2|]. split; [exact H3|].
  destruct (totalFuturePTO_complement _ _ _ _ _ H1 H2 H3)
    as (past & future & Hp & Hf & _ & Hsum).
  exists past, future. split; [exact Hp|]. split; [exact Hf|exact Hsum].
Defined.

(** *** The leave table *)

Lemma from_day_denotes (r : PtoRange) (n : Z) :
  denotes (pto_from r) n -> from_day r = n.
Proof.
  intros [H _]. unfold from_day. rewrite H. unfold day_date. apply Day_mul.
Qed.

Lemma compare_from_key (x y : PtoRange) :
  (exists n, denotes (pto_from x) n) -> (exists n, denotes (pto_from y) n) ->
  exists c, compare_from x y = Ok c
            /\ num_lt c (Int 0) = (from_day x <? from_day y).
Proof.
  intros (nx & Hx) (ny & Hy). unfold compare_from.
  rewrite (proj1 Hx), (proj1 Hy). cbn [bind]. eexists. split; [reflexivity|].
  rewrite (from_day_denotes _ _ Hx), (from_day_denotes _ _ Hy).
  apply date_sub_lt0.
Qed.

Lemma with_index_fst {A : Type} (l : list A) :
  forall i, map fst (with_index i l) = seq i (List.length l).
Proof.
  induction l as [|x l IH]; intros i; [reflexivity|].
  cbn [with_index map List.length seq fst]. rewrite IH. reflexivity.
Qed.

Lemma with_index_snd {A : Type} (l : list A) :
  forall i, map snd (with_index i l) = l.
Proof.
  induction l as [|x l IH]; intros i; [reflexivity|].
  cbn [with_index map snd]. rewrite IH. reflexivity.
Qed.

Lemma with_index_In {A : Type} (l : list A) :
  forall k i x, In (i, x) (with_index k l) ->
                (k <= i)%nat /\ nth_error l (i - k) = Some x.
Proof.
  induction l as [|y l IH]; intros k i x Hin; [destruct Hin|].
  destruct Hin as [[= <- <-]|Hin].
  - split; [lia|]. rewrite Nat.sub_diag. reflexivity.
  - apply IH in Hin as [Hle Hnth]. split; [lia|].
    replace (i - k)%nat with (S (i - S k)) by lia. exact Hnth.
Qed.

Lemma splice1_removes {A : Type} (l : list A) :
  forall i x, nth_error l i = Some x -> Permutation l (x :: splice1 i l).
Proof.
  unfold splice1. induction l as [|y l IH]; intros [|i] x H;
    try discriminate.
  - injection H as ->. reflexivity.
  - cbn [firstn skipn app]. cbn [nth_error] in H.
    rewrite (IH i x H) at 1. apply perm_swap.
Qed.

Lemma ranges_valid_from (rs : list PtoRange) (spans : list (Z * Z)) :
  ranges_denote rs spans ->
  Forall (fun r => exists n, denotes (pto_from r) n) rs.
Proof.
  induction 1 as [|r s rs spans [Hf _] _ IH]; constructor; eauto.
Qed.

(** X16.  The leave table lists every range of the ledger once, in order
    of first day, and numbers the rows from 0.  When the ledger itself is
    in date order, the rows are the ledger, so that the Delete button of a
    row removes the range that the row shows. *)
Theorem ptoTableRows_in_date_order (st : State) (spans : list (Z * Z)) :
  ranges_denote (ptoRanges st) spans ->
  exists rows,
    ptoTableRows st = Ok rows
    /\ map fst rows = seq 0 (List.length (ptoRanges st))
    /\ Permutation (ptoRanges st) (map snd rows)
    /\ in_date_order (map snd rows)
    /\ (in_date_order (ptoRanges st) ->
        map snd rows = ptoRanges st
        /\ forall i r, In (i, r) rows ->
             Permutation (ptoRanges st) (r :: ptoRanges (deletePTO st i))).
Proof.
  intros Hrs. unfold ptoTableRows.
  destruct (Array_sort_spec compare_from from_day
              (fun r => exists n, denotes (pto_from r) n) compare_from_key
              (ptoRanges st) (ranges_valid_from _ _ Hrs))
    as (sorted & Hsort & Hperm & Hsorted & Hid).
  rewrite Hsort. cbn [bind]. exists (with_index 0 sorted).
  split; [reflexivity|]. split; [|split; [|split]].
  - rewrite with_index_fst. f_equal. symmetry. apply Permutation_length, Hperm.
  - rewrite with_index_snd. exact Hperm.
  - rewrite with_index_snd. exact Hsorted.
  - intros Hord. rewrite (Hid Hord). split; [apply with_index_snd|].
    intros i r Hin. apply with_index_In in Hin as [_ Hnth].
    rewrite Nat.sub_0_r in Hnth. apply splice1_removes, Hnth.
Qed.

Lemma ptoTableRows_in_date_order_witness :
  ranges_denote
    (ptoRanges (set_ptoRanges DEFAULTS [january_leave; march_leave]))
    [(20458, 20462); (20514, 20518)]
  /\ in_date_order (ptoRanges (set_ptoRanges DEFAULTS [january_leave; march_leave]))
  /\ exists rows,
       ptoTableRows (set_ptoRanges DEFAULTS [january_leave; march_leave]) = Ok rows
       /\ map snd rows = [january_leave; march_leave].
Proof.
  assert (H1 : ranges_denote
                 (ptoRanges (set_ptoRanges DEFAULTS [january_leave; march_leave]))
                 [(20458, 20462); (20514, 20518)]).
  { constructor; [split; denotes_by_eval|].
    constructor; [split; denotes_by_eval|]. constructor. }
  assert (Hj : from_day january_leave = 20458) by (vm_compute; reflexivity).
  assert (Hm : from_day march_leave = 20514) by (vm_compute; reflexivity).
  assert (H2 : in_date_order
                 (ptoRanges (set_ptoRanges DEFAULTS [january_leave; march_leave]))).
  { unfold in_date_order. cbn [ptoRanges set_ptoRanges].
    constructor; [constructor; [constructor|constructor]|].
    constructor; [|constructor]. rewrite Hj, Hm. lia. }
  split; [exact H1|]. split; [exact H2|].
  destruct (ptoTableRows_in_date_order _ _ H1) as (rows & Hrows & _ & _ & _ & Hord).
  exists rows. split; [exact Hrows|]. exact (proj1 (Hord H2)).
Defined.

(** X17.  When the ledger is not in date order the Delete button removes
    another range than the one its row shows: with a ledger of two ranges
    of which the second starts first, the first row shows the second
    range, and its button removes the first one. *)
Theorem delete_removes_another_range (st : State) (a b : PtoRange) (na nb : Z) :
  ptoRanges st = [a; b] ->
  denotes (pto_from a) na -> denotes (pto_from b) nb -> nb < na ->
  ptoTableRows st = Ok [(0%nat, b); (1%nat, a)]
  /\ ptoRanges (deletePTO st 0) = [b]
  /\ ptoRanges (deletePTO st 1) = [a].
Proof.
  intros E Ha Hb Hlt. unfold ptoTableRows, deletePTO. rewrite E.
  split; [|split; reflexivity].
  cbn [Array_sort sort_insert bind]. unfold compare_from.
  rewrite (proj1 Ha), (proj1 Hb). cbn [bind].
  rewrite date_sub_lt0. destruct (Z.ltb_spec nb na); [reflexivity|lia].
Qed.

Lemma delete_removes_another_range_witness :
  ptoRanges out_of_order = [march_leave; january_leave]
  /\ denotes (pto_from march_leave) 20514
  /\ denotes (pto_from january_leave) 20458
  /\ 20458 < 20514
  /\ ptoTableRows out_of_order = Ok [(0%nat, january_leave); (1%nat, march_leave)]
  /\ ptoRanges (deletePTO out_of_order 0) = [january_leave].
Proof.
  assert (H1 : ptoRanges out_of_order = [march_leave; january_leave]) by reflexivity.
  assert (H2 : denotes (pto_from march_leave) 20514) by denotes_by_eval.
  assert (H3 : denotes (pto_from january_leave) 20458) by denotes_by_eval.
  assert (H4 : 20458 < 20514) by lia.
  split; [exact H1|]. split; [exact H2|]. split; [exact H3|]. split; [exact H4|].
  destruct (delete_removes_another_range _ _ _ _ _ H1 H2 H3 H4) as (Hr & Hd & _).
  split; [exact Hr|exact Hd].
Defined.

(** *** Adding leave *)

Lemma denotes_nonempty (s : string) (n : Z) :
  denotes (VStr s) n -> s <> EmptyString.
Proof. intros [H _] ->. discriminate H. Qed.

Lemma eqb_empty (s : string) :
  s <> EmptyString -> String.eqb s EmptyString = false.
Proof. intros H. destruct s; [congruence|reflexivity]. Qed.

Lemma ranges_denote_app (rs : list PtoRange) (spans : list (Z * Z))
    (r : PtoRange) (a b : Z) :
  ranges_denote rs spans ->
  denotes (pto_from r) a -> denotes (pto_to r) b ->
  ranges_denote (rs ++ [r]) (spans ++ [(a, b)]).
Proof.
  intros Hrs Ha Hb. apply Forall2_app; [exact Hrs|].
  constructor; [split; assumption|constructor].
Qed.

Lemma leave_hours_single (P : Z -> bool) (a b nt : Z) :
  (b <= nt -> leave_hours P [(a, b)] nt = count_days P a b * 8)
  /\ (nt < a -> leave_hours P [(a, b)] nt = 0).
Proof.
  rewrite leave_hours_cons. cbn [fst snd]. unfold leave_hours, Zsum. cbn.
  split; intros H.
  - destruct (Z.leb_spec a nt).
    + rewrite Z.min_l by lia. lia.
    + rewrite (count_days_empty P a b) by lia. lia.
  - destruct (Z.leb_spec a nt); lia.
Qed.

(** X18.  The Add button of the leave form, for two valid dates: a range
    that ends before it starts is refused with a message and nothing is
    stored; otherwise one range is appended to the ledger and nothing else
    changes, and the hours stored with it, 8 per weekday, are what
    [ptoHoursUpTo] deducts for it from its last day on (and nothing
    before its first day). *)
Theorem addPTO_stores_deducted_hours (st : State) (from to note : string)
    (nf nt : Z) (spans : list (Z * Z)) :
  denotes (VStr from) nf -> denotes (VStr to) nt ->
  ranges_denote (ptoRanges st) spans ->
  (nt < nf -> addPTO st from to note = Ok (Alerted ToBeforeFrom))
  /\ (nf <= nt ->
      exists r,
        addPTO st from to note
        = Ok (Saved (set_ptoRanges st (ptoRanges st ++ [r])))
        /\ pto_from r = VStr from /\ pto_to r = VStr to
        /\ pto_hours r = Val (float_of_Z (weekdays_in nf nt * 8))
        /\ forall (target : value) (nT : Z),
             denotes target nT ->
             exists before,
               ptoHoursUpTo st target = Ok before
               /\ (nt <= nT ->
                   ptoHoursUpTo (set_ptoRanges st (ptoRanges st ++ [r])) target
                   = Ok (before + weekdays_in nf nt * 8))
               /\ (nT < nf ->
                   ptoHoursUpTo (set_ptoRanges st (ptoRanges st ++ [r])) target
                   = Ok before)).
Proof.
  intros Hf Ht Hrs.
  assert (Hrun : addPTO st from to note
                 = if nt <? nf then Ok (Alerted ToBeforeFrom)
                   else Ok (Saved (set_ptoRanges st
                          (ptoRanges st
                           ++ [mkPtoRange (VStr from) (VStr to)
                                 (Val (float_of_Z (weekdays_in nf nt * 8)))
                                 (trim note)])))).
  { unfold addPTO.
    rewrite (eqb_empty _ (denotes_nonempty _ _ Hf)),
            (eqb_empty _ (denotes_nonempty _ _ Ht)). cbn [orb].
    rewrite (proj1 Hf), (proj1 Ht). cbn [bind]. rewrite date_lt_day.
    destruct (nt <? nf); [reflexivity|].
    rewrite (weekdaysBetweenInclusive_denotes _ _ nf nt
               (denotes_day_date _ (proj2 Hf)) (denotes_day_date _ (proj2 Ht))).
    reflexivity. }
  split.
  - intros Hlt. rewrite Hrun. destruct (Z.ltb_spec nt nf); [reflexivity|lia].
  - intros Hle. eexists. split.
    { rewrite Hrun. destruct (Z.ltb_spec nt nf); [lia|reflexivity]. }
    split; [reflexivity|]. split; [reflexivity|]. split; [reflexivity|].
    intros target nT HT. exists (leave_hours weekday spans nT).
    split; [apply (ptoHoursUpTo_denotes _ _ _ _ HT Hrs)|].
    pose proof (ranges_denote_app _ _
                  (mkPtoRange (VStr from) (VStr to)
                     (Val (float_of_Z (weekdays_in nf nt * 8))) (trim note))
                  nf nt Hrs Hf Ht) as Hrs'.
    destruct (leave_hours_single weekday nf nt nT) as [Hall Hnone].
    split; intros HnT.
    + rewrite (ptoHoursUpTo_denotes (set_ptoRanges st _) _ nT _ HT Hrs').
      rewrite leave_hours_app, (Hall HnT). reflexivity.
    + rewrite (ptoHoursUpTo_denotes (set_ptoRanges st _) _ nT _ HT Hrs').
      rewrite leave_hours_app, (Hnone HnT). f_equal. lia.
Qed.

Lemma addPTO_stores_deducted_hours_witness :
  denotes (VStr "2026-01-05") 20458
  /\ denotes (VStr "2026-01-09") 20462
  /\ ranges_denote (ptoRanges DEFAULTS) []
  /\ 20458 <= 20462
  /\ (exists r,
        addPTO DEFAULTS "2026-01-05" "2026-01-09" " ski "
        = Ok (Saved (set_ptoRanges DEFAULTS (ptoRanges DEFAULTS ++ [r])))
        /\ pto_hours r = Val (float_of_Z (weekdays_in 20458 20462 * 8)))
  /\ 20458 < 20462
  /\ addPTO DEFAULTS "2026-01-09" "2026-01-05" " ski "
     = Ok (Alerted ToBeforeFrom).
Proof.
  assert (H1 : denotes (VStr "2026-01-05") 20458) by denotes_by_eval.
  assert (H2 : denotes (VStr "2026-01-09") 20462) by denotes_by_eval.
  assert (H3 : ranges_denote (ptoRanges DEFAULTS) []) by constructor.
  assert (H4 : 20458 <= 20462) by lia.
  assert (H5 : 20458 < 20462) by lia.
  split; [exact H1|]. split; [exact H2|]. split; [exact H3|]. split; [exact H4|].
  split.
  - destruct (proj2 (addPTO_stores_deducted_hours DEFAULTS _ _ " ski " _ _ _
                       H1 H2 H3) H4) as (r & Hr & _ & _ & Hh & _).
    exists r. split; [exact Hr|exact Hh].
  - split; [exact H5|].
    exact (proj1 (addPTO_stores_deducted_hours DEFAULTS _ _ " ski " _ _ _
                    H2 H1 H3) H5).
Defined.

(** X19.  The Add button checks only that the two date fields are filled
    in: with a text that is not a date in one of them, nothing is stored
    and no message is shown, the handler throws a RangeError. *)
Theorem addPTO_unparseable_throws (st : State) (from to note : string) :
  from <> EmptyString -> to <> EmptyString ->
  (unparseable from = true -> addPTO st from to note = Throw RangeError)
  /\ (forall nf, denotes (VStr from) nf -> unparseable to = true ->
        addPTO st from to note = Throw RangeError).
Proof.
  intros Hf Ht. unfold addPTO.
  rewrite (eqb_empty _ Hf), (eqb_empty _ Ht). cbn [orb]. split.
  - intros Hu. rewrite (unparseable_NaN _ Hf Hu).
    destruct (toDateOnlyUTC_total (VStr to)) as (t & ->). cbn [bind].
    replace (date_lt t (Date NaN)) with false
      by (destruct t as [|[| |]]; reflexivity).
    reflexivity.
  - intros nf Hd Hu. rewrite (proj1 Hd), (unparseable_NaN _ Ht Hu). cbn [bind].
    unfold weekdaysBetweenInclusive.
    rewrite (clampDate_day_date _ (proj2 Hd)). reflexivity.
Qed.

Lemma addPTO_unparseable_throws_witness :
  ("tomorrow" : string) <> EmptyString
  /\ ("2026-01-09" : string) <> EmptyString
  /\ unparseable "tomorrow" = true
  /\ denotes (VStr "2026-01-09") 20462
  /\ addPTO DEFAULTS "tomorrow" "2026-01-09" EmptyString = Throw RangeError
  /\ addPTO DEFAULTS "2026-01-09" "tomorrow" EmptyString = Throw RangeError.
Proof.
  assert (H1 : ("tomorrow" : string) <> EmptyString) by discriminate.
  assert (H2 : ("2026-01-09" : string) <> EmptyString) by discriminate.
  assert (H3 : unparseable "tomorrow" = true) by (vm_compute; reflexivity).
  assert (H4 : denotes (VStr "2026-01-09") 20462) by denotes_by_eval.
  split; [exact H1|]. split; [exact H2|]. split; [exact H3|]. split; [exact H4|].
  split.
  - exact (proj1 (addPTO_unparseable_throws DEFAULTS _ _ EmptyString H1 H2) H3).
  - exact (proj2 (addPTO_unparseable_throws DEFAULTS _ _ EmptyString H2 H1)
             _ H4 H3).
Defined.

(** *** The split chart *)

Lemma point_ok_unique (st : State) (t t' i i' : Z) (p p' : Point) :
  point_ok st t i p -> point_ok st t' i' p' ->
  t + i * msPerDay = t' + i' * msPerDay -> p = p'.
Proof.
  intros (Hd & _ & _ & _ & Hy) (Hd' & _ & _ & _ & Hy') E.
  destruct p as [d y], p' as [d' y']. cbn in *.
  rewrite E in Hd. subst d d'. rewrite Hy in Hy'. congruence.
Qed.

(** X20.  The two charts of the split view make up the chart of the year:
    the first half covers days 0 to 182 from today and the second half
    days 182 to 365, the day in the middle appears in both with the same
    balance, and the first series followed by the second without its
    first entry is the series of the year view. *)
Theorem forecast_split_joins (st : State) (n nf : Z) (spans : list (Z * Z)) :
  supported_day n -> supported_day (n + 365) ->
  denotes (firstPayday st) nf -> ranges_denote (ptoRanges st) spans ->
  exists s1 s2 s,
    drawForecastSplit st (day_date n) = Ok (s1, s2)
    /\ drawForecastYear st (day_date n) = Ok s
    /\ List.length s1 = 183%nat /\ List.length s2 = 184%nat
    /\ List.length s = 366%nat
    /\ s = s1 ++ tl s2
    /\ nth_error s1 182 = nth_error s2 0.
Proof.
  intros Hn Hn' Hf Hrs.
  assert (Hmid : supported_day (n + 182)) by (unfold supported_day in *; lia).
  assert (HD : forall k, Day (k * msPerDay) = k) by apply Day_mul.
  destruct (forecastSeries_denotes st (n * msPerDay) 182 nf spans)
    as (s1 & Hs1 & Hl1 & Hp1); try assumption; rewrite ?HD; try assumption; [lia|].
  destruct (forecastSeries_denotes st ((n + 182) * msPerDay) 183 nf spans)
    as (s2 & Hs2 & Hl2 & Hp2); try assumption; rewrite ?HD; try assumption; [lia| |].
  { replace (n + 182 + 183) with (n + 365) by lia. exact Hn'. }
  destruct (forecastSeries_denotes st (n * msPerDay) 365 nf spans)
    as (s & Hs & Hl & Hp); try assumption; rewrite ?HD; try assumption; [lia|].
  exists s1, s2, s. unfold drawForecastSplit, drawForecastYear.
  rewrite addDays_day by (apply supported_1e8 in Hmid; lia). cbn [bind].
  unfold day_date in *. change (365 - 182) with 183.
  rewrite Hs1, Hs2, Hs. cbn [bind].
  split; [reflexivity|]. split; [reflexivity|].
  split; [lia|]. split; [lia|]. split; [lia|].
  assert (Hjoin : forall i : nat, nth_error s i = nth_error (s1 ++ tl s2) i).
  { intros i. destruct (Nat.lt_ge_cases i 183) as [Hi|Hi].
    - rewrite nth_error_app1 by lia.
      destruct (Hp (Z.of_nat i) ltac:(lia)) as (pt & Hpt & Hok).
      destruct (Hp1 (Z.of_nat i) ltac:(lia)) as (pt1 & Hpt1 & Hok1).
      rewrite Nat2Z.id in Hpt, Hpt1. rewrite Hpt, Hpt1. f_equal.
      apply (point_ok_unique _ _ _ _ _ _ _ Hok Hok1). reflexivity.
    - rewrite nth_error_app2 by lia.
      replace (List.length s1) with 183%nat by lia.
      destruct s2 as [|p0 s2]; [cbn in Hl2; lia|]. cbn [tl].
      destruct (Nat.lt_ge_cases i 366) as [Hi'|Hi'].
      + destruct (Hp (Z.of_nat i) ltac:(lia)) as (pt & Hpt & Hok).
        destruct (Hp2 (Z.of_nat i - 182) ltac:(lia)) as (pt2 & Hpt2 & Hok2).
        rewrite Nat2Z.id in Hpt.
        replace (Z.to_nat (Z.of_nat i - 182)) with (S (i - 183)) in Hpt2 by lia.
        cbn [nth_error] in Hpt2. rewrite Hpt, Hpt2. f_equal.
        apply (point_ok_unique _ _ _ _ _ _ _ Hok Hok2).
        unfold msPerDay. lia.
      + cbn [List.length] in Hl2.
        rewrite (proj2 (nth_error_None s i)) by lia.
        rewrite (proj2 (nth_error_None s2 (i - 183))) by lia. reflexivity. }
  split.
  - apply nth_error_ext, Hjoin.
  - destruct (Hp1 182 ltac:(lia)) as (pt1 & Hpt1 & Hok1).
    destruct (Hp2 0 ltac:(lia)) as (pt2 & Hpt2 & Hok2).
    change (Z.to_nat 182) with 182%nat in Hpt1.
    change (Z.to_nat 0) with 0%nat in Hpt2.
    rewrite Hpt1, Hpt2. f_equal.
    apply (point_ok_unique _ _ _ _ _ _ _ Hok1 Hok2). unfold msPerDay. lia.
Qed.

Lemma forecast_split_joins_witness :
  supported_day 20454 /\ supported_day (20454 + 365)
  /\ denotes (firstPayday DEFAULTS) 20461
  /\ ranges_denote (ptoRanges DEFAULTS) []
  /\ exists s1 s2 s,
       drawForecastSplit DEFAULTS (day_date 20454) = Ok (s1, s2)
       /\ drawForecastYear DEFAULTS (day_date 20454) = Ok s
       /\ s = s1 ++ tl s2.
Proof.
  assert (H1 : supported_day 20454) by (apply supported_iff; lia).
  assert (H2 : supported_day (20454 + 365)) by (apply supported_iff; lia).
  assert (H3 : denotes (firstPayday DEFAULTS) 20461) by denotes_by_eval.
  assert (H4 : ranges_denote (ptoRanges DEFAULTS) []) by constructor.
  split; [exact H1|]. split; [exact H2|]. split; [exact H3|]. split; [exact H4|].
  destruct (forecast_split_joins DEFAULTS _ _ _ H1 H2 H3 H4)
    as (s1 & s2 & s & Hsplit & Hyear & _ & _ & _ & Hjoin & _).
  exists s1, s2, s. split; [exact Hsplit|]. split; [exact Hyear|exact Hjoin].
Defined.

(** *** Payday labels *)

Lemma getPaydaysBetween_run (start endDate first : value) (ns ne nf p : Z) :
  denotes start ns -> denotes endDate ne -> denotes first nf ->
  ns <= ne -> 0 < p ->
  exists (n : nat) (q0 : Z),
    (forall extra,
        getPaydaysBetween (S n + extra) start endDate first (Int p)
        = Some (Ok (map day_date (payday_run n q0 p))))
    /\ (forall x, In x (payday_run n q0 p)
                  <-> exists k, 0 <= k /\ x = nf + k * p /\ ns <= x <= ne).
Proof.
  intros Hs He Hf Hse Hp.
  destruct (next_payday_spec ns nf p Hp) as (s & Hs0 & Hq & Hns & Hmin).
  set (q0 := next_payday ns nf p) in *.
  set (n := if q0 <=? ne then Z.to_nat ((ne - q0) / p + 1) else O).
  assert (Hn1 : q0 <= ne -> Z.of_nat n = (ne - q0) / p + 1).
  { intros H. unfold n. destruct (Z.leb_spec q0 ne); [|lia].
    pose proof (Z.div_pos (ne - q0) p ltac:(lia) Hp). lia. }
  assert (Hn0 : ne < q0 -> n = O).
  { intros H. unfold n. destruct (Z.leb_spec q0 ne); [lia|reflexivity]. }
  assert (Hq0 : first_day <= q0).
  { destruct Hs as [_ Hs]. unfold supported_day in Hs. lia. }
  exists n, q0. split.
  - intros extra. unfold getPaydaysBetween.
    rewrite (clampDate_denotes _ _ Hs), (clampDate_denotes _ _ He).
    rewrite (nextPaydayOnOrAfter_denotes _ _ ns nf p
               (denotes_day_date _ (proj2 Hs)) Hf Hp).
    fold q0. rewrite (paydays_loop_run n); try assumption; try lia.
    + reflexivity.
    + apply He.
  - intros x. rewrite payday_run_In. split.
    + intros (j & Hj & ->).
      destruct (Z.le_gt_cases q0 ne) as [Hqe|Hqe]; [|rewrite (Hn0 Hqe) in Hj; lia].
      specialize (Hn1 Hqe).
      assert (j <= (ne - q0) / p) by lia.
      pose proof (Z.mul_div_le (ne - q0) p Hp).
      exists (s + j). repeat split; nia.
    + intros (k & Hk & -> & Hx1 & Hx2).
      specialize (Hmin k Hk Hx1).
      assert (Hqe : q0 <= ne) by nia.
      specialize (Hn1 Hqe).
      exists (k - s). split; [|nia].
      assert (k - s <= (ne - q0) / p).
      { apply Z.div_le_lower_bound; [exact Hp|nia]. }
      lia.
Qed.

Lemma label_loop_spec (n days : Z) (series : list Point) :
  supported_day n -> supported_day (n + days) ->
  Z.of_nat (List.length series) = days + 1 ->
  forall (xs : list Z) (marks : list (Z * Point)),
    Forall (fun x => n <= x <= n + days) xs ->
    label_loop (day_date n) series (map day_date xs) marks
    = Ok (marks
          ++ flat_map (fun x =>
                         match nth_error series (Z.to_nat (x - n)) with
                         | Some pt => [(x - n, pt)]
                         | None => []
                         end) xs).
Proof.
  intros Hn Hn' Hlen xs. induction xs as [|x xs IH]; intros marks Hxs.
  - cbn. rewrite app_nil_r. reflexivity.
  - apply Forall_cons in Hxs as [Hx Hxs].
    assert (Hsx : supported_day x) by (unfold supported_day in *; lia).
    cbn [map label_loop flat_map].
    rewrite (daysBetween_denotes _ _ n x
               (denotes_day_date _ Hn) (denotes_day_date _ Hsx)).
    cbn [bind num_lt num_ge num_le].
    destruct (Z.ltb_spec (x - n) 0); [lia|].
    destruct (Z.leb_spec (Z.of_nat (List.length series)) (x - n)); [lia|].
    cbn [orb].
    destruct (nth_error series (Z.to_nat (x - n))) as [pt|] eqn:E.
    + rewrite IH by exact Hxs. rewrite <- app_assoc. reflexivity.
    + apply nth_error_None in E. lia.
Qed.

(** X21.  The payday labels of a forecast chart: for a positive period,
    [labelPaydays] marks exactly the days of the series that are paydays
    of the schedule, each one on the entry of the series for that day,
    whose value is the balance on that payday; the test on the index
    never skips a payday. *)
Theorem labelPaydays_marks_the_paydays (st : State) (n days nf p : Z)
    (spans : list (Z * Z)) (series : list Point) :
  supported_day n -> supported_day (n + days) -> 0 <= days ->
  denotes (firstPayday st) nf -> ranges_denote (ptoRanges st) spans ->
  period st = Int p -> 0 < p ->
  forecastSeries st (day_date n) days = Ok series ->
  exists (fuel : nat) (marks : list (Z * Point)),
    (forall extra,
        labelPaydays (fuel + extra) st true (day_date n) series
        = Some (Ok marks))
    /\ (forall i pt,
           In (i, pt) marks
           <-> (0 <= i <= days
                /\ (exists k, 0 <= k /\ n + i = nf + k * p)
                /\ nth_error series (Z.to_nat i) = Some pt))
    /\ (forall i pt,
           In (i, pt) marks ->
           point_date pt = day_date (n + i)
           /\ getBalanceOn st (VDate (day_date (n + i))) = Ok (point_y pt)).
Proof.
  intros Hn Hn' Hdays Hf Hrs Hper Hp Hser.
  destruct (forecastSeries_denotes st (n * msPerDay) days nf spans)
    as (series' & Hs' & Hlen & Hpts); try assumption;
    rewrite ?Day_mul; try assumption.
  fold (day_date n) in Hs'. rewrite Hser in Hs'. injection Hs' as <-.
  destruct (getPaydaysBetween_run (VDate (day_date n)) (VDate (day_date (n + days)))
              (VDate (day_date nf)) n (n + days) nf p
              (denotes_day_date _ Hn) (denotes_day_date _ Hn')
              (denotes_day_date _ (proj2 Hf)) ltac:(lia) Hp)
    as (k & q0 & Hrun & Hin).
  assert (Hmarks : forall i pt,
            In (i, pt)
              (flat_map (fun x =>
                           match nth_error series (Z.to_nat (x - n)) with
                           | Some pt => [(x - n, pt)]
                           | None => []
                           end) (payday_run k q0 p))
            <-> (0 <= i <= days
                 /\ (exists j, 0 <= j /\ n + i = nf + j * p)
                 /\ nth_error series (Z.to_nat i) = Some pt)).
  { intros i pt. rewrite in_flat_map. split.
    - intros (x & Hx & Hi). apply Hin in Hx as (j & Hj & -> & Hr).
      destruct (nth_error series (Z.to_nat (nf + j * p - n))) as [pt'|] eqn:E;
        [|destruct Hi].
      destruct Hi as [[= <- <-]|[]].
      split; [lia|]. split; [|exact E]. exists j. split; [exact Hj|lia].
    - intros (Hi & (j & Hj & Hij) & Hnth). exists (n + i). split.
      + apply Hin. exists j. split; [exact Hj|]. split; [exact Hij|lia].
      + replace (n + i - n) with i by lia. rewrite Hnth. left. reflexivity. }
  exists (S k), (flat_map (fun x =>
                   match nth_error series (Z.to_nat (x - n)) with
                   | Some pt => [(x - n, pt)]
                   | None => []
                   end) (payday_run k q0 p)).
  split; [|split].
  - intros extra. unfold labelPaydays. cbn [negb].
    replace (Z.of_nat (List.length series) - 1) with days by lia.
    rewrite addDays_day by (apply supported_1e8 in Hn'; lia).
    rewrite (proj1 Hf). fold (period st). rewrite Hper, Hrun.
    rewrite (label_loop_spec n days series Hn Hn' Hlen); [reflexivity|].
    apply List.Forall_forall. intros x Hx.
    apply Hin in Hx as (j & _ & _ & Hr). exact Hr.
  - exact Hmarks.
  - intros i pt Hi. apply Hmarks in Hi as (Hi & _ & Hnth).
    destruct (Hpts i Hi) as (pt' & Hpt' & Hok).
    rewrite Hnth in Hpt'. injection Hpt' as <-.
    destruct Hok as (Hd & _ & _ & _ & Hy).
    assert (Hday : point_date pt = day_date (n + i)).
    { rewrite Hd. unfold day_date.
      replace ((n + i) * msPerDay) with (n * msPerDay + i * msPerDay) by lia.
      reflexivity. }
    split; [exact Hday|]. rewrite <- Hday. exact Hy.
Qed.

Lemma labelPaydays_marks_the_paydays_witness :
  supported_day 20454 /\ supported_day (20454 + 30) /\ 0 <= 30
  /\ denotes (firstPayday DEFAULTS) 20461
  /\ ranges_denote (ptoRanges DEFAULTS) []
  /\ period DEFAULTS = Int 14 /\ 0 < 14
  /\ exists (series : list Point) (fuel : nat) (marks : list (Z * Point)),
       forecastSeries DEFAULTS (day_date 20454) 30 = Ok series
       /\ labelPaydays (fuel + 0) DEFAULTS true (day_date 20454) series
          = Some (Ok marks)
       /\ (forall pt, nth_error series 7 = Some pt -> In (7, pt) marks).
Proof.
  assert (H1 : supported_day 20454) by (apply supported_iff; lia).
  assert (H2 : supported_day (20454 + 30)) by (apply supported_iff; lia).
  assert (H3 : 0 <= 30) by lia.
  assert (H4 : denotes (firstPayday DEFAULTS) 20461) by denotes_by_eval.
  assert (H5 : ranges_denote (ptoRanges DEFAULTS) []) by constructor.
  assert (H6 : period DEFAULTS = Int 14) by reflexivity.
  assert (H7 : 0 < 14) by lia.
  split; [exact H1|]. split; [exact H2|]. split; [exact H3|]. split; [exact H4|].
  split; [exact H5|]. split; [exact H6|]. split; [exact H7|].
  destruct (forecastSeries_denotes DEFAULTS (20454 * msPerDay) 30 20461 []
              H3 H1 H2 H4 H5) as (series & Hser & _).
  destruct (labelPaydays_marks_the_paydays DEFAULTS 20454 30 20461 14 [] series
              H1 H2 H3 H4 H5 H6 H7 Hser) as (fuel & marks & Hrun & Hin & _).
  exists series, fuel, marks. split; [exact Hser|]. split; [exact (Hrun O)|].
  intros pt Hpt. apply (Hin 7 pt). split; [lia|]. split; [|exact Hpt].
  exists 0. lia.
Defined.

(** *** The dashboard *)

Lemma ranges_supported_to (rs : list PtoRange) (spans : list (Z * Z)) :
  ranges_denote rs spans -> forall m, In m (map snd spans) -> supported_day m.
Proof.
  induction 1 as [|r s rs spans [_ Hto] _ IH]; intros m Hm; [destruct Hm|].
  destruct Hm as [<-|Hm]; [apply Hto|apply IH, Hm].
Qed.

Lemma denotes_iso_day (n : Z) :
  supported_day n -> denotes (VStr (iso_date (n * msPerDay))) n.
Proof. intros H. split; [apply toDateOnlyUTC_ymd, H|exact H]. Qed.

Lemma getBalanceOn_iso_day (st : State) (n : Z) :
  supported_day n ->
  getBalanceOn st (VStr (iso_date (n * msPerDay)))
  = getBalanceOn st (VDate (day_date n)).
Proof.
  intros H. apply getBalanceOn_ext.
  rewrite (proj1 (denotes_iso_day n H)), (proj1 (denotes_day_date n H)).
  reflexivity.
Qed.

(** X22.  The figures of the dashboard, for a state with valid dates and a
    positive period.  "Balance today" is the balance on today's date.
    "Balance after latest PTO" is the balance on the last day of leave of
    the ledger, whether that day is still to come or already past, and
    all the leave of the ledger is deducted in it; with no leave it is
    the balance today.  "Future PTO" counts the leave from today on, and
    "next payday" is the first payday on or after today. *)
Theorem renderDashboard_figures (st : State) (n nf p : Z)
    (spans : list (Z * Z)) :
  supported_day n -> denotes (firstPayday st) nf ->
  ranges_denote (ptoRanges st) spans ->
  period st = Int p -> 0 < p -> supported_day (next_payday n nf p) ->
  exists d,
    renderDashboard st (day_date n) = Ok d
    /\ todayLabel d = iso_date (n * msPerDay)
    /\ getBalanceOn st (VDate (day_date n)) = Ok (balanceToday d)
    /\ (ptoRanges st = [] -> balanceAfterLatest d = balanceToday d)
    /\ (ptoRanges st <> [] ->
        exists m,
          In m (map snd spans)
          /\ (forall x, In x (map snd spans) -> x <= m)
          /\ getBalanceOn st (VDate (day_date m)) = Ok (balanceAfterLatest d)
          /\ ptoHoursUpTo st (VDate (day_date m))
             = Ok (ledger_hours weekday spans))
    /\ futurePTO d = future_hours weekday spans n
    /\ nextPayday d = iso_date (next_payday n nf p * msPerDay).
Proof.
  intros Hn Hf Hrs Hper Hp Hnext.
  destruct (getBalanceOn_total st (VDate (day_date n)) n nf spans
              (denotes_day_date _ Hn) Hf Hrs) as (b1 & Hb1).
  assert (Hfut : totalFuturePTO st (VStr (iso_date (n * msPerDay)))
                 = Ok (future_hours weekday spans n)).
  { unfold totalFuturePTO. rewrite (proj1 (denotes_iso_day n Hn)). cbn [bind].
    rewrite (future_loop_denotes _ _ _ Hrs Hn). reflexivity. }
  assert (Hpay : nextPaydayOnOrAfter (VDate (day_date n)) (VDate (day_date nf))
                   (Int p) = Ok (day_date (next_payday n nf p))).
  { rewrite (nextPaydayOnOrAfter_denotes _ _ n nf p (denotes_day_date _ Hn)
               (denotes_day_date _ (proj2 Hf)) Hp).
    rewrite clip_supported by exact Hnext. reflexivity. }
  unfold renderDashboard.
  rewrite (ymd_day_date n Hn). cbn [bind].
  rewrite (getBalanceOn_iso_day st n Hn), Hb1. cbn [bind].
  destruct (ptoRanges st) as [|r rs] eqn:E.
  - assert (Hl : latestPTODate st = Ok Null)
      by (unfold latestPTODate; rewrite E; reflexivity).
    rewrite Hl. cbn [bind]. rewrite (ymd_day_date n Hn). cbn [bind].
    rewrite (getBalanceOn_iso_day st n Hn), Hb1. cbn [bind].
    rewrite Hfut. cbn [bind]. rewrite (proj1 Hf). cbn [bind].
    fold (period st). rewrite Hper, Hpay. cbn [bind].
    rewrite (ymd_day_date _ Hnext). cbn [bind].
    eexists. split; [reflexivity|].
    cbn [todayLabel balanceToday balanceAfterLatest futurePTO nextPayday].
    split; [reflexivity|]. split; [reflexivity|]. split; [reflexivity|].
    split; [congruence|]. split; reflexivity.
  - destruct (latestPTODate_nonempty st spans) as (m & Hm & Hmax & Hl);
      [rewrite E; exact Hrs|rewrite E; discriminate|].
    pose proof (ranges_supported_to _ _ Hrs m Hm) as Hsm.
    destruct (getBalanceOn_total st (VDate (day_date m)) m nf spans
                (denotes_day_date _ Hsm) Hf) as (b2 & Hb2);
      [rewrite E; exact Hrs|].
    rewrite Hl. cbn [bind]. unfold day_date at 1.
    fold (day_date m). rewrite (ymd_day_date m Hsm). cbn [bind].
    rewrite (getBalanceOn_iso_day st m Hsm), Hb2. cbn [bind].
    rewrite Hfut. cbn [bind]. rewrite (proj1 Hf). cbn [bind].
    fold (period st). rewrite Hper, Hpay. cbn [bind].
    rewrite (ymd_day_date _ Hnext). cbn [bind].
    eexists. split; [reflexivity|].
    cbn [todayLabel balanceToday balanceAfterLatest futurePTO nextPayday].
    split; [reflexivity|]. split; [reflexivity|]. split; [discriminate|].
    split; [|split; reflexivity].
    intros _. exists m. split; [exact Hm|]. split; [exact Hmax|].
    split; [exact Hb2|].
    rewrite (ptoHoursUpTo_denotes st _ m spans (denotes_day_date _ Hsm));
      [|rewrite E; exact Hrs].
    f_equal. apply leave_hours_all. apply List.Forall_forall.
    intros s Hs. apply Hmax, in_map, Hs.
Qed.

Lemma renderDashboard_figures_witness :
  supported_day 20513
  /\ denotes (firstPayday scenario_D) 20461
  /\ ranges_denote (ptoRanges scenario_D) [(20458, 20462)]
  /\ period scenario_D = Int 14 /\ 0 < 14
  /\ supported_day (next_payday 20513 20461 14)
  /\ ptoRanges scenario_D <> []
  /\ exists d,
       renderDashboard scenario_D (day_date 20513) = Ok d
       /\ getBalanceOn scenario_D (VDate (day_date 20462))
          = Ok (balanceAfterLatest d).
Proof.
  assert (H1 : supported_day 20513) by (apply supported_iff; lia).
  assert (H2 : denotes (firstPayday scenario_D) 20461) by denotes_by_eval.
  assert (H3 : ranges_denote (ptoRanges scenario_D) [(20458, 20462)]).
  { constructor; [split; denotes_by_eval|constructor]. }
  assert (H4 : period scenario_D = Int 14) by reflexivity.
  assert (H5 : 0 < 14) by lia.
  assert (H6 : supported_day (next_payday 20513 20461 14))
    by (apply supported_iff; vm_compute; split; discriminate).
  assert (H7 : ptoRanges scenario_D <> []) by discriminate.
  split; [exact H1|]. split; [exact H2|]. split; [exact H3|]. split; [exact H4|].
  split; [exact H5|]. split; [exact H6|]. split; [exact H7|].
  destruct (renderDashboard_figures scenario_D _ _ _ _ H1 H2 H3 H4 H5 H6)
    as (d & Hd & _ & _ & _ & Hlast & _).
  exists d. split; [exact Hd|].
  destruct (Hlast H7) as (m & Hm & _ & Hb & _).
  destruct Hm as [<-|[]]. exact Hb.
Defined.

(** *** Day-to-day changes of the balance *)

Lemma count_days_one (P : Z -> bool) (a : Z) :
  count_days P a a = if P a then 1 else 0.
Proof.
  rewrite count_days_step by lia. rewrite count_days_empty by lia. lia.
Qed.

Lemma leave_hours_quiet (P : Z -> bool) (spans : list (Z * Z)) (nt : Z) :
  P (nt + 1) = false \/ Forall (fun s => ~ fst s <= nt + 1 <= snd s) spans ->
  leave_hours P spans (nt + 1) = leave_hours P spans nt.
Proof.
  intros Hq. induction spans as [|s spans IH]; [reflexivity|].
  rewrite !leave_hours_cons. rewrite IH.
  2:{ destruct Hq as [Hq|Hq]; [left; exact Hq|].
      right. apply Forall_cons in Hq as [_ Hq]. exact Hq. }
  f_equal.
  assert (Hday : fst s <= nt + 1 <= snd s -> P (nt + 1) = false).
  { intros Hc. destruct Hq as [Hq|Hq]; [exact Hq|].
    apply Forall_cons in Hq as [Hq _]. contradiction. }
  destruct (Z.leb_spec (fst s) (nt + 1)) as [H1|H1],
           (Z.leb_spec (fst s) nt) as [H2|H2]; try lia.
  - destruct (Z.le_gt_cases (snd s) nt) as [Hb|Hb].
    + rewrite !Z.min_l by lia. reflexivity.
    + rewrite !Z.min_r by lia.
      pose proof (Hday ltac:(lia)) as HP.
      rewrite (count_days_split P (fst s) nt (nt + 1)) by lia.
      rewrite count_days_one, HP. lia.
  - assert (E : fst s = nt + 1) by lia.
    destruct (Z.le_gt_cases (nt + 1) (snd s)) as [Hb|Hb].
    + pose proof (Hday ltac:(lia)) as HP.
      rewrite Z.min_r by lia. rewrite E, count_days_one, HP. reflexivity.
    + rewrite count_days_empty by lia. reflexivity.
Qed.

Lemma credit_filter_quiet (cs : list Credit) (nt : Z) :
  Forall (fun c => exists n, denotes (credit_date c) n /\ n <> nt + 1) cs ->
  List.filter (credit_due (day_date (nt + 1))) cs
  = List.filter (credit_due (day_date nt)) cs.
Proof.
  intros Hcs. apply List.filter_ext_in. intros c Hc.
  rewrite List.Forall_forall in Hcs. destruct (Hcs c Hc) as (n & Hn & Hne).
  rewrite !(credit_due_denotes c n) by exact Hn.
  destruct (Z.leb_spec n (nt + 1)), (Z.leb_spec n nt); try reflexivity; lia.
Qed.

(** X28.  The balance changes only on days on which something happens:
    from one day to the next it stays the same when the next day is not a
    payday, is not a weekday of any leave range, and is not the date of a
    credit. *)
Theorem balance_constant_on_quiet_day (st : State) (t t' : value)
    (nt nf p : Z) (spans : list (Z * Z)) :
  denotes t nt -> denotes t' (nt + 1) ->
  denotes (firstPayday st) nf -> ranges_denote (ptoRanges st) spans ->
  period st = Int p -> 0 < p ->
  nt + 1 < nf \/ (nt + 1 - nf) mod p <> 0 ->
  weekday (nt + 1) = false
  \/ Forall (fun s => ~ fst s <= nt + 1 <= snd s) spans ->
  Forall (fun c => exists n, denotes (credit_date c) n /\ n <> nt + 1)
    (credits st) ->
  getBalanceOn st t' = getBalanceOn st t.
Proof.
  intros Ht Ht' Hf Hrs Hper Hp Hpay Hleave Hcr.
  unfold getBalanceOn.
  rewrite (ptoHoursUpTo_denotes _ _ _ _ Ht Hrs),
    (ptoHoursUpTo_denotes _ _ _ _ Ht' Hrs).
  unfold creditHoursUpTo.
  rewrite (proj1 Ht), (proj1 Ht'), (proj1 Hf). cbn [bind].
  rewrite !credit_loop_fold, !date_ge_day.
  rewrite (countPaydays_denotes _ _ nf nt _
             (denotes_day_date _ (proj2 Hf)) (denotes_day_date _ (proj2 Ht))).
  rewrite (countPaydays_denotes _ _ nf (nt + 1) _
             (denotes_day_date _ (proj2 Hf)) (denotes_day_date _ (proj2 Ht'))).
  fold (period st). rewrite Hper.
  rewrite (leave_hours_quiet weekday spans nt Hleave).
  rewrite (credit_filter_quiet _ _ Hcr).
  destruct (Z.leb_spec nf (nt + 1)) as [H1|H1], (Z.leb_spec nf nt) as [H2|H2];
    try lia.
  - destruct (Z.ltb_spec (nt + 1) nf), (Z.ltb_spec nt nf); try lia.
    cbn [num_floor_div]. destruct (Z.eqb_spec p 0); [lia|].
    replace ((nt + 1 - nf) / p) with ((nt - nf) / p); [reflexivity|].
    destruct Hpay as [Hpay|Hpay]; [lia|].
    revert Hpay. Z.div_mod_to_equations. nia.
  - exfalso. destruct Hpay as [Hpay|Hpay]; [lia|].
    apply Hpay. replace (nt + 1 - nf) with 0 by lia. apply Z.mod_0_l. lia.
  - reflexivity.
Qed.

Lemma balance_constant_on_quiet_day_witness :
  denotes (VStr "2026-01-09") 20462
  /\ denotes (VStr "2026-01-10") (20462 + 1)
  /\ denotes (firstPayday scenario_D) 20461
  /\ ranges_denote (ptoRanges scenario_D) [(20458, 20462)]
  /\ period scenario_D = Int 14 /\ 0 < 14
  /\ (20462 + 1 - 20461) mod 14 <> 0
  /\ weekday (20462 + 1) = false
  /\ getBalanceOn scenario_D (VStr "2026-01-10")
     = getBalanceOn scenario_D (VStr "2026-01-09").
Proof.
  assert (H1 : denotes (VStr "2026-01-09") 20462) by denotes_by_eval.
  assert (H2 : denotes (VStr "2026-01-10") (20462 + 1)) by denotes_by_eval.
  assert (H3 : denotes (firstPayday scenario_D) 20461) by denotes_by_eval.
  assert (H4 : ranges_denote (ptoRanges scenario_D) [(20458, 20462)]).
  { constructor; [split; denotes_by_eval|constructor]. }
  assert (H5 : period scenario_D = Int 14) by reflexivity.
  assert (H6 : 0 < 14) by lia.
  assert (H7 : (20462 + 1 - 20461) mod 14 <> 0) by (vm_compute; discriminate).
  assert (H8 : weekday (20462 + 1) = false) by (vm_compute; reflexivity).
  split; [exact H1|]. split; [exact H2|]. split; [exact H3|]. split; [exact H4|].
  split; [exact H5|]. split; [exact H6|]. split; [exact H7|]. split; [exact H8|].
  apply (balance_constant_on_quiet_day scenario_D _ _ _ _ _ _ H1 H2 H3 H4 H5 H6
           (or_intror H7) (or_introl H8)).
  constructor.
Defined.

Lemma leave_hours_next_day (P : Z -> bool) (spans : list (Z * Z)) (nt : Z) :
  leave_hours P spans (nt + 1)
  = leave_hours P spans nt
    + (if P (nt + 1)
       then 8 * Z.of_nat (List.length (List.filter (covers (nt + 1)) spans))
       else 0).
Proof.
  induction spans as [|s spans IH].
  - cbn. destruct (P (nt + 1)); reflexivity.
  - rewrite !leave_hours_cons, IH. cbn [List.filter].
    change (covers (nt + 1) s) with ((fst s <=? nt + 1) && (nt + 1 <=? snd s)).
    destruct (Z.leb_spec (fst s) (nt + 1)) as [H1|H1],
             (Z.leb_spec (fst s) nt) as [H2|H2]; try lia; cbn [andb].
    + destruct (Z.leb_spec (nt + 1) (snd s)) as [Hb|Hb].
      * rewrite !Z.min_r by lia.
        rewrite (count_days_split P (fst s) nt (nt + 1)) by lia.
        rewrite count_days_one. cbn [List.length].
        destruct (P (nt + 1)); lia.
      * rewrite !Z.min_l by lia. destruct (P (nt + 1)); lia.
    + assert (E : fst s = nt + 1) by lia.
      destruct (Z.leb_spec (nt + 1) (snd s)) as [Hb|Hb].
      * rewrite Z.min_r by lia. rewrite E, count_days_one. cbn [List.length].
        destruct (P (nt + 1)); lia.
      * rewrite count_days_empty by lia. destruct (P (nt + 1)); lia.
    + destruct (P (nt + 1)); lia.
Qed.

(** X29.  What one more day adds to the leave deducted: 8 hours for every
    range of the ledger that contains the day, when the day is a weekday,
    and nothing on a weekend.  Ranges that overlap are not merged: a
    weekday that lies in two ranges is deducted twice. *)
Theorem leave_deducted_per_covering_range (st : State) (t t' : value) (nt : Z)
    (spans : list (Z * Z)) :
  denotes t nt -> denotes t' (nt + 1) -> ranges_denote (ptoRanges st) spans ->
  exists h,
    ptoHoursUpTo st t = Ok h
    /\ ptoHoursUpTo st t'
       = Ok (h + (if weekday (nt + 1)
                  then 8 * Z.of_nat (List.length
                                       (List.filter (covers (nt + 1)) spans))
                  else 0)).
Proof.
  intros Ht Ht' Hrs. exists (leave_hours weekday spans nt).
  rewrite (ptoHoursUpTo_denotes _ _ _ _ Ht Hrs),
    (ptoHoursUpTo_denotes _ _ _ _ Ht' Hrs).
  split; [reflexivity|]. f_equal. apply leave_hours_next_day.
Qed.

Lemma leave_deducted_per_covering_range_witness :
  denotes (VStr "2026-01-06") 20459
  /\ denotes (VStr "2026-01-07") (20459 + 1)
  /\ ranges_denote (ptoRanges overlapping) [(20458, 20462); (20460, 20466)]
  /\ exists h,
       ptoHoursUpTo overlapping (VStr "2026-01-06") = Ok h
       /\ ptoHoursUpTo overlapping (VStr "2026-01-07") = Ok (h + 16).
Proof.
  assert (H1 : denotes (VStr "2026-01-06") 20459) by denotes_by_eval.
  assert (H2 : denotes (VStr "2026-01-07") (20459 + 1)) by denotes_by_eval.
  assert (H3 : ranges_denote (ptoRanges overlapping)
                 [(20458, 20462); (20460, 20466)]).
  { constructor; [split; denotes_by_eval|].
    constructor; [split; denotes_by_eval|]. constructor. }
  split; [exact H1|]. split; [exact H2|]. split; [exact H3|].
  destruct (leave_deducted_per_covering_range _ _ _ _ _ H1 H2 H3)
    as (h & Hh & Hh').
  exists h. split; [exact Hh|exact Hh'].
Defined.

End PlannerLaws.

(* ================================================================== *)
(** * Further properties of the second revision                        *)
(* ================================================================== *)

Module HolidayLaws.
Import JS Spec HolidaySpec JSFacts PlannerFacts HolidayPlannerFacts HolidayPlanner.

(** *** Holiday rules *)

Lemma civil_day_bounds (y m d : Z) :
  -200001 <= y <= 200001 -> 0 <= m <= 12 -> -40 <= d <= 40 ->
  -80000000 <= civil_day y m d <= 80000000.
Proof.
  intros Hy Hm Hd.
  destruct (MakeDay_bounds y m d Hy Hm Hd) as (n & E & Hn).
  unfold MakeDay in E. injection E as <-. exact Hn.
Qed.

Lemma Date_UTC_civil_day (y m d : Z) :
  100 <= y <= 200000 -> 0 <= m <= 12 -> -40 <= d <= 40 ->
  new_Date (Date_UTC (Int y) (Int m) (Int d)) = day_date (civil_day y m d).
Proof.
  intros Hy Hm Hd. unfold Date_UTC.
  destruct (Z.leb_spec 0 y), (Z.leb_spec y 99); try lia. cbn [andb].
  pose proof (civil_day_bounds y m d ltac:(lia) Hm Hd) as Hn.
  change (MakeDay (Int y) (Int m) (Int d)) with (Int (civil_day y m d)).
  cbn [MakeDate]. rewrite Z.add_0_r.
  unfold new_Date. rewrite <- (new_Date_day (civil_day y m d)) by lia.
  unfold new_Date. f_equal.
  unfold TimeClip at 2, msPerDay.
  destruct (Z.leb_spec (Z.abs (civil_day y m d * 86400000)) 8640000000000000);
    [reflexivity|lia].
Qed.

Lemma civil_day_add (y m d k : Z) : civil_day y m (d + k) = civil_day y m d + k.
Proof. unfold civil_day. lia. Qed.

Lemma observedFixed_day (y m d : Z) :
  100 <= y <= 200000 -> 0 <= m <= 11 -> 1 <= d <= 31 ->
  observedFixed y m d = Ok (day_date (observed (civil_day y m d))).
Proof.
  intros Hy Hm Hd. unfold observedFixed, observed.
  rewrite (Date_UTC_civil_day y m d), (Date_UTC_civil_day y m (d + 1)),
    (Date_UTC_civil_day y m (d - 1)) by lia.
  rewrite getUTCDay_day. cbn [bind num_eqb].
  replace (civil_day y m (d - 1)) with (civil_day y m d - 1)
    by (unfold civil_day; lia).
  rewrite civil_day_add.
  destruct (weekday_of (civil_day y m d) =? 0); [reflexivity|].
  destruct (weekday_of (civil_day y m d) =? 6); reflexivity.
Qed.

Lemma observed_weekday (c : Z) :
  is_weekend (observed c) = false /\ c - 1 <= observed c <= c + 1.
Proof.
  unfold observed, is_weekend.
  pose proof (weekday_of_range c) as Hr.
  pose proof (PlannerLaws.weekday_of_add c 1) as H1.
  pose proof (PlannerLaws.weekday_of_add c (-1)) as H2.
  destruct (Z.eqb_spec (weekday_of c) 0) as [E0|E0].
  - rewrite H1, E0. split; [reflexivity|lia].
  - destruct (Z.eqb_spec (weekday_of c) 6) as [E6|E6].
    + replace (c - 1) with (c + -1) by lia. rewrite H2, E6.
      split; [reflexivity|lia].
    + destruct (Z.eqb_spec (weekday_of c) 0); [lia|].
      destruct (Z.eqb_spec (weekday_of c) 6); [lia|].
      split; [reflexivity|lia].
Qed.

(** X23.  A holiday on a fixed date is observed on a weekday: on the date
    itself from Monday to Friday, on the Friday before when the date is a
    Saturday, on the Monday after when it is a Sunday. *)
Theorem observedFixed_on_a_weekday (y m d : Z) :
  100 <= y <= 200000 -> 0 <= m <= 11 -> 1 <= d <= 31 ->
  exists n,
    observedFixed y m d = Ok (day_date n)
    /\ is_weekend n = false
    /\ civil_day y m d - 1 <= n <= civil_day y m d + 1
    /\ (is_weekend (civil_day y m d) = false -> n = civil_day y m d)
    /\ (weekday_of (civil_day y m d) = 6 ->
        n = civil_day y m d - 1 /\ weekday_of n = 5)
    /\ (weekday_of (civil_day y m d) = 0 ->
        n = civil_day y m d + 1 /\ weekday_of n = 1).
Proof.
  intros Hy Hm Hd. exists (observed (civil_day y m d)).
  split; [apply observedFixed_day; assumption|].
  destruct (observed_weekday (civil_day y m d)) as [Hw Hb].
  split; [exact Hw|]. split; [exact Hb|].
  set (c := civil_day y m d) in *.
  pose proof (PlannerLaws.weekday_of_add c 1) as H1.
  pose proof (PlannerLaws.weekday_of_add c (-1)) as H2.
  unfold observed, is_weekend. split; [|split].
  - intros Hwk. apply orb_false_iff in Hwk as [-> ->]. reflexivity.
  - intros E. rewrite E. cbn [Z.eqb Pos.eqb]. split; [reflexivity|].
    replace (c - 1) with (c + -1) by lia. rewrite H2, E. reflexivity.
  - intros E. rewrite E. cbn [Z.eqb Pos.eqb]. split; [reflexivity|].
    rewrite H1, E. reflexivity.
Qed.

Lemma observedFixed_on_a_weekday_witness :
  100 <= 2026 <= 200000 /\ 0 <= 6 <= 11 /\ 1 <= 4 <= 31
  /\ weekday_of (civil_day 2026 6 4) = 6
  /\ observedFixed 2026 6 4 = Ok (day_date (civil_day 2026 6 4 - 1)).
Proof.
  assert (H1 : 100 <= 2026 <= 200000) by lia.
  assert (H2 : 0 <= 6 <= 11) by lia.
  assert (H3 : 1 <= 4 <= 31) by lia.
  assert (H4 : weekday_of (civil_day 2026 6 4) = 6) by (vm_compute; reflexivity).
  split; [exact H1|]. split; [exact H2|]. split; [exact H3|]. split; [exact H4|].
  destruct (observedFixed_on_a_weekday 2026 6 4 H1 H2 H3)
    as (n & Hn & _ & _ & _ & Hsat & _).
  rewrite Hn, (proj1 (Hsat H4)). reflexivity.
Defined.

Lemma nthWeekdayOfMonth_day (y m wd k : Z) :
  100 <= y <= 200000 -> 0 <= m <= 11 -> 0 <= wd <= 6 -> 1 <= k <= 5 ->
  nthWeekdayOfMonth y m wd k
  = Ok (day_date (nth_weekday (civil_day y m 1) wd k)).
Proof.
  intros Hy Hm Hwd Hk. unfold nthWeekdayOfMonth, nth_weekday.
  rewrite (Date_UTC_civil_day y m 1) by lia.
  rewrite getUTCDay_day. cbn [bind num_sub num_opp num_add num_rem].
  change (7 =? 0) with false. cbv iota.
  set (f := civil_day y m 1).
  pose proof (weekday_of_range f) as Hw.
  pose proof (Z.rem_bound_pos (7 + wd + - weekday_of f) 7 ltac:(lia) ltac:(lia)) as Hrem.
  unfold num_add.
  rewrite (Date_UTC_civil_day y m) by lia.
  replace (1 + Z.rem (7 + wd + - weekday_of f) 7 + 7 * (k - 1))
    with (1 + (Z.rem (7 + wd + - weekday_of f) 7 + 7 * (k - 1))) by lia.
  rewrite civil_day_add. fold f.
  rewrite Z.rem_mod_nonneg by lia.
  replace (7 + wd + - weekday_of f) with (7 + wd - weekday_of f) by lia.
  do 2 f_equal. lia.
Qed.

Lemma nth_weekday_spec (f wd k : Z) :
  0 <= wd <= 6 ->
  weekday_of (nth_weekday f wd k) = wd
  /\ f + 7 * (k - 1) <= nth_weekday f wd k <= f + 7 * k - 1.
Proof.
  intros Hwd. unfold nth_weekday.
  pose proof (weekday_of_range f) as Hw.
  pose proof (Z.mod_pos_bound (7 + wd - weekday_of f) 7 ltac:(lia)) as Hm.
  split; [|lia].
  replace (f + (7 + wd - weekday_of f) mod 7 + 7 * (k - 1))
    with (f + ((7 + wd - weekday_of f) mod 7 + 7 * (k - 1))) by lia.
  rewrite PlannerLaws.weekday_of_add.
  revert Hw Hm. generalize (weekday_of f). intros w Hw Hm.
  Z.div_mod_to_equations. lia.
Qed.

Lemma same_weekday_in_week (a b : Z) :
  weekday_of a = weekday_of b -> -7 < a - b < 7 -> a = b.
Proof.
  unfold weekday_of. intros E Hd. Z.div_mod_to_equations. lia.
Qed.

(** X24.  [nthWeekdayOfMonth] returns the [k]-th day of the month that
    falls on the given day of the week: the one day of that weekday among
    the days [7(k-1)+1] to [7k] of the month. *)
Theorem nthWeekdayOfMonth_is_the_nth (y m wd k : Z) :
  100 <= y <= 200000 -> 0 <= m <= 11 -> 0 <= wd <= 6 -> 1 <= k <= 5 ->
  exists n,
    nthWeekdayOfMonth y m wd k = Ok (day_date n)
    /\ weekday_of n = wd
    /\ civil_day y m 1 + 7 * (k - 1) <= n <= civil_day y m 1 + 7 * k - 1
    /\ forall n',
         weekday_of n' = wd ->
         civil_day y m 1 + 7 * (k - 1) <= n' <= civil_day y m 1 + 7 * k - 1 ->
         n' = n.
Proof.
  intros Hy Hm Hwd Hk. exists (nth_weekday (civil_day y m 1) wd k).
  split; [apply nthWeekdayOfMonth_day; assumption|].
  destruct (nth_weekday_spec (civil_day y m 1) wd k Hwd) as [Hw Hb].
  split; [exact Hw|]. split; [exact Hb|].
  intros n' Hw' Hb'. apply same_weekday_in_week; [congruence|lia].
Qed.

Lemma nthWeekdayOfMonth_is_the_nth_witness :
  100 <= 2026 <= 200000 /\ 0 <= 10 <= 11 /\ 0 <= 4 <= 6 /\ 1 <= 4 <= 5
  /\ exists n,
       nthWeekdayOfMonth 2026 10 4 4 = Ok (day_date n)
       /\ weekday_of n = 4
       /\ civil_day 2026 10 22 <= n <= civil_day 2026 10 28.
Proof.
  assert (H1 : 100 <= 2026 <= 200000) by lia.
  assert (H2 : 0 <= 10 <= 11) by lia.
  assert (H3 : 0 <= 4 <= 6) by lia.
  assert (H4 : 1 <= 4 <= 5) by lia.
  split; [exact H1|]. split; [exact H2|]. split; [exact H3|]. split; [exact H4|].
  destruct (nthWeekdayOfMonth_is_the_nth 2026 10 4 4 H1 H2 H3 H4)
    as (n & Hn & Hw & Hr & _).
  exists n. split; [exact Hn|]. split; [exact Hw|].
  unfold civil_day in *. lia.
Defined.

Lemma lastWeekdayOfMonth_day (y m wd : Z) :
  100 <= y < 200000 -> 0 <= m <= 11 -> 0 <= wd <= 6 ->
  lastWeekdayOfMonth y m wd
  = Ok (day_date (last_weekday (civil_day y (m + 1) 1 - 1) wd)).
Proof.
  intros Hy Hm Hwd. unfold lastWeekdayOfMonth, last_weekday.
  rewrite (Date_UTC_civil_day y (m + 1) 1) by lia.
  set (g := civil_day y (m + 1) 1).
  pose proof (civil_day_bounds y (m + 1) 1 ltac:(lia) ltac:(lia) ltac:(lia)) as Hg.
  fold g in Hg.
  rewrite addDays_day by lia. cbn [bind].
  rewrite getUTCDay_day. cbn [bind num_sub num_opp num_add num_rem].
  change (7 =? 0) with false. cbv iota.
  pose proof (weekday_of_range (g + -1)) as Hw.
  pose proof (Z.rem_bound_pos (7 + weekday_of (g + -1) + - wd) 7
                ltac:(lia) ltac:(lia)) as Hrem.
  unfold num_opp. rewrite addDays_day by lia.
  rewrite Z.rem_mod_nonneg by lia.
  replace (g - 1) with (g + -1) by lia.
  replace (7 + weekday_of (g + -1) + - wd)
    with (7 + weekday_of (g + -1) - wd) by lia.
  do 2 f_equal.
Qed.

Lemma last_weekday_spec (l wd : Z) :
  0 <= wd <= 6 ->
  weekday_of (last_weekday l wd) = wd /\ l - 6 <= last_weekday l wd <= l.
Proof.
  intros Hwd. unfold last_weekday.
  pose proof (weekday_of_range l) as Hw.
  pose proof (Z.mod_pos_bound (7 + weekday_of l - wd) 7 ltac:(lia)) as Hm.
  split; [|lia].
  replace (l - (7 + weekday_of l - wd) mod 7)
    with (l + - ((7 + weekday_of l - wd) mod 7)) by lia.
  rewrite PlannerLaws.weekday_of_add.
  revert Hw Hm. generalize (weekday_of l). intros w Hw Hm.
  Z.div_mod_to_equations. lia.
Qed.

(** X25.  [lastWeekdayOfMonth] returns the last day of the month that
    falls on the given day of the week: the one day of that weekday among
    the seven days before the first of the next month. *)
Theorem lastWeekdayOfMonth_is_the_last (y m wd : Z) :
  100 <= y < 200000 -> 0 <= m <= 11 -> 0 <= wd <= 6 ->
  exists n,
    lastWeekdayOfMonth y m wd = Ok (day_date n)
    /\ weekday_of n = wd
    /\ civil_day y (m + 1) 1 - 7 <= n <= civil_day y (m + 1) 1 - 1
    /\ forall n',
         weekday_of n' = wd ->
         civil_day y (m + 1) 1 - 7 <= n' <= civil_day y (m + 1) 1 - 1 ->
         n' = n.
Proof.
  intros Hy Hm Hwd. exists (last_weekday (civil_day y (m + 1) 1 - 1) wd).
  split; [apply lastWeekdayOfMonth_day; assumption|].
  destruct (last_weekday_spec (civil_day y (m + 1) 1 - 1) wd Hwd) as [Hw Hb].
  split; [exact Hw|]. split; [lia|].
  intros n' Hw' Hb'. apply same_weekday_in_week; [congruence|lia].
Qed.

Lemma lastWeekdayOfMonth_is_the_last_witness :
  100 <= 2026 < 200000 /\ 0 <= 4 <= 11 /\ 0 <= 1 <= 6
  /\ exists n,
       lastWeekdayOfMonth 2026 4 1 = Ok (day_date n)
       /\ weekday_of n = 1
       /\ civil_day 2026 4 25 <= n <= civil_day 2026 4 31.
Proof.
  assert (H1 : 100 <= 2026 < 200000) by lia.
  assert (H2 : 0 <= 4 <= 11) by lia.
  assert (H3 : 0 <= 1 <= 6) by lia.
  split; [exact H1|]. split; [exact H2|]. split; [exact H3|].
  destruct (lastWeekdayOfMonth_is_the_last 2026 4 1 H1 H2 H3)
    as (n & Hn & Hw & Hr & _).
  exists n. split; [exact Hn|]. split; [exact Hw|].
  assert (E : civil_day 2026 (4 + 1) 1 = civil_day 2026 4 31 + 1)
    by (vm_compute; reflexivity).
  rewrite E in Hr. unfold civil_day in *. lia.
Defined.

Lemma civil_day_in_year (y m d : Z) :
  0 <= m <= 11 -> 1 <= d <= 31 ->
  DayFromYear y <= civil_day y m d < DayFromYear (y + 1).
Proof.
  intros Hm Hd. unfold civil_day.
  rewrite (Z.div_small m 12), (Z.mod_small m 12), Z.add_0_r by lia.
  rewrite DayFromYear_succ.
  assert (Hc : m = 0 \/ m = 1 \/ m = 2 \/ m = 3 \/ m = 4 \/ m = 5 \/ m = 6
               \/ m = 7 \/ m = 8 \/ m = 9 \/ m = 10 \/ m = 11) by lia.
  destruct (DaysInYear_cases y) as [E|E]; rewrite E; cbn [Z.eqb Pos.eqb];
    destruct Hc as [-> | [-> | [-> | [-> | [-> | [-> | [-> | [-> | [-> | [-> | [-> | ->]]]]]]]]]]];
    cbn [MonthStart]; lia.
Qed.

Lemma civil_day_next_month (y m : Z) :
  0 <= m <= 10 ->
  DayFromYear y + 28 <= civil_day y (m + 1) 1 < DayFromYear (y + 1).
Proof.
  intros Hm. pose proof (civil_day_in_year y (m + 1) 1 ltac:(lia) ltac:(lia)) as H.
  split; [|apply H]. unfold civil_day.
  rewrite (Z.div_small (m + 1) 12), (Z.mod_small (m + 1) 12), Z.add_0_r by lia.
  assert (Hc : m = 0 \/ m = 1 \/ m = 2 \/ m = 3 \/ m = 4 \/ m = 5 \/ m = 6
               \/ m = 7 \/ m = 8 \/ m = 9 \/ m = 10) by lia.
  destruct (DaysInYear y =? 366);
    destruct Hc as [-> | [-> | [-> | [-> | [-> | [-> | [-> | [-> | [-> | [-> | ->]]]]]]]]]];
    match goal with
    | |- context [MonthStart ?a ?b] =>
        let v := eval vm_compute in (MonthStart a b) in
        change (MonthStart a b) with v
    end; lia.
Qed.

Lemma year_supported (y n : Z) :
  101 <= y <= 9998 -> DayFromYear y - 1 <= n < DayFromYear (y + 1) ->
  supported_day n.
Proof.
  intros Hy Hn. unfold supported_day, first_day, last_day.
  pose proof (DayFromYear_mono 101 y ltac:(lia)).
  pose proof (DayFromYear_mono (y + 1) 9999 ltac:(lia)).
  pose proof (DayFromYear_succ 100). pose proof (DayFromYear_succ 9999).
  pose proof (DaysInYear_cases 100). pose proof (DaysInYear_cases 9999).
  change (100 + 1) with 101 in *. change (9999 + 1) with 10000 in *. lia.
Qed.

Lemma push_holiday (y : Z) (set : gset string) (holiday : result date) (n : Z) :
  101 <= y <= 9998 ->
  (forall k, k ∈ set -> holiday_text y k) ->
  holiday = Ok (day_date n) ->
  is_weekend n = false -> DayFromYear y - 1 <= n < DayFromYear (y + 1) ->
  exists set', push set holiday = Ok set'
               /\ forall k, k ∈ set' -> holiday_text y k.
Proof.
  intros Hy Hset -> Hw Hn. unfold push. cbn [bind].
  rewrite (ymd_day_date n (year_supported y n Hy Hn)). cbn [bind].
  eexists. split; [reflexivity|].
  intros k Hk. apply elem_of_union in Hk as [Hk|Hk]; [|apply Hset, Hk].
  apply elem_of_singleton in Hk as ->. exists n. auto.
Qed.

(** X26.  Every date of the federal holiday set of a year is a weekday,
    and lies in that year (or is 31 December of the year before, for a New
    Year's Day that falls on a Saturday): under the holiday policy each of
    them takes one day off the count of business days. *)
Theorem federal_holidays_are_weekdays (y : Z) :
  101 <= y <= 9998 ->
  exists set,
    federalHolidaySetForYear y = Ok set
    /\ forall k, k ∈ set ->
         exists n, k = iso_date (n * msPerDay)
                   /\ is_weekend n = false
                   /\ DayFromYear y - 1 <= n < DayFromYear (y + 1)
                   /\ business set n = false.
Proof.
  intros Hy. unfold federalHolidaySetForYear.
  assert (H0 : forall k, k ∈ (∅ : gset string) -> holiday_text y k)
    by (intros k Hk; apply not_elem_of_empty in Hk; destruct Hk).
  revert H0. generalize (∅ : gset string). intros s0 H0.
  repeat match goal with
         | Hs : (forall k : string, _ -> holiday_text y k)
           |- context [ push ?s (observedFixed y ?m ?d) ] =>
             let n := fresh "n" in
             let s' := fresh "s" in
             pose proof (observedFixed_day y m d ltac:(lia) ltac:(lia) ltac:(lia));
             destruct (observed_weekday (civil_day y m d));
             set (n := observed (civil_day y m d)) in *;
             pose proof (civil_day_in_year y m d ltac:(lia) ltac:(lia));
             pose proof (civil_day_in_year y m (d + 1) ltac:(lia) ltac:(lia));
             pose proof (civil_day_add y m d 1);
             destruct (push_holiday y s (observedFixed y m d) n Hy Hs
                         ltac:(assumption) ltac:(assumption) ltac:(lia))
               as (s' & -> & ?);
             clear Hs; cbn [bind]
         | Hs : (forall k : string, _ -> holiday_text y k)
           |- context [ push ?s (nthWeekdayOfMonth y ?m ?w ?j) ] =>
             let n := fresh "n" in
             let s' := fresh "s" in
             pose proof (nthWeekdayOfMonth_day y m w j
                           ltac:(lia) ltac:(lia) ltac:(lia) ltac:(lia));
             destruct (nth_weekday_spec (civil_day y m 1) w j ltac:(lia));
             set (n := nth_weekday (civil_day y m 1) w j) in *;
             pose proof (civil_day_in_year y m 1 ltac:(lia) ltac:(lia));
             pose proof (civil_day_in_year y m 28 ltac:(lia) ltac:(lia));
             pose proof (civil_day_add y m 1 27
                         : civil_day y m 28 = civil_day y m 1 + 27);
             destruct (push_holiday y s (nthWeekdayOfMonth y m w j) n Hy Hs
                         ltac:(assumption)
                         ltac:(unfold is_weekend;
                               match goal with
                               | E : weekday_of n = _ |- _ => rewrite E; reflexivity
                               end)
                         ltac:(lia))
               as (s' & -> & ?);
             clear Hs; cbn [bind]
         | Hs : (forall k : string, _ -> holiday_text y k)
           |- context [ push ?s (lastWeekdayOfMonth y ?m ?w) ] =>
             let n := fresh "n" in
             let s' := fresh "s" in
             pose proof (lastWeekdayOfMonth_day y m w
                           ltac:(lia) ltac:(lia) ltac:(lia));
             destruct (last_weekday_spec (civil_day y (m + 1) 1 - 1) w
                         ltac:(lia));
             set (n := last_weekday (civil_day y (m + 1) 1 - 1) w) in *;
             pose proof (civil_day_next_month y m ltac:(lia));
             destruct (push_holiday y s (lastWeekdayOfMonth y m w) n Hy Hs
                         ltac:(assumption)
                         ltac:(unfold is_weekend;
                               match goal with
                               | E : weekday_of n = _ |- _ => rewrite E; reflexivity
                               end)
                         ltac:(lia))
               as (s' & -> & ?);
             clear Hs; cbn [bind]
         end.
  lazymatch goal with
  | Hs : (forall k : string, _ -> holiday_text y k)
    |- exists _, Ok ?s = _ /\ _ =>
      exists s; split; [reflexivity|];
      intros k Hk; destruct (Hs k Hk) as (nk & Ek & Hw & Hnk);
      exists nk; split; [exact Ek|]; split; [exact Hw|]; split; [exact Hnk|];
      unfold business; rewrite Hw, <- Ek; cbn [negb andb];
      rewrite bool_decide_eq_true_2 by exact Hk; reflexivity
  end.
Qed.

Lemma federal_holidays_are_weekdays_witness :
  101 <= 2026 <= 9998
  /\ exists set,
       federalHolidaySetForYear 2026 = Ok set
       /\ forall k, k ∈ set ->
            exists n, k = iso_date (n * msPerDay) /\ is_weekend n = false.
Proof.
  assert (H1 : 101 <= 2026 <= 9998) by lia.
  split; [exact H1|].
  destruct (federal_holidays_are_weekdays 2026 H1) as (set & Hset & Hall).
  exists set. split; [exact Hset|].
  intros k Hk. destruct (Hall k Hk) as (n & Hn & Hw & _).
  exists n. split; [exact Hn|exact Hw].
Defined.

(** *** Business days and weekdays *)

Lemma filter_partition_length {A : Type} (P Q : A -> bool) (l : list A) :
  (List.length (List.filter (fun x => P x && Q x) l)
   + List.length (List.filter (fun x => P x && negb (Q x)) l))%nat
  = List.length (List.filter P l).
Proof.
  induction l as [|x l IH]; [reflexivity|]. cbn [List.filter].
  destruct (P x), (Q x); cbn [andb negb List.length]; lia.
Qed.

Lemma business_split (H : gset string) (a b : Z) :
  count_days (business H) a b + count_days (holiday_weekday H) a b
  = weekdays_in a b.
Proof.
  unfold count_days, weekdays_in, count_days.
  pose proof (filter_partition_length (fun n => negb (is_weekend n))
                (fun n => bool_decide (iso_date (n * msPerDay) ∈ H))
                (seqZ a (b - a + 1))) as Hp.
  unfold business, holiday_weekday. lia.
Qed.

Lemma count_days_ext (P Q : Z -> bool) (a b : Z) :
  (forall n, a <= n <= b -> P n = Q n) -> count_days P a b = count_days Q a b.
Proof.
  intros Hext. unfold count_days. f_equal. f_equal.
  apply List.filter_ext_in. intros n Hn.
  apply list_elem_of_In, elem_of_seqZ in Hn. apply Hext. lia.
Qed.

Lemma count_days_le_pred (P Q : Z -> bool) (a b : Z) :
  (forall n, a <= n <= b -> P n = true -> Q n = true) ->
  count_days P a b <= count_days Q a b.
Proof.
  intros Himp. unfold count_days.
  assert (Hin : forall n, In n (seqZ a (b - a + 1)) -> P n = true -> Q n = true).
  { intros n Hn. apply list_elem_of_In, elem_of_seqZ in Hn. apply Himp. lia. }
  induction (seqZ a (b - a + 1)) as [|x l IH]; [reflexivity|].
  cbn [List.filter].
  specialize (IH (fun n Hn => Hin n (or_intror Hn))).
  pose proof (Hin x (or_introl eq_refl)) as Hx.
  destruct (P x), (Q x); cbn [List.length];
    try (specialize (Hx eq_refl); discriminate); lia.
Qed.

(** X27.  Business days under the holiday policy against plain weekdays:
    the count of the second revision is the weekday count of the first
    minus one for each weekday of the range whose date is in the holiday
    set.  It equals the weekday count when no date of the range is in the
    set, in particular for the empty set, and it can only go down when
    dates are added to the set. *)
Theorem businessDays_against_weekdays (a b : value) (na nb : Z)
    (H H' : gset string) :
  denotes a na -> denotes b nb ->
  exists x y,
    businessDaysBetweenInclusive a b H = Ok x
    /\ Planner.weekdaysBetweenInclusive a b = Ok y
    /\ 0 <= x
    /\ x + count_days (holiday_weekday H) na nb = y
    /\ businessDaysBetweenInclusive a b ∅ = Ok y
    /\ ((forall n, na <= n <= nb -> iso_date (n * msPerDay) ∉ H) -> x = y)
    /\ (H ⊆ H' ->
        exists x', businessDaysBetweenInclusive a b H' = Ok x' /\ x' <= x).
Proof.
  intros Ha Hb.
  exists (count_days (business H) na nb), (weekdays_in na nb).
  rewrite !(businessDaysBetweenInclusive_denotes _ _ _ _ _ Ha Hb).
  rewrite (weekdaysBetweenInclusive_denotes _ _ _ _ Ha Hb).
  split; [reflexivity|]. split; [reflexivity|].
  split; [apply count_days_nonneg|].
  split; [apply business_split|]. split; [|split].
  - f_equal. unfold weekdays_in. apply count_days_ext. intros n _.
    unfold business. rewrite bool_decide_eq_false_2 by apply not_elem_of_empty.
    apply andb_true_r.
  - intros Hnone. unfold weekdays_in. apply count_days_ext. intros n Hn.
    unfold business. rewrite bool_decide_eq_false_2 by apply Hnone, Hn.
    apply andb_true_r.
  - intros Hsub. eexists. split; [reflexivity|].
    apply count_days_le_pred. intros n _. unfold business.
    destruct (negb (is_weekend n)); [|discriminate]. cbn [andb].
    destruct (bool_decide (iso_date (n * msPerDay) ∈ H)) eqn:E.
    + rewrite (bool_decide_eq_true_2 _ (Hsub _ (bool_decide_eq_true_1 _ E))).
      discriminate.
    + reflexivity.
Qed.

Lemma businessDays_against_weekdays_witness :
  denotes (VStr "2026-01-01") 20454
  /\ denotes (VStr "2026-01-09") 20462
  /\ exists x y,
       businessDaysBetweenInclusive (VStr "2026-01-01") (VStr "2026-01-09")
         {[ "2026-01-01" ]} = Ok x
       /\ Planner.weekdaysBetweenInclusive (VStr "2026-01-01") (VStr "2026-01-09")
          = Ok y
       /\ x + count_days (holiday_weekday {[ "2026-01-01" ]}) 20454 20462 = y.
Proof.
  assert (H1 : denotes (VStr "2026-01-01") 20454) by denotes_by_eval.
  assert (H2 : denotes (VStr "2026-01-09") 20462) by denotes_by_eval.
  split; [exact H1|]. split; [exact H2|].
  destruct (businessDays_against_weekdays _ _ _ _ {[ "2026-01-01" ]} ∅ H1 H2)
    as (x & y & Hx & Hy & _ & Hsum & _).
  exists x, y. split; [exact Hx|]. split; [exact Hy|exact Hsum].
Defined.

End HolidayLaws.
